(** * Phone-lookup gateway: a shallow embedding of the request pipeline

    The development follows the layout of the repository:

    - [Js]        the fragments of JavaScript the handlers rely on
                  (truthiness, [parseInt], [Date#toISOString], exceptions);
    - [Db]        [lib/db.js]: the three tables and the queries on them;
    - [Kv]        the key-value store as [lib/auth.js] uses it;
    - [Auth]      [lib/auth.js]: tokens and sessions;
    - [Lookup]    [pages/api/lookup.js]: the caller-facing pipeline;
    - [RevokeKey] [pages/api/admin/revoke-key.js].

    Everything the source obtains from outside the repository (the clock,
    the SHA-256 digest, the random UUID, the upstream provider, the store
    accepting or refusing an insert) is a field of [Env]; the mutable
    stores (the relational tables and the key-value store) are threaded
    through a state-and-exception monad [Eff]. *)

From stdpp Require Import gmap strings list.
From Stdlib Require Import ZArith Ascii.
From Stdlib Require String.

Local Open Scope string_scope.
Local Open Scope list_scope.
Local Open Scope Z_scope.

(* ===================================================================== *)
(** ** JavaScript values and builtins *)
(* ===================================================================== *)

Module Js.

(** A parsed JSON document.  Objects keep their fields in insertion order;
    a parsed object has pairwise distinct keys.  Numbers are kept as
    integers: the code only ever tests a number for being zero or passes it
    on unchanged. *)
#[warnings="-register-all"]
Inductive json : Type :=
| JNull
| JBool (b : bool)
| JNum (n : Z)
| JStr (s : string)
| JArr (items : list json)
| JObj (fields : list (string * json)).

(** [ToBoolean]: [null], [false], [0] and the empty string are falsy. *)
Definition truthy (v : json) : bool :=
  match v with
  | JNull => false
  | JBool b => b
  | JNum n => negb (n =? 0)
  | JStr s => negb (String.eqb s "")
  | JArr _ | JObj _ => true
  end.

(** Truthiness of an optional string, as for a query parameter or a header
    that may be absent ([undefined]) or empty. *)
Definition truthy_str (o : option string) : bool :=
  match o with
  | Some s => negb (String.eqb s "")
  | None => false
  end.

(** [o.f] on an arbitrary JSON value other than [null]: own properties of an
    object; primitives and arrays have none of the names used here. *)
Fixpoint assoc (f : string) (fields : list (string * json)) : option json :=
  match fields with
  | [] => None
  | (k, v) :: rest => if String.eqb k f then Some v else assoc f rest
  end.

Definition get_field (v : json) (f : string) : option json :=
  match v with
  | JObj fields => assoc f fields
  | _ => None
  end.

(** [a || b] where [a] is a property read (absent reads as [undefined]). *)
Definition or_else (a : option json) (b : json) : json :=
  match a with
  | Some v => if truthy v then v else b
  | None => b
  end.

(** Thrown values.  [Error] covers [new Error(msg)] and the errors raised by
    the database driver and the HTTP client. *)
Inductive exn : Type :=
| Error (message : string)
| TypeError (message : string)
| ReferenceError (ident : string).

Definition message (e : exn) : string :=
  match e with
  | Error m | TypeError m => m
  | ReferenceError x => x +:+ " is not defined"
  end.

(** [s.includes(pat)] *)
Fixpoint includes (s pat : string) : bool :=
  String.prefix pat s ||
  match s with
  | EmptyString => false
  | String _ s' => includes s' pat
  end.

(** [s.substring(0, n)] *)
Definition substring0 (n : nat) (s : string) : string := String.substring 0 n s.

Definition is_digit (c : ascii) : bool :=
  let n := nat_of_ascii c in (48 <=? n)%nat && (n <=? 57)%nat.

Definition digit_val (c : ascii) : Z := Z.of_nat (nat_of_ascii c) - 48.

(** Value of a hexadecimal digit, if it is one. *)
Definition hex_val (c : ascii) : option Z :=
  let n := Z.of_nat (nat_of_ascii c) in
  if (48 <=? n) && (n <=? 57) then Some (n - 48)
  else if (65 <=? n) && (n <=? 70) then Some (n - 55)
  else if (97 <=? n) && (n <=? 102) then Some (n - 87)
  else None.

Definition is_space (c : ascii) : bool :=
  let n := nat_of_ascii c in
  ((9 <=? n)%nat && (n <=? 13)%nat) || (n =? 32)%nat.

Fixpoint skip_spaces (s : string) : string :=
  match s with
  | String c s' => if is_space c then skip_spaces s' else s
  | EmptyString => s
  end.

(** The longest prefix of digits in the given radix, read as a number;
    [None] when there is no digit at all ([NaN]). *)
Fixpoint read_digits (val : ascii -> option Z) (radix : Z) (acc : option Z)
    (s : string) : option Z :=
  match s with
  | String c s' =>
      match val c with
      | Some d => read_digits val radix (Some (default 0 acc * radix + d)) s'
      | None => acc
      end
  | EmptyString => acc
  end.

Definition dec_val (c : ascii) : option Z :=
  if is_digit c then Some (digit_val c) else None.

Definition read_unsigned (s : string) : option Z :=
  match s with
  | String "0"%char (String "x"%char s')
  | String "0"%char (String "X"%char s') =>
      read_digits hex_val 16 None s'
  | _ => read_digits dec_val 10 None s
  end.

(** [parseInt(s)] on a string: leading white space, an optional sign, an
    optional [0x] prefix, then the longest run of digits. [None] is [NaN]. *)
Definition parseInt_str (s : string) : option Z :=
  match skip_spaces s with
  | String "-"%char s' => Z.opp <$> read_unsigned s'
  | String "+"%char s' => read_unsigned s'
  | s' => read_unsigned s'
  end.

(** A scalar of a JSON request body: a string, or a number that is an
    integer small enough to print as plain digits. *)
Inductive scalar : Type :=
| SNum (n : Z)
| SStr (s : string).

Definition truthy_scalar (o : option scalar) : bool :=
  match o with
  | Some (SNum n) => negb (n =? 0)
  | Some (SStr s) => negb (String.eqb s "")
  | None => false
  end.

(** [parseInt(v)]; an integer within the safe range prints as its digits. *)
Definition parseInt (v : scalar) : option Z :=
  match v with
  | SNum n => Some n
  | SStr s => parseInt_str s
  end.

(** *** Dates

    A [Date] is its time value: milliseconds since the epoch, UTC. *)

Definition ms_per_day : Z := 86400000.

Definition digit_char (d : Z) : ascii := ascii_of_nat (Z.to_nat (48 + d mod 10)).

(** The [width] low decimal digits of [n], zero padded. *)
Fixpoint pad (width : nat) (n : Z) : string :=
  match width with
  | O => ""
  | S w => pad w (n / 10) +:+ String (digit_char n) ""
  end.

(** Proleptic Gregorian date of a day number counted from 1970-01-01. *)
Definition civil_from_days (days : Z) : Z * Z * Z :=
  let z := days + 719468 in
  let era := z / 146097 in
  let doe := z - era * 146097 in
  let yoe := (doe - doe / 1460 + doe / 36524 - doe / 146096) / 365 in
  let doy := doe - (365 * yoe + yoe / 4 - yoe / 100) in
  let mp := (5 * doy + 2) / 153 in
  let d := doy - (153 * mp + 2) / 5 + 1 in
  let m := if mp <? 10 then mp + 3 else mp - 9 in
  let y := yoe + era * 400 + (if m <=? 2 then 1 else 0) in
  (y, m, d).

Definition iso_year (y : Z) : string :=
  if (0 <=? y) && (y <=? 9999) then pad 4 y
  else (if y <? 0 then "-" else "+") +:+ pad 6 (Z.abs y).

(** [new Date(t).toISOString()] *)
Definition toISOString (t : Z) : string :=
  let '(y, m, d) := civil_from_days (t / ms_per_day) in
  let r := t mod ms_per_day in
  iso_year y +:+ "-" +:+ pad 2 m +:+ "-" +:+ pad 2 d +:+ "T" +:+
  pad 2 (r / 3600000) +:+ ":" +:+ pad 2 (r / 60000 mod 60) +:+ ":" +:+
  pad 2 (r / 1000 mod 60) +:+ "." +:+ pad 3 (r mod 1000) +:+ "Z".

(** [s.split(sep)[0]] for a one-character separator. *)
Fixpoint split_head (sep : ascii) (s : string) : string :=
  match s with
  | String c s' => if Ascii.eqb c sep then "" else String c (split_head sep s')
  | EmptyString => ""
  end.

(** [new Date().toISOString().split('T')[0]] *)
Definition iso_date (t : Z) : string := split_head "T"%char (toISOString t).

End Js.

(* ===================================================================== *)
(** ** Stores, environment and the effect monad *)
(* ===================================================================== *)

(** A row of [api_keys].  Times are in milliseconds since the epoch;
    [expires_at] and [user_id] are nullable.  [last_reset_date] is the
    [YYYY-MM-DD] text of the DATE column, which is what [incrementApiUsage]
    compares it with. *)
Record ApiKeyRow : Type := {
  id : Z;
  key_hash : string;
  api_key : string;
  user_id : option Z;
  created_at : Z;
  expires_at : option Z;
  is_paused : bool;
  daily_limit : Z;
  daily_used : Z;
  last_reset_date : string
}.

Record UserRow : Type := {
  u_id : Z;
  username : string;
  password_hash : string;
  u_created_at : Z;
  last_password_change : Z;
  is_active : bool
}.

(** A row of [api_usage_logs] (its serial id is left out). *)
Record UsageRow : Type := {
  api_key_id : Z;
  mobile_number : string;
  response_time : Z;
  status : string;
  ip_address : string;
  user_agent : option string;
  log_created_at : Z
}.

Record Tables : Type := {
  api_keys : list ApiKeyRow;
  users : list UserRow;
  api_usage_logs : list UsageRow
}.

(** A signed token, symbolically: its claims and the secret it was signed
    with.  Forging means signing with a secret other than the server's. *)
Record Claims : Type := {
  c_userId : Z;
  c_username : string;
  iat : Z;
  exp : Z
}.

Record Token : Type := {
  claims : Claims;
  signed_with : string
}.

(** The object kept under [session:<id>]; serialising it with
    [JSON.stringify] and reading it back with [JSON.parse] is the identity. *)
Record Session : Type := {
  token : Token;
  userId : Z;
  s_username : string;
  createdAt : string
}.

(** An entry of the key-value store with the instant at which it lapses. *)
Record KvEntry : Type := {
  kv_value : Session;
  kv_deadline : Z
}.

(** What the HTTP client does for the upstream request: it throws (time-out,
    network failure, a status outside 2xx) or yields the parsed body. *)
Inductive UpstreamReply : Type :=
| UpstreamThrows (message : string)
| UpstreamBody (data : Js.json).

(** A call made to a collaborator, in the order the calls are made. *)
Inductive Call : Type :=
| CallHash (secret : string)
| CallGetApiKey (keyHash : string)
| CallCountIp (ip : string)
| CallReadQuota (apiKeyId : Z)
| CallUpstream (number : string)
| CallIncrement (apiKeyId : Z)
| CallLogUsage (row : UsageRow).

(** Everything outside the repository that a request depends on. *)
Record Env : Type := {
  now : Z;
  sha256_hex : string -> string;
  random_uuid : string;
  jwt_secret : string;
  upstream : string -> UpstreamReply;
  upstream_latency : Z;
  usage_insert_error : option string
}.

Record Sys : Type := {
  tables : Tables;
  kv : gmap string KvEntry;
  calls : list Call
}.

Definition with_tables (t : Tables) (s : Sys) : Sys :=
  {| tables := t; kv := kv s; calls := calls s |}.

Definition with_kv (m : gmap string KvEntry) (s : Sys) : Sys :=
  {| tables := tables s; kv := m; calls := calls s |}.

Definition with_api_keys (l : list ApiKeyRow) (t : Tables) : Tables :=
  {| api_keys := l; users := users t; api_usage_logs := api_usage_logs t |}.

Definition with_users (l : list UserRow) (t : Tables) : Tables :=
  {| api_keys := api_keys t; users := l; api_usage_logs := api_usage_logs t |}.

Definition with_usage_logs (l : list UsageRow) (t : Tables) : Tables :=
  {| api_keys := api_keys t; users := users t; api_usage_logs := l |}.

(** How a computation ends: with a value or with a thrown exception. *)
Inductive completion (A : Type) : Type :=
| Normal (a : A)
| Throw (e : Js.exn).
Arguments Normal {A} a.
Arguments Throw {A} e.

Definition Eff (A : Type) : Type := Env -> Sys -> completion A * Sys.

#[global] Instance Eff_ret : MRet Eff := fun A a _ s => (Normal a, s).

#[global] Instance Eff_bind : MBind Eff := fun A B f m w s =>
  match m w s with
  | (Normal a, s') => f a w s'
  | (Throw e, s') => (Throw e, s')
  end.

#[global] Instance Eff_throw : MThrow Js.exn Eff := fun A e _ s => (Throw e, s).

(** [try { m } catch (e) { h e }] *)
Definition try_catch {A} (m : Eff A) (h : Js.exn -> Eff A) : Eff A :=
  fun w s =>
    match m w s with
    | (Normal a, s') => (Normal a, s')
    | (Throw e, s') => h e w s'
    end.

(** The outcome of the inner [try], handed to the code that follows it. *)
Definition attempt {A} (m : Eff A) : Eff (completion A) :=
  fun w s => let '(r, s') := m w s in (Normal r, s').

Definition ask : Eff Env := fun w s => (Normal w, s).
Definition get_tables : Eff Tables := fun _ s => (Normal (tables s), s).
Definition put_tables (t : Tables) : Eff unit :=
  fun _ s => (Normal tt, with_tables t s).
Definition get_kv : Eff (gmap string KvEntry) := fun _ s => (Normal (kv s), s).
Definition put_kv (m : gmap string KvEntry) : Eff unit :=
  fun _ s => (Normal tt, with_kv m s).
Definition add_call (c : Call) (s : Sys) : Sys :=
  {| tables := tables s; kv := kv s; calls := calls s ++ [c] |}.

Definition record_call (c : Call) : Eff unit :=
  fun _ s => (Normal tt, add_call c s).

(** Reading an identifier that no enclosing scope declares. *)
Definition unbound {A} (ident : string) : Eff A := mthrow (Js.ReferenceError ident).

(* ===================================================================== *)
(** ** lib/db.js *)
(* ===================================================================== *)

Module Db.

(** The row [getApiKey] selects: columns of the key and the owner's name. *)
Record KeyInfo : Type := {
  ki_id : Z;
  ki_user_id : option Z;
  ki_expires_at : option Z;
  ki_is_paused : bool;
  ki_daily_limit : Z;
  ki_daily_used : Z;
  ki_last_reset_date : string;
  ki_username : string
}.

Definition select_key (k : ApiKeyRow) (u : UserRow) : KeyInfo :=
  {| ki_id := id k; ki_user_id := user_id k; ki_expires_at := expires_at k;
     ki_is_paused := is_paused k; ki_daily_limit := daily_limit k;
     ki_daily_used := daily_used k; ki_last_reset_date := last_reset_date k;
     ki_username := username u |}.

(** [FROM api_keys ak JOIN users u ON ak.user_id = u.id WHERE ak.key_hash = h] *)
Definition key_join_user (t : Tables) (keyHash : string) : list KeyInfo :=
  k ← filter (fun k => key_hash k = keyHash) (api_keys t);
  u ← filter (fun u => user_id k = Some (u_id u)) (users t);
  [select_key k u].

Definition getApiKey (keyHash : string) : Eff (option KeyInfo) :=
  record_call (CallGetApiKey keyHash);;
  t ← get_tables;
  mret (head (key_join_user t keyHash)).

Definition rows_by_id (apiKeyId : Z) (t : Tables) : list ApiKeyRow :=
  filter (fun k => id k = apiKeyId) (api_keys t).

(** [UPDATE api_keys SET ... WHERE id = apiKeyId] *)
Definition update_key (apiKeyId : Z) (f : ApiKeyRow -> ApiKeyRow) (t : Tables) : Tables :=
  with_api_keys
    (map (fun k => if decide (id k = apiKeyId) then f k else k) (api_keys t)) t.

Definition reset_usage (today : string) (k : ApiKeyRow) : ApiKeyRow :=
  {| id := id k; key_hash := key_hash k; api_key := api_key k;
     user_id := user_id k; created_at := created_at k;
     expires_at := expires_at k; is_paused := is_paused k;
     daily_limit := daily_limit k; daily_used := 1;
     last_reset_date := today |}.

Definition bump_usage (k : ApiKeyRow) : ApiKeyRow :=
  {| id := id k; key_hash := key_hash k; api_key := api_key k;
     user_id := user_id k; created_at := created_at k;
     expires_at := expires_at k; is_paused := is_paused k;
     daily_limit := daily_limit k; daily_used := daily_used k + 1;
     last_reset_date := last_reset_date k |}.

(** [keyInfo.rows[0]?.last_reset_date !== today] *)
Definition needs_reset (rows : list ApiKeyRow) (today : string) : bool :=
  match head rows with
  | Some k => negb (String.eqb (last_reset_date k) today)
  | None => true
  end.

Definition incrementApiUsage (apiKeyId : Z) : Eff unit :=
  record_call (CallIncrement apiKeyId);;
  w ← ask;
  let today := Js.iso_date (now w) in
  t ← get_tables;
  if needs_reset (rows_by_id apiKeyId t) today
  then put_tables (update_key apiKeyId (reset_usage today) t)
  else put_tables (update_key apiKeyId bump_usage t).

(** The insert may be refused by the store (for instance an address that is
    not valid for the INET column); the driver then throws. *)
Definition logUsage (apiKeyId : Z) (mobileNumber : string) (responseTime : Z)
    (status : string) (ip : string) (userAgent : option string) : Eff unit :=
  w ← ask;
  let row := {| api_key_id := apiKeyId; mobile_number := mobileNumber;
                response_time := responseTime; status := status;
                ip_address := ip; user_agent := userAgent;
                log_created_at := now w |} in
  record_call (CallLogUsage row);;
  match usage_insert_error w with
  | Some msg => mthrow (Js.Error msg)
  | None =>
      t ← get_tables;
      put_tables (with_usage_logs (api_usage_logs t ++ [row]) t)
  end.

End Db.

(* ===================================================================== *)
(** ** The key-value store *)
(* ===================================================================== *)

Module Kv.

(** An entry is visible until its deadline; a lapsed entry reads as absent. *)
Definition live (t : Z) (m : gmap string KvEntry) (key : string) : option KvEntry :=
  match m !! key with
  | Some e => if t <? kv_deadline e then Some e else None
  | None => None
  end.

(** [kv.setex(key, seconds, value)] *)
Definition setex (key : string) (seconds : Z) (value : Session) : Eff unit :=
  w ← ask;
  m ← get_kv;
  put_kv (<[key := {| kv_value := value; kv_deadline := now w + seconds * 1000 |}]> m).

(** [kv.get(key)] *)
Definition get (key : string) : Eff (option Session) :=
  w ← ask;
  m ← get_kv;
  mret (kv_value <$> live (now w) m key).

(** [kv.expire(key, seconds)]: the time to live of an existing key is set to
    [seconds], counted from now. *)
Definition expire (key : string) (seconds : Z) : Eff unit :=
  w ← ask;
  m ← get_kv;
  match live (now w) m key with
  | Some e =>
      put_kv (<[key := {| kv_value := kv_value e;
                          kv_deadline := now w + seconds * 1000 |}]> m)
  | None => mret tt
  end.

(** [kv.del(key)] *)
Definition del (key : string) : Eff unit :=
  m ← get_kv;
  put_kv (delete key m).

(** Remaining time to live in milliseconds, as seen at [t]. *)
Definition ttl (t : Z) (m : gmap string KvEntry) (key : string) : option Z :=
  (fun e => kv_deadline e - t) <$> live t m key.

End Kv.

(* ===================================================================== *)
(** ** lib/auth.js *)
(* ===================================================================== *)

Module Auth.

Definition generateToken (userId : Z) (username : string) : Eff Token :=
  w ← ask;
  let payload := {| c_userId := userId; c_username := username;
                    iat := now w / 1000;
                    exp := now w / 1000 + 24 * 60 * 60 |} in
  mret {| claims := payload; signed_with := jwt_secret w |}.

(** [jwt.verify] checks the signature and that [exp] lies in the future;
    [verifyToken] turns a failure into [null]. *)
Definition verifyToken (token : Token) : Eff (option Claims) :=
  w ← ask;
  if decide (signed_with token = jwt_secret w) then
    if now w / 1000 <? exp (claims token) then mret (Some (claims token))
    else mret None
  else mret None.

Definition hashApiKey (apiKey : string) : Eff string :=
  record_call (CallHash apiKey);;
  w ← ask;
  mret (sha256_hex w apiKey).

Definition session_key (sessionId : string) : string := "session:" +:+ sessionId.

Definition createSession (userId : Z) (username : string) : Eff (string * Token) :=
  w ← ask;
  let sessionId := random_uuid w in
  token ← generateToken userId username;
  Kv.setex (session_key sessionId) 86400
    {| token := token; userId := userId; s_username := username;
       createdAt := Js.toISOString (now w) |};;
  mret (sessionId, token).

(** The [try] of the source guards [JSON.parse] and [verifyToken]; with
    the store holding records as above neither throws. *)
Definition validateSession (sessionId : option string) : Eff (option Claims) :=
  if negb (Js.truthy_str sessionId) then mret None
  else
    let key := session_key (default "" sessionId) in
    sessionData ← Kv.get key;
    match sessionData with
    | None => mret None
    | Some session =>
        decoded ← verifyToken (token session);
        match decoded with
        | Some d =>
            if decide (c_userId d = userId session) then
              Kv.expire key 1800;;
              mret (Some d)
            else mret None
        | None => mret None
        end
    end.

Definition destroySession (sessionId : option string) : Eff unit :=
  if Js.truthy_str sessionId then Kv.del (session_key (default "" sessionId))
  else mret tt.

End Auth.

(* ===================================================================== *)
(** ** HTTP responses *)
(* ===================================================================== *)

(** [res.status(code).json(body)], or [res.status(code).end()] when there is
    no body.  (The CORS headers set on every response are left out.) *)
Record Response : Type := {
  statusCode : Z;
  body : option Js.json
}.

Definition send_json (code : Z) (b : Js.json) : Eff Response :=
  mret {| statusCode := code; body := Some b |}.

Definition send_end (code : Z) : Eff Response :=
  mret {| statusCode := code; body := None |}.

Definition error_body (msg : string) : Js.json := Js.JObj [("error", Js.JStr msg)].

(* ===================================================================== *)
(** ** pages/api/lookup.js *)
(* ===================================================================== *)

Module Lookup.

Import Js.

(** The parts of the request the handler reads; each query parameter is
    given at most once, so it is a string or absent. *)
Record Request : Type := {
  method : string;
  q_key : option string;
  q_number : option string;
  x_forwarded_for : option string;
  remoteAddress : option string;
  h_user_agent : option string
}.

Definition one_hour : Z := 3600000.

(** [COUNT( * ) FROM api_usage_logs WHERE ip_address = ip
     AND created_at > NOW() - INTERVAL '1 hour'] *)
Definition ip_usage_count (t : Tables) (ip : string) (now : Z) : Z :=
  Z.of_nat (length (filter
    (fun r => ip_address r = ip /\ now - one_hour < log_created_at r)
    (api_usage_logs t))).

Definition checkRateLimit (apiKeyId : Z) (ip : string) : Eff bool :=
  w ← ask;
  record_call (CallCountIp ip);;
  t ← get_tables;
  if 100 <=? ip_usage_count t ip (now w) then
    mthrow (Error "Rate limit exceeded. Too many requests from this IP.")
  else
    record_call (CallReadQuota apiKeyId);;
    match head (Db.rows_by_id apiKeyId t) with
    | None => mthrow (TypeError "Cannot read properties of undefined (reading 'daily_used')")
    | Some keyInfo =>
        if daily_limit keyInfo <=? daily_used keyInfo then
          mthrow (Error "Daily quota exceeded for this API key.")
        else mret true
    end.

Definition is_6_to_9 (c : ascii) : bool :=
  let n := nat_of_ascii c in (54 <=? n)%nat && (n <=? 57)%nat.

(** [/^[6-9]\d{9}$/.test(number)] *)
Definition mobileRegex_test (number : string) : bool :=
  match number with
  | String c rest =>
      is_6_to_9 c && (String.length rest =? 9)%nat &&
      forallb is_digit (String.list_ascii_of_string rest)
  | EmptyString => false
  end.

Definition validateMobileNumber (number : string) : Eff bool :=
  if mobileRegex_test number then mret true
  else mthrow (Error "Invalid mobile number. Must be 10 digits starting with 6-9.").

(** [expires_at && new Date(expires_at) < new Date()] *)
Definition has_expired (expires : option Z) (now : Z) : bool :=
  match expires with
  | Some e => e <? now
  | None => false
  end.

(** [a || b || 'unknown'] on header values *)
Definition client_ip (req : Request) : string :=
  if truthy_str (x_forwarded_for req) then default "" (x_forwarded_for req)
  else if truthy_str (remoteAddress req) then default "" (remoteAddress req)
  else "unknown".

Definition typeof_object (v : json) : bool :=
  match v with
  | JNull | JArr _ | JObj _ => true
  | _ => false
  end.

Definition field_truthy (o : option json) : bool :=
  match o with Some v => truthy v | None => false end.

Definition isArray (o : option json) : bool :=
  match o with Some (JArr _) => true | _ => false end.

(** [!r || typeof r !== 'object' || !r.data || !Array.isArray(r.data)] *)
Definition bad_shape (r : json) : bool :=
  negb (truthy r) || negb (typeof_object r) ||
  negb (field_truthy (get_field r "data")) || negb (isArray (get_field r "data")).

Definition data_items (r : json) : list json :=
  match get_field r "data" with
  | Some (JArr items) => items
  | _ => []
  end.

(** The inner [try] block: the request to the provider and the shape check. *)
Definition fetch_base (number : string) : Eff json :=
  record_call (CallUpstream number);;
  w ← ask;
  match upstream w number with
  | UpstreamThrows msg => mthrow (Error msg)
  | UpstreamBody baseResponse =>
      if bad_shape baseResponse then mthrow (Error "Invalid base API response format")
      else mret baseResponse
  end.

(** The object built by the callback of [baseResponse.data.map]. *)
Definition cleaned (number : string) (item : json) : json :=
  JObj [
    ("name", or_else (get_field item "name") (JStr "N/A"));
    ("fname", or_else (get_field item "fname") (JStr "N/A"));
    ("mobile", or_else (get_field item "mobile") (JStr number));
    ("alt", or_else (get_field item "alt") (JStr "N/A"));
    ("address", or_else (get_field item "address") (JStr "N/A"));
    ("circle", or_else (get_field item "circle") (JStr "N/A"));
    ("id", or_else (get_field item "id") (JStr "N/A"))].

(** The callback itself: reading a property of [null] throws. *)
Definition clean_item (number : string) (item : json) : Eff json :=
  match item with
  | JNull => mthrow (TypeError "Cannot read properties of null (reading 'name')")
  | _ => mret (cleaned number item)
  end.

Fixpoint map_eff {A B} (f : A -> Eff B) (l : list A) : Eff (list B) :=
  match l with
  | [] => mret []
  | x :: rest => y ← f x; ys ← map_eff f rest; mret (y :: ys)
  end.

Definition unavailable_body : json :=
  JObj [("error", JStr "Service temporarily unavailable. Please try again later.");
        ("retryAfter", JNum 60)].

Definition success_body (cleanedData : list json) (number : string) (now : Z) : json :=
  JObj [("success", JBool true);
        ("data", JArr cleanedData);
        ("meta", JObj [("query", JStr number);
                       ("results", JNum (Z.of_nat (length cleanedData)));
                       ("processed_at", JStr (toISOString now))])].

(** The chain of tests on [error.message] in the [catch] clause. *)
Definition classify (msg : string) : Z * string :=
  if includes msg "Invalid mobile number" then (400, "Invalid mobile number format")
  else if includes msg "Rate limit" then (429, "Rate limit exceeded")
  else if includes msg "quota" then (429, "Daily quota exceeded")
  else if includes msg "paused" then (403, "Service temporarily suspended")
  else if includes msg "expired" then (401, "Authentication failed")
  else (400, "Bad request").

(** The [catch] clause of the handler.  [apiKeyInfo] and [clientIp] are
    [const] bindings of the [try] block, so neither is in scope here and
    reading [apiKeyInfo] throws before anything is logged or sent. *)
Definition on_error (req : Request) (number : string) (error : exn) : Eff Response :=
  let '(statusCode, errorMessage) := classify (message error) in
  apiKeyInfo ← unbound (A := option Db.KeyInfo) "apiKeyInfo";
  match apiKeyInfo with
  | Some info =>
      if negb (Db.ki_id info =? 0) then
        clientIp ← unbound (A := option string) "clientIp";
        Db.logUsage (Db.ki_id info)
          (if truthy_str (Some number) then number else "unknown") 0 "error"
          (if truthy_str clientIp then default "" clientIp else "unknown")
          (h_user_agent req)
      else mret tt
  | None => mret tt
  end;;
  send_json statusCode (error_body errorMessage).

(** The part of the [try] block that follows the rate-limit checks: the
    request to the provider, the clean-up of its answer, the counters. *)
Definition forward (req : Request) (number : string) (apiKeyInfo : Db.KeyInfo)
    (clientIp : string) : Eff Response :=
  w ← ask;
  base ← attempt (fetch_base number);
  match base with
  | Throw baseApiError =>
      Db.logUsage (Db.ki_id apiKeyInfo) number (upstream_latency w)
        "error" clientIp (h_user_agent req);;
      send_json 503 unavailable_body
  | Normal baseResponse =>
      cleanedData ← map_eff (clean_item number) (data_items baseResponse);
      Db.incrementApiUsage (Db.ki_id apiKeyInfo);;
      Db.logUsage (Db.ki_id apiKeyInfo) number (upstream_latency w)
        "success" clientIp (h_user_agent req);;
      send_json 200 (success_body cleanedData number (now w))
  end.

(** The body of the [try] block. *)
Definition pipeline (req : Request) (key number : string) : Eff Response :=
  validateMobileNumber number;;
  keyHash ← Auth.hashApiKey key;
  apiKeyInfo ← Db.getApiKey keyHash;
  match apiKeyInfo with
  | None => send_json 401 (error_body "Invalid or expired API key")
  | Some apiKeyInfo =>
      if Db.ki_is_paused apiKeyInfo then
        send_json 403 (error_body "API key is currently paused")
      else
        w ← ask;
        if has_expired (Db.ki_expires_at apiKeyInfo) (now w) then
          send_json 401 (error_body "API key has expired")
        else
          let clientIp := client_ip req in
          checkRateLimit (Db.ki_id apiKeyInfo) clientIp;;
          forward req number apiKeyInfo clientIp
  end.

Definition handler (req : Request) : Eff Response :=
  if String.eqb (method req) "OPTIONS" then send_end 200
  else if negb (String.eqb (method req) "GET") then
    send_json 405 (JObj [("error", JStr "Method not allowed"); ("allowed", JStr "GET")])
  else if negb (truthy_str (q_key req)) || negb (truthy_str (q_number req)) then
    send_json 400 (JObj [("error", JStr "Missing required parameters");
                         ("required", JStr "key and number")])
  else
    let key := default "" (q_key req) in
    let number := default "" (q_number req) in
    try_catch (pipeline req key number) (on_error req number).

End Lookup.

(* ===================================================================== *)
(** ** pages/api/admin/revoke-key.js *)
(* ===================================================================== *)

Module RevokeKey.

Import Js.

Record Request : Type := {
  method : string;
  admin_session : option string;
  body : option (option scalar)   (* [req.body], then its [key_id] *)
}.

(** [SET expires_at = NOW() - INTERVAL '1 day', is_paused = true] *)
Definition revoke_row (now : Z) (k : ApiKeyRow) : ApiKeyRow :=
  {| id := id k; key_hash := key_hash k; api_key := api_key k;
     user_id := user_id k; created_at := created_at k;
     expires_at := Some (now - ms_per_day); is_paused := true;
     daily_limit := daily_limit k; daily_used := daily_used k;
     last_reset_date := last_reset_date k |}.

Definition in_int4 (n : Z) : bool := (-2147483648 <=? n) && (n <=? 2147483647).

Definition revoked_body (row : ApiKeyRow) (now : Z) : json :=
  JObj [("success", JBool true);
        ("message", JStr "API key revoked successfully");
        ("revoked_key", JObj [("id", JNum (id row));
                              ("key", JStr (substring0 8 (api_key row) +:+ "..."));
                              ("revoked_at", JStr (toISOString now))])].

Definition revoke (req : Request) : Eff Response :=
  session ← Auth.validateSession (admin_session req);
  match session with
  | None => send_json 401 (error_body "Unauthorized")
  | Some _ =>
      match body req with
      | None => mthrow (TypeError "Cannot destructure property 'key_id' of 'req.body'")
      | Some key_id =>
          if negb (truthy_scalar key_id) then send_json 400 (error_body "Key ID required")
          else
            match key_id ≫= parseInt with
            | Some n =>
                if in_int4 n then
                  w ← ask;
                  t ← get_tables;
                  let t' := Db.update_key n (revoke_row (now w)) t in
                  put_tables t';;
                  match head (Db.rows_by_id n t') with
                  | None => send_json 404 (error_body "API key not found")
                  | Some row => send_json 200 (revoked_body row (now w))
                  end
                else mthrow (Error "value out of range for type integer")
            | None => mthrow (Error "invalid input syntax for type integer")
            end
      end
  end.

Definition handler (req : Request) : Eff Response :=
  if negb (String.eqb (method req) "DELETE") then
    send_json 405 (error_body "Method not allowed")
  else
    try_catch (revoke req)
      (fun error => send_json 500 (error_body "Internal server error")).

End RevokeKey.

(* ===================================================================== *)
(** ** The administrative endpoints *)
(* ===================================================================== *)

(** What the administrative endpoints obtain from outside the repository:
    the password hash library, the random source of fresh keys and the
    sequences behind the serial ids. *)
Record Host : Type := {
  bcrypt_hash : string -> string;
  bcrypt_compare : string -> string -> bool;
  random_key : string;
  next_key_id : Z;
  next_user_id : Z
}.

(** The remaining exports of [lib/auth.js]. *)
Module Passwords.

(** [bcrypt.compare(password, hash)] *)
Definition comparePassword (h : Host) (password hash : string) : bool :=
  bcrypt_compare h password hash.

(** [bcrypt.hash(password, 12)] *)
Definition hashPassword (h : Host) (password : string) : string :=
  bcrypt_hash h password.

(** [crypto.randomBytes(32).toString('hex')] *)
Definition generateApiKey (h : Host) : string := random_key h.

End Passwords.

(** [a < b] and [a > b] where [a] may be [NaN]: both are false then. *)
Definition nan_lt (a : option Z) (b : Z) : bool :=
  match a with Some x => x <? b | None => false end.

Definition nan_gt (a : option Z) (b : Z) : bool :=
  match a with Some x => b <? x | None => false end.

(* ===================================================================== *)
(** ** pages/api/admin/login.js *)
(* ===================================================================== *)

Module Login.

Import Js.

(** The two cookies of a successful login, both with [Max-Age=86400]. *)
Record Cookies : Type := {
  admin_session : string;
  admin_token : Token;
  max_age : Z
}.

Record Reply : Type := {
  response : Response;
  set_cookie : option Cookies
}.

Definition reply (code : Z) (b : json) (cookies : option Cookies) : Eff Reply :=
  mret {| response := {| statusCode := code; body := Some b |};
          set_cookie := cookies |}.

Definition plain (code : Z) (b : json) : Eff Reply := reply code b None.

(** The fields of the JSON body; a field is a string or absent. *)
Record Credentials : Type := {
  c_name : option string;
  c_password : option string
}.

Record Request : Type := {
  method : string;
  credentials : option Credentials
}.

(** [SELECT ... FROM users WHERE username = name AND is_active = true] *)
Definition active_users_named (t : Tables) (name : string) : list UserRow :=
  filter (fun u => username u = name /\ is_active u = true) (users t).

Definition welcome_body (user : UserRow) : json :=
  JObj [("success", JBool true);
        ("user", JObj [("id", JNum (u_id user)); ("username", JStr (username user))]);
        ("message", JStr "Login successful")].

(** The body of the [try] block. *)
Definition authenticate (h : Host) (name password : string) : Eff Reply :=
  t ← get_tables;
  match head (active_users_named t name) with
  | None => plain 401 (error_body "Invalid credentials")
  | Some user =>
      if negb (Passwords.comparePassword h password (password_hash user)) then
        plain 401 (error_body "Invalid credentials")
      else
        created ← Auth.createSession (u_id user) (username user);
        reply 200 (welcome_body user)
          (Some {| admin_session := fst created; admin_token := snd created;
                   max_age := 86400 |})
  end.

(** The body is destructured before the [try]: without a body the handler
    throws. *)
Definition handler (h : Host) (req : Request) : Eff Reply :=
  if negb (String.eqb (method req) "POST") then
    plain 405 (error_body "Method not allowed")
  else
    match credentials req with
    | None => mthrow (TypeError "Cannot destructure property 'username' of 'req.body'")
    | Some c =>
        if negb (truthy_str (c_name c)) || negb (truthy_str (c_password c)) then
          plain 400 (error_body "Username and password required")
        else
          try_catch
            (authenticate h (default "" (c_name c)) (default "" (c_password c)))
            (fun error => plain 500 (error_body "Internal server error"))
    end.

End Login.

(* ===================================================================== *)
(** ** pages/api/admin/create-key.js *)
(* ===================================================================== *)

Module CreateKey.

Import Js.

(** [user_id] is a JSON integer or absent. *)
Record Fields : Type := {
  expires_in_days : option scalar;
  daily_limit_field : option scalar;
  owner_id : option Z
}.

Record Request : Type := {
  method : string;
  admin_session : option string;
  body : option Fields
}.

(** [user_id || null] *)
Definition owner_or_null (o : option Z) : option Z :=
  match o with
  | Some n => if n =? 0 then None else Some n
  | None => None
  end.

(** The row the INSERT builds; the columns it does not name take their
    defaults.  [setDate(getDate() + n)] moves the instant by whole days,
    the process clock being in UTC. *)
Definition new_row (h : Host) (w : Env) (apiKey keyHash : string)
    (owner : option Z) (days limit : Z) : ApiKeyRow :=
  {| id := next_key_id h; key_hash := keyHash; api_key := apiKey;
     user_id := owner; created_at := now w;
     expires_at := Some (now w + days * ms_per_day);
     is_paused := false; daily_limit := limit; daily_used := 0;
     last_reset_date := iso_date (now w) |}.

(** The constraints of [api_keys]: primary key, unique hash, owner
    reference, integer range. *)
Definition insert_refused (t : Tables) (row : ApiKeyRow) : bool :=
  existsb (fun k => id k =? id row) (api_keys t) ||
  existsb (fun k => String.eqb (key_hash k) (key_hash row)) (api_keys t) ||
  match user_id row with
  | Some u => negb (existsb (fun r => u_id r =? u) (users t)) || negb (RevokeKey.in_int4 u)
  | None => false
  end.

Definition created_body (row : ApiKeyRow) : json :=
  JObj [("success", JBool true);
        ("message", JStr "API key created successfully");
        ("key", JObj [("id", JNum (id row));
                      ("api_key", JStr (api_key row));
                      ("created_at", JStr (toISOString (created_at row)));
                      ("expires_at", JStr (toISOString (default 0 (expires_at row))));
                      ("daily_limit", JNum (daily_limit row));
                      ("warning", JStr "Save this API key immediately - it will not be shown again!")])].

(** The body of the [try] block. *)
Definition create (h : Host) (req : Request) : Eff Response :=
  session ← Auth.validateSession (admin_session req);
  match session with
  | None => send_json 401 (error_body "Unauthorized")
  | Some _ =>
      match body req with
      | None => mthrow (TypeError "Cannot destructure property 'expires_in_days' of 'req.body'")
      | Some f =>
          if negb (truthy_scalar (expires_in_days f)) ||
             negb (truthy_scalar (daily_limit_field f)) then
            send_json 400 (error_body "Missing required fields")
          else
            let days := expires_in_days f ≫= parseInt in
            let limit := daily_limit_field f ≫= parseInt in
            if nan_lt days 1 || nan_gt days 3650 then
              send_json 400 (error_body "Expiration must be between 1-3650 days")
            else if nan_lt limit 10 || nan_gt limit 100000 then
              send_json 400 (error_body "Daily limit must be between 10-100000")
            else
              let apiKey := Passwords.generateApiKey h in
              keyHash ← Auth.hashApiKey apiKey;
              match days, limit with
              | None, _ => mthrow (Error "Invalid time value")
              | Some _, None => mthrow (Error "invalid input syntax for type integer")
              | Some d, Some l =>
                  w ← ask;
                  t ← get_tables;
                  let row := new_row h w apiKey keyHash (owner_or_null (owner_id f)) d l in
                  if insert_refused t row then
                    mthrow (Error "insert violates a constraint of api_keys")
                  else
                    put_tables (with_api_keys (api_keys t ++ [row]) t);;
                    send_json 201 (created_body row)
              end
      end
  end.

Definition handler (h : Host) (req : Request) : Eff Response :=
  if negb (String.eqb (method req) "POST") then
    send_json 405 (error_body "Method not allowed")
  else
    try_catch (create h req)
      (fun error => send_json 500 (error_body "Internal server error")).

End CreateKey.

(* ===================================================================== *)
(** ** pages/api/admin/change-password.js *)
(* ===================================================================== *)

Module ChangePassword.

Import Js.

Record Fields : Type := {
  user_id_field : option scalar;
  current_password : option string;
  new_password : option string
}.

Record Request : Type := {
  method : string;
  admin_session : option string;
  body : option Fields
}.

(** [SET password_hash = ..., last_password_change = CURRENT_TIMESTAMP] *)
Definition set_password (hash : string) (now : Z) (u : UserRow) : UserRow :=
  {| u_id := u_id u; username := username u; password_hash := hash;
     u_created_at := u_created_at u; last_password_change := now;
     is_active := is_active u |}.

(** [UPDATE users SET ... WHERE id = n] *)
Definition update_user (n : Z) (f : UserRow -> UserRow) (t : Tables) : Tables :=
  with_users (map (fun u => if decide (u_id u = n) then f u else u) (users t)) t.

Definition changed_body (user : UserRow) (now : Z) : json :=
  JObj [("success", JBool true);
        ("message", JStr "Password changed successfully");
        ("user", JObj [("id", JNum (u_id user));
                       ("username", JStr (username user));
                       ("password_changed_at", JStr (toISOString now))]);
        ("security_notice",
         JStr "User should log out from all sessions after password change")].

(** The steps that follow the look-up of the user.  The file imports
    [hashPassword] and [validateSession] only: [comparePassword] is a free
    identifier here, and the branch that calls it throws on reading it. *)
Definition change (h : Host) (session : Claims) (n : Z) (user : UserRow)
    (f : Fields) : Eff Response :=
  (if decide (n = c_userId session) then
     comparePassword ← unbound (A := option string -> string -> bool) "comparePassword";
     if negb (comparePassword (current_password f) (password_hash user)) then
       mret false
     else mret true
   else mret true) ≫= fun proceed =>
  if negb proceed then send_json 401 (error_body "Current password incorrect")
  else
    let newPasswordHash := Passwords.hashPassword h (default "" (new_password f)) in
    w ← ask;
    t ← get_tables;
    put_tables (update_user n (set_password newPasswordHash (now w)) t);;
    send_json 200 (changed_body user (now w)).

(** The body of the [try] block. *)
Definition attempt_change (h : Host) (req : Request) : Eff Response :=
  session ← Auth.validateSession (admin_session req);
  match session with
  | None => send_json 401 (error_body "Unauthorized")
  | Some session =>
      match body req with
      | None => mthrow (TypeError "Cannot destructure property 'user_id' of 'req.body'")
      | Some f =>
          if negb (truthy_scalar (user_id_field f)) || negb (truthy_str (new_password f)) then
            send_json 400 (error_body "User ID and new password required")
          else if (String.length (default "" (new_password f)) <? 6)%nat then
            send_json 400 (error_body "New password must be at least 6 characters")
          else
            match user_id_field f ≫= parseInt with
            | None => mthrow (Error "invalid input syntax for type integer")
            | Some n =>
                if RevokeKey.in_int4 n then
                  t ← get_tables;
                  match head (filter (fun u => u_id u = n) (users t)) with
                  | None => send_json 404 (error_body "User not found")
                  | Some user => change h session n user f
                  end
                else mthrow (Error "value out of range for type integer")
            end
      end
  end.

Definition handler (h : Host) (req : Request) : Eff Response :=
  if negb (String.eqb (method req) "POST") then
    send_json 405 (error_body "Method not allowed")
  else
    try_catch (attempt_change h req)
      (fun error => send_json 500 (error_body "Internal server error")).

End ChangePassword.

(* ===================================================================== *)
(** ** pages/api/admin/users.js *)
(* ===================================================================== *)

Module Users.

Import Js.

Record Fields : Type := {
  f_username : option string;
  f_password : option string;
  f_user_id : option scalar;
  f_is_active : option json
}.

Record Request : Type := {
  method : string;
  admin_session : option string;
  body : option Fields
}.

(** [Boolean(is_active)] *)
Definition to_boolean (o : option json) : bool :=
  match o with Some v => truthy v | None => false end.

(** The row inserted for a new user; [is_active] takes its default. *)
Definition new_user (h : Host) (w : Env) (name password : string) : UserRow :=
  {| u_id := next_user_id h; username := name;
     password_hash := Passwords.hashPassword h password;
     u_created_at := now w; last_password_change := now w; is_active := true |}.

(** The constraints of [users]: primary key and unique name. *)
Definition insert_refused (t : Tables) (row : UserRow) : bool :=
  existsb (fun u => u_id u =? u_id row) (users t) ||
  existsb (fun u => String.eqb (username u) (username row)) (users t).

(** [SET is_active = b, last_password_change = CASE WHEN b = false THEN
    CURRENT_TIMESTAMP ELSE last_password_change END] *)
Definition set_activity (b : bool) (now : Z) (u : UserRow) : UserRow :=
  {| u_id := u_id u; username := username u; password_hash := password_hash u;
     u_created_at := u_created_at u;
     last_password_change := if b then last_password_change u else now;
     is_active := b |}.

Definition created_body (row : UserRow) : json :=
  JObj [("success", JBool true);
        ("message", JStr "User created successfully");
        ("user", JObj [("id", JNum (u_id row));
                       ("username", JStr (username row));
                       ("created_at", JStr (toISOString (u_created_at row)))])].

Definition updated_body (row : UserRow) (flag : option json) : json :=
  JObj [("success", JBool true);
        ("message", JStr ("User " +:+
                          (if to_boolean flag then "activated" else "deactivated")
                          +:+ " successfully"));
        ("user", JObj [("id", JNum (u_id row));
                       ("username", JStr (username row));
                       ("is_active", JBool (is_active row))])].

(** The [POST] branch: a new user. *)
Definition create_user (h : Host) (f : Fields) : Eff Response :=
  if negb (truthy_str (f_username f)) || negb (truthy_str (f_password f)) then
    send_json 400 (error_body "Username and password required")
  else
    let name := default "" (f_username f) in
    let password := default "" (f_password f) in
    if (String.length name <? 3)%nat || (50 <? String.length name)%nat then
      send_json 400 (error_body "Username must be 3-50 characters")
    else if (String.length password <? 6)%nat then
      send_json 400 (error_body "Password must be at least 6 characters")
    else
      t ← get_tables;
      if existsb (fun u => String.eqb (username u) name) (users t) then
        send_json 409 (error_body "Username already exists")
      else
        w ← ask;
        let row := new_user h w name password in
        if insert_refused t row then
          mthrow (Error "insert violates a constraint of users")
        else
          put_tables (with_users (users t ++ [row]) t);;
          send_json 201 (created_body row).

(** The [PUT] branch: activate or deactivate. *)
Definition update_activity (f : Fields) : Eff Response :=
  if negb (truthy_scalar (f_user_id f)) then
    send_json 400 (error_body "User ID required")
  else
    match f_user_id f ≫= parseInt with
    | None => mthrow (Error "invalid input syntax for type integer")
    | Some n =>
        if RevokeKey.in_int4 n then
          w ← ask;
          t ← get_tables;
          let t' := ChangePassword.update_user n
                      (set_activity (to_boolean (f_is_active f)) (now w)) t in
          put_tables t';;
          match head (filter (fun u => u_id u = n) (users t')) with
          | None => send_json 404 (error_body "User not found")
          | Some row => send_json 200 (updated_body row (f_is_active f))
          end
        else mthrow (Error "value out of range for type integer")
    end.

(** The body of the [try] block.  The listing query of the [GET] branch
    selects [user_id] and [changed_at] from [users], columns the table of
    [lib/db.js] does not have, so the store rejects it. *)
Definition manage (h : Host) (req : Request) : Eff Response :=
  session ← Auth.validateSession (admin_session req);
  match session with
  | None => send_json 401 (error_body "Unauthorized")
  | Some _ =>
      if String.eqb (method req) "GET" then
        mthrow (Error "column user_id does not exist")
      else if String.eqb (method req) "POST" then
        match body req with
        | None => mthrow (TypeError "Cannot destructure property 'username' of 'req.body'")
        | Some f => create_user h f
        end
      else if String.eqb (method req) "PUT" then
        match body req with
        | None => mthrow (TypeError "Cannot destructure property 'user_id' of 'req.body'")
        | Some f => update_activity f
        end
      else send_json 405 (error_body "Method not allowed")
  end.

Definition handler (h : Host) (req : Request) : Eff Response :=
  try_catch (manage h req)
    (fun error => send_json 500 (error_body "Internal server error")).

End Users.

(* ===================================================================== *)
(** ** Vocabulary of the properties *)
(* ===================================================================== *)

(** A [GET] request that carries both query parameters. *)
Definition well_formed (req : Lookup.Request) : Prop :=
  Lookup.method req = "GET" /\
  Js.truthy_str (Lookup.q_key req) = true /\
  Js.truthy_str (Lookup.q_number req) = true.

Definition secret (req : Lookup.Request) : string := default "" (Lookup.q_key req).
Definition subject (req : Lookup.Request) : string := default "" (Lookup.q_number req).

(** The key presented by [req] resolves to [info]. *)
Definition resolves (w : Env) (s : Sys) (req : Lookup.Request) (info : Db.KeyInfo) : Prop :=
  head (Db.key_join_user (tables s) (sha256_hex w (secret req))) = Some info.

(** The calls every request makes up to and including key resolution. *)
Definition resolution_calls (w : Env) (req : Lookup.Request) : list Call :=
  [CallHash (secret req); CallGetApiKey (sha256_hex w (secret req))].

(** The stores as they are once the key has been resolved. *)
Definition resolved_sys (w : Env) (s : Sys) (req : Lookup.Request) : Sys :=
  add_call (CallGetApiKey (sha256_hex w (secret req))) (add_call (CallHash (secret req)) s).

(** The two reads of [checkRateLimit] let the request through. *)
Definition under_ip_limit (w : Env) (s : Sys) (req : Lookup.Request) : Prop :=
  Lookup.ip_usage_count (tables s) (Lookup.client_ip req) (now w) < 100.

Definition under_quota (s : Sys) (info : Db.KeyInfo) : Prop :=
  exists row, head (Db.rows_by_id (Db.ki_id info) (tables s)) = Some row /\
              daily_used row < daily_limit row.

(** The request passes every gate in front of the upstream call. *)
Definition admitted (w : Env) (s : Sys) (req : Lookup.Request) (info : Db.KeyInfo) : Prop :=
  well_formed req /\
  Lookup.mobileRegex_test (subject req) = true /\
  resolves w s req info /\
  Db.ki_is_paused info = false /\
  Lookup.has_expired (Db.ki_expires_at info) (now w) = false /\
  under_ip_limit w s req /\
  under_quota s info.

(** The stores as they are once the request has passed both rate checks. *)
Definition admitted_sys (w : Env) (s : Sys) (req : Lookup.Request) (info : Db.KeyInfo) : Sys :=
  add_call (CallReadQuota (Db.ki_id info))
    (add_call (CallCountIp (Lookup.client_ip req)) (resolved_sys w s req)).

(** The provider's answer is unusable: the client threw or the body is not
    an object with an array [data]. *)
Definition upstream_fails (w : Env) (number : string) : Prop :=
  match upstream w number with
  | UpstreamThrows _ => True
  | UpstreamBody b => Lookup.bad_shape b = true
  end.

(** The row a request leaves in [api_usage_logs]. *)
Definition usage_row (w : Env) (req : Lookup.Request) (info : Db.KeyInfo)
    (outcome : string) : UsageRow :=
  {| api_key_id := Db.ki_id info; mobile_number := subject req;
     response_time := upstream_latency w; status := outcome;
     ip_address := Lookup.client_ip req; user_agent := Lookup.h_user_agent req;
     log_created_at := now w |}.

Definition append_log (row : UsageRow) (s : Sys) : Sys :=
  with_tables (with_usage_logs (api_usage_logs (tables s) ++ [row]) (tables s)) s.

(** The tables after [incrementApiUsage]. *)
Definition consumed (w : Env) (apiKeyId : Z) (t : Tables) : Tables :=
  if Db.needs_reset (Db.rows_by_id apiKeyId t) (Js.iso_date (now w))
  then Db.update_key apiKeyId (Db.reset_usage (Js.iso_date (now w))) t
  else Db.update_key apiKeyId Db.bump_usage t.

Definition is_log_call (c : Call) : bool :=
  match c with CallLogUsage _ => true | _ => false end.

Definition is_upstream_call (c : Call) : bool :=
  match c with CallUpstream _ => true | _ => false end.

Definition is_increment_call (c : Call) : bool :=
  match c with CallIncrement _ => true | _ => false end.

(** The limiter as the specification words it: the calendar hour an instant
    falls in, and the number of records of [ip] in the calendar hour of
    [now]. *)
Definition hour_bucket (t : Z) : Z := t / Lookup.one_hour.

Definition bucket_count (t : Tables) (ip : string) (now : Z) : Z :=
  Z.of_nat (length (filter
    (fun r => ip_address r = ip /\ hour_bucket (log_created_at r) = hour_bucket now)
    (api_usage_logs t))).

(** Usage rows with their key ids replaced. *)
Definition relabel_key (f : Z -> Z) (r : UsageRow) : UsageRow :=
  {| api_key_id := f (api_key_id r); mobile_number := mobile_number r;
     response_time := response_time r; status := status r;
     ip_address := ip_address r; user_agent := user_agent r;
     log_created_at := log_created_at r |}.

(** The stored record under [sid] is present and live, its token verifies
    and names the user the record names. *)
Definition session_checks (w : Env) (s : Sys) (sid : string) (e : KvEntry) : Prop :=
  sid <> "" /\
  kv s !! Auth.session_key sid = Some e /\
  now w < kv_deadline e /\
  signed_with (token (kv_value e)) = jwt_secret w /\
  now w / 1000 < exp (claims (token (kv_value e))) /\
  c_userId (claims (token (kv_value e))) = userId (kv_value e).

(** The entry after a successful validation. *)
Definition renewed (w : Env) (e : KvEntry) : KvEntry :=
  {| kv_value := kv_value e; kv_deadline := now w + 1800 * 1000 |}.

(** A revoked key: paused, and with an expiry that lies before [t]. *)
Definition revoked_at (t : Z) (k : ApiKeyRow) : Prop :=
  is_paused k = true /\ Lookup.has_expired (expires_at k) t = true.

(** The rows of [api_keys] after the UPDATE of the revoke handler. *)
Definition revoked_rows (t : Z) (n : Z) (rows : list ApiKeyRow) : list ApiKeyRow :=
  map (fun k => if decide (id k = n) then RevokeKey.revoke_row t k else k) rows.




(** The fixed field set of a cleaned entry and the text that stands in for
    a field the provider left out. *)
Definition field_names : list string :=
  ["name"; "fname"; "mobile"; "alt"; "address"; "circle"; "id"].

Definition placeholder (number f : string) : Js.json :=
  if String.eqb f "mobile" then Js.JStr number else Js.JStr "N/A".

(** [out] is the projection of [item] on the fixed field set. *)
Definition projection_of (number : string) (item out : Js.json) : Prop :=
  exists fields,
    out = Js.JObj fields /\
    map fst fields = field_names /\
    forall f, In f field_names ->
      (Js.get_field item f = None -> Js.assoc f fields = Some (placeholder number f)) /\
      (forall v, Js.get_field item f = Some v ->
         Js.assoc f fields = Some (if Js.truthy v then v else placeholder number f)).

(** Concrete stores, environments and requests used to exercise the model. *)
Module Fixture.

(** Noon of 2 January 2024, UTC. *)
Definition noon : Z := 1704196800000.

Definition world (t : Z) (reply : UpstreamReply) (insert_error : option string) : Env :=
  {| now := t;
     sha256_hex := fun s => "sha256:" +:+ s;
     random_uuid := "0b0e7a52-5d0c-4d8e-9a3e-2f1c6f6f0001";
     jwt_secret := "server-secret";
     upstream := fun _ => reply;
     upstream_latency := 12;
     usage_insert_error := insert_error |}.

Definition one_record : UpstreamReply :=
  UpstreamBody (Js.JObj [("data", Js.JArr [Js.JObj [("name", Js.JStr "A. Kumar")]])]).

Definition timed_out : UpstreamReply := UpstreamThrows "timeout of 10000ms exceeded".

(** A body of the expected shape whose only entry is [null]. *)
Definition null_record : UpstreamReply :=
  UpstreamBody (Js.JObj [("data", Js.JArr [Js.JNull])]).

Definition key_row (used : Z) (paused : bool) (expires : option Z) (day : string) : ApiKeyRow :=
  {| id := 1; key_hash := "sha256:k-live"; api_key := "k-live";
     user_id := Some 7; created_at := 0; expires_at := expires;
     is_paused := paused; daily_limit := 10; daily_used := used;
     last_reset_date := day |}.

Definition owner (active : bool) : UserRow :=
  {| u_id := 7; username := "ops"; password_hash := "$2a$12$x";
     u_created_at := 0; last_password_change := 0; is_active := active |}.

Definition store (k : ApiKeyRow) (logs : list UsageRow) : Sys :=
  {| tables := {| api_keys := [k]; users := [owner true]; api_usage_logs := logs |};
     kv := ∅; calls := [] |}.

Definition request (number : string) : Lookup.Request :=
  {| Lookup.method := "GET"; Lookup.q_key := Some "k-live";
     Lookup.q_number := Some number;
     Lookup.x_forwarded_for := Some "203.0.113.9";
     Lookup.remoteAddress := None; Lookup.h_user_agent := Some "curl/8" |}.

Definition entry (ip : string) (t : Z) : UsageRow :=
  {| api_key_id := 1; mobile_number := "9876543210"; response_time := 5;
     status := "success"; ip_address := ip; user_agent := None;
     log_created_at := t |}.

Definition live_key : ApiKeyRow := key_row 3 false None "2024-01-02".
Definition live_info : Db.KeyInfo := Db.select_key live_key (owner true).

Definition paused_key : ApiKeyRow := key_row 3 true None "2024-01-02".
Definition paused_info : Db.KeyInfo := Db.select_key paused_key (owner true).

(** Lapsed one hour before [noon], with budget left. *)
Definition expired_key : ApiKeyRow := key_row 3 false (Some (noon - 3600000)) "2024-01-02".
Definition expired_info : Db.KeyInfo := Db.select_key expired_key (owner true).

(** Budget used up on 1 January. *)
Definition spent_key : ApiKeyRow := key_row 10 false None "2024-01-01".

(** A hundred requests from one address, all at 11:59:00. *)
Definition busy_minute : list UsageRow :=
  replicate 100 (entry "203.0.113.9" (noon - 60000)).

(** The store right after an administrator logged in at [noon]. *)
Definition logged_in : Sys :=
  snd (Auth.createSession 7 "ops" (world noon one_record None) (store live_key [])).

Definition sid : string := random_uuid (world noon one_record None).

Definition revoke_request : RevokeKey.Request :=
  {| RevokeKey.method := "DELETE"; RevokeKey.admin_session := Some sid;
     RevokeKey.body := Some (Some (Js.SStr "1")) |}.


End Fixture.

(* ===================================================================== *)
(** ** Vocabulary of the further properties *)
(* ===================================================================== *)

(** A response with a JSON body. *)
Definition answer (code : Z) (b : Js.json) : Response :=
  {| statusCode := code; body := Some b |}.

(** The request has passed the format check, its key resolves to [info],
    and the key is neither paused nor expired. *)
Definition live_key (w : Env) (s : Sys) (req : Lookup.Request) (info : Db.KeyInfo) : Prop :=
  well_formed req /\
  Lookup.mobileRegex_test (subject req) = true /\
  resolves w s req info /\
  Db.ki_is_paused info = false /\
  Lookup.has_expired (Db.ki_expires_at info) (now w) = false.

(** The provider answered with a body of the expected shape. *)
Definition upstream_gives (w : Env) (number : string) (b : Js.json) : Prop :=
  upstream w number = UpstreamBody b /\ Lookup.bad_shape b = false.

Definition no_null (items : list Js.json) : Prop :=
  Forall (fun item => item <> Js.JNull) items.

(** The stores once the provider has been called for an admitted request,
    and once the key's counter has been advanced after that. *)
Definition called_sys (w : Env) (s : Sys) (req : Lookup.Request) (info : Db.KeyInfo) : Sys :=
  add_call (CallUpstream (subject req)) (admitted_sys w s req info).

Definition counted_sys (w : Env) (s : Sys) (req : Lookup.Request) (info : Db.KeyInfo) : Sys :=
  with_tables (consumed w (Db.ki_id info) (tables s))
    (add_call (CallIncrement (Db.ki_id info)) (called_sys w s req info)).

Definition reference_error : completion Response :=
  Throw (Js.ReferenceError "apiKeyInfo").

(** The ways a run of the lookup handler can end: what it yields and the
    stores it leaves, under the condition that selects the exit. *)
Inductive Exit (req : Lookup.Request) (w : Env) (s : Sys) :
    completion Response -> Sys -> Prop :=
| exit_preflight :
    Lookup.method req = "OPTIONS" ->
    Exit req w s (Normal {| statusCode := 200; body := None |}) s
| exit_method :
    Lookup.method req <> "OPTIONS" -> Lookup.method req <> "GET" ->
    Exit req w s
      (Normal (answer 405 (Js.JObj [("error", Js.JStr "Method not allowed");
                                    ("allowed", Js.JStr "GET")]))) s
| exit_missing :
    Lookup.method req = "GET" ->
    Js.truthy_str (Lookup.q_key req) = false \/
    Js.truthy_str (Lookup.q_number req) = false ->
    Exit req w s
      (Normal (answer 400 (Js.JObj [("error", Js.JStr "Missing required parameters");
                                    ("required", Js.JStr "key and number")]))) s
| exit_format :
    well_formed req -> Lookup.mobileRegex_test (subject req) = false ->
    Exit req w s reference_error s
| exit_unknown :
    well_formed req -> Lookup.mobileRegex_test (subject req) = true ->
    head (Db.key_join_user (tables s) (sha256_hex w (secret req))) = None ->
    Exit req w s (Normal (answer 401 (error_body "Invalid or expired API key")))
      (resolved_sys w s req)
| exit_paused info :
    well_formed req -> Lookup.mobileRegex_test (subject req) = true ->
    resolves w s req info -> Db.ki_is_paused info = true ->
    Exit req w s (Normal (answer 403 (error_body "API key is currently paused")))
      (resolved_sys w s req)
| exit_expired info :
    well_formed req -> Lookup.mobileRegex_test (subject req) = true ->
    resolves w s req info -> Db.ki_is_paused info = false ->
    Lookup.has_expired (Db.ki_expires_at info) (now w) = true ->
    Exit req w s (Normal (answer 401 (error_body "API key has expired")))
      (resolved_sys w s req)
| exit_rate info :
    live_key w s req info ->
    100 <= Lookup.ip_usage_count (tables s) (Lookup.client_ip req) (now w) ->
    Exit req w s reference_error
      (add_call (CallCountIp (Lookup.client_ip req)) (resolved_sys w s req))
| exit_quota info row :
    live_key w s req info -> under_ip_limit w s req ->
    head (Db.rows_by_id (Db.ki_id info) (tables s)) = Some row ->
    daily_limit row <= daily_used row ->
    Exit req w s reference_error (admitted_sys w s req info)
| exit_upstream info :
    admitted w s req info -> upstream_fails w (subject req) ->
    usage_insert_error w = None ->
    Exit req w s (Normal (answer 503 Lookup.unavailable_body))
      (append_log (usage_row w req info "error")
         (add_call (CallLogUsage (usage_row w req info "error"))
            (called_sys w s req info)))
| exit_upstream_unlogged info :
    admitted w s req info -> upstream_fails w (subject req) ->
    usage_insert_error w <> None ->
    Exit req w s reference_error
      (add_call (CallLogUsage (usage_row w req info "error")) (called_sys w s req info))
| exit_null_entry info b :
    admitted w s req info -> upstream_gives w (subject req) b ->
    ~ no_null (Lookup.data_items b) ->
    Exit req w s reference_error (called_sys w s req info)
| exit_success info b :
    admitted w s req info -> upstream_gives w (subject req) b ->
    no_null (Lookup.data_items b) -> usage_insert_error w = None ->
    Exit req w s
      (Normal (answer 200
         (Lookup.success_body (map (Lookup.cleaned (subject req)) (Lookup.data_items b))
            (subject req) (now w))))
      (append_log (usage_row w req info "success")
         (add_call (CallLogUsage (usage_row w req info "success"))
            (counted_sys w s req info)))
| exit_success_unlogged info b :
    admitted w s req info -> upstream_gives w (subject req) b ->
    no_null (Lookup.data_items b) -> usage_insert_error w <> None ->
    Exit req w s reference_error
      (add_call (CallLogUsage (usage_row w req info "success")) (counted_sys w s req info)).

(** Two rows of [api_keys] that differ at most in the daily counter and its
    date. *)
Definition same_but_usage (k k' : ApiKeyRow) : Prop :=
  id k' = id k /\ key_hash k' = key_hash k /\ api_key k' = api_key k /\
  user_id k' = user_id k /\ created_at k' = created_at k /\
  expires_at k' = expires_at k /\ is_paused k' = is_paused k /\
  daily_limit k' = daily_limit k.

(** The counter of a row lies within its budget. *)
Definition within_budget (k : ApiKeyRow) : Prop :=
  0 <= daily_used k <= daily_limit k.

(** A series of lookup requests, each at its own instant, served one after
    the other: every request runs to its end before the next one starts. *)
Fixpoint serve_all (requests : list (Env * Lookup.Request)) (s : Sys) : Sys :=
  match requests with
  | [] => s
  | (w, req) :: rest => serve_all rest (snd (Lookup.handler req w s))
  end.

(** A series of validation attempts, each at its own instant, run one after
    the other. *)
Fixpoint validate_all (attempts : list (Env * option string)) (s : Sys) : Sys :=
  match attempts with
  | [] => s
  | (w, sessionId) :: rest =>
      validate_all rest (snd (Auth.validateSession sessionId w s))
  end.

(** The second in which a token issued at [issued] lapses. *)
Definition token_deadline (issued : Z) : Z := issued / 1000 + 86400.

(** More concrete inputs, next to those of [Fixture]. *)
Module Sample.

(** The entry [Fixture.logged_in] holds for the administrator's session. *)
Definition fresh_entry : KvEntry :=
  {| kv_value :=
       {| token := {| claims := {| c_userId := 7; c_username := "ops";
                                   iat := Fixture.noon / 1000;
                                   exp := Fixture.noon / 1000 + 24 * 60 * 60 |};
                      signed_with := "server-secret" |};
          userId := 7; s_username := "ops";
          createdAt := Js.toISOString Fixture.noon |};
     kv_deadline := Fixture.noon + 86400 * 1000 |}.

Definition at_time (t : Z) : Env := Fixture.world t Fixture.one_record None.

End Sample.

(** The reply of the login endpoint without cookies. *)
Definition bare (code : Z) (b : Js.json) : Login.Reply :=
  {| Login.response := answer code b; Login.set_cookie := None |}.

(** The token issued to a user at the clock of [w]. *)
Definition issued_token (w : Env) (uid : Z) (name : string) : Token :=
  {| claims := {| c_userId := uid; c_username := name; iat := now w / 1000;
                  exp := now w / 1000 + 24 * 60 * 60 |};
     signed_with := jwt_secret w |}.

(** The reply of a successful login of [user] in environment [w]. *)
Definition welcome (w : Env) (user : UserRow) : Login.Reply :=
  {| Login.response := answer 200 (Login.welcome_body user);
     Login.set_cookie :=
       Some {| Login.admin_session := random_uuid w;
               Login.admin_token := issued_token w (u_id user) (username user);
               Login.max_age := 86400 |} |}.

(** The outcomes of the login handler for a [POST] with both fields. *)
Inductive LoginExit (h : Host) (w : Env) (s : Sys) (name password : string) :
    completion Login.Reply -> Sys -> Prop :=
| login_no_user :
    head (Login.active_users_named (tables s) name) = None ->
    LoginExit h w s name password
      (Normal (bare 401 (error_body "Invalid credentials"))) s
| login_bad_password user :
    head (Login.active_users_named (tables s) name) = Some user ->
    bcrypt_compare h password (password_hash user) = false ->
    LoginExit h w s name password
      (Normal (bare 401 (error_body "Invalid credentials"))) s
| login_ok user :
    head (Login.active_users_named (tables s) name) = Some user ->
    bcrypt_compare h password (password_hash user) = true ->
    LoginExit h w s name password (Normal (welcome w user))
      (snd (Auth.createSession (u_id user) (username user) w s)).

(** A host for the concrete inputs: a stand-in for the password hash. *)
Definition sample_host : Host :=
  {| bcrypt_hash := fun p => "bcrypt:" +:+ p;
     bcrypt_compare := fun p hash => String.eqb hash ("bcrypt:" +:+ p);
     random_key := "5f2c1d9a";
     next_key_id := 2;
     next_user_id := 8 |}.

(** A users table with one administrator whose password is [hunter22]. *)
Definition admin_row (active : bool) : UserRow :=
  {| u_id := 7; username := "ops"; password_hash := "bcrypt:hunter22";
     u_created_at := 0; last_password_change := 0; is_active := active |}.

Definition office (active : bool) : Sys :=
  {| tables := {| api_keys := [Fixture.live_key]; users := [admin_row active];
                  api_usage_logs := [] |};
     kv := ∅; calls := [] |}.

Definition login_request (name password : string) : Login.Request :=
  {| Login.method := "POST";
     Login.credentials := Some {| Login.c_name := Some name;
                                  Login.c_password := Some password |} |}.

(** The row a successful key creation inserts. *)
Definition created_row (h : Host) (w : Env) (f : CreateKey.Fields) (days limit : Z) : ApiKeyRow :=
  CreateKey.new_row h w (random_key h) (sha256_hex w (random_key h))
    (CreateKey.owner_or_null (CreateKey.owner_id f)) days limit.

(** A request to create a key that passes every check of the endpoint. *)
Definition creatable (h : Host) (w : Env) (s : Sys) (req : CreateKey.Request)
    (f : CreateKey.Fields) (days limit : Z) : Prop :=
  CreateKey.method req = "POST" /\
  (exists d, fst (Auth.validateSession (CreateKey.admin_session req) w s) = Normal (Some d)) /\
  CreateKey.body req = Some f /\
  Js.truthy_scalar (CreateKey.expires_in_days f) = true /\
  Js.truthy_scalar (CreateKey.daily_limit_field f) = true /\
  CreateKey.expires_in_days f ≫= Js.parseInt = Some days /\
  CreateKey.daily_limit_field f ≫= Js.parseInt = Some limit /\
  1 <= days <= 3650 /\ 10 <= limit <= 100000 /\
  CreateKey.insert_refused (tables s) (created_row h w f days limit) = false.

Definition create_request (days limit : string) (owner : option Z) : CreateKey.Request :=
  {| CreateKey.method := "POST"; CreateKey.admin_session := Some Fixture.sid;
     CreateKey.body := Some {| CreateKey.expires_in_days := Some (Js.SStr days);
                               CreateKey.daily_limit_field := Some (Js.SStr limit);
                               CreateKey.owner_id := owner |} |}.

(** A lookup request presenting [key]. *)
Definition lookup_with (key number : string) : Lookup.Request :=
  {| Lookup.method := "GET"; Lookup.q_key := Some key;
     Lookup.q_number := Some number;
     Lookup.x_forwarded_for := Some "203.0.113.9";
     Lookup.remoteAddress := None; Lookup.h_user_agent := None |}.

(** A request to change the password of user [n] to [p] that passes every
    check before the branch on whose password it is; [d] is what the
    session validates to and [user] the row found. *)
Definition changeable (w : Env) (s : Sys) (req : ChangePassword.Request)
    (f : ChangePassword.Fields) (d : Claims) (n : Z) (user : UserRow) (p : string) : Prop :=
  ChangePassword.method req = "POST" /\
  fst (Auth.validateSession (ChangePassword.admin_session req) w s) = Normal (Some d) /\
  ChangePassword.body req = Some f /\
  Js.truthy_scalar (ChangePassword.user_id_field f) = true /\
  ChangePassword.new_password f = Some p /\
  (6 <= String.length p)%nat /\
  ChangePassword.user_id_field f ≫= Js.parseInt = Some n /\
  RevokeKey.in_int4 n = true /\
  head (filter (fun u => u_id u = n) (users (tables s))) = Some user.

(** The users table after the password of user [n] was set to [p]. *)
Definition password_set (h : Host) (w : Env) (n : Z) (p : string) (t : Tables) : Tables :=
  ChangePassword.update_user n
    (ChangePassword.set_password (Passwords.hashPassword h p) (now w)) t.

(** The columns of a user row other than the password and its date. *)
Definition identity_of (u : UserRow) : Z * string * Z * bool :=
  (u_id u, username u, u_created_at u, is_active u).

(** A second user, whose password is [old-secret], and a store where the
    administrator has logged in at noon. *)
Definition clerk_row (active : bool) : UserRow :=
  {| u_id := 9; username := "clerk"; password_hash := "bcrypt:old-secret";
     u_created_at := 0; last_password_change := 0; is_active := active |}.

Definition staffed (active : bool) : Sys :=
  snd (Auth.createSession 7 "ops" (Sample.at_time Fixture.noon)
         {| tables := {| api_keys := [Fixture.live_key];
                         users := [admin_row true; clerk_row active];
                         api_usage_logs := [] |};
            kv := ∅; calls := [] |}).

Definition password_request (uid : string) (current : option string) (new : string) :
    ChangePassword.Request :=
  {| ChangePassword.method := "POST";
     ChangePassword.admin_session := Some Fixture.sid;
     ChangePassword.body :=
       Some {| ChangePassword.user_id_field := Some (Js.SStr uid);
               ChangePassword.current_password := current;
               ChangePassword.new_password := Some new |} |}.

(** A request to add a user that passes every check of the endpoint. *)
Definition addable (h : Host) (w : Env) (s : Sys) (req : Users.Request)
    (name password : string) : Prop :=
  Users.method req = "POST" /\
  (exists d, fst (Auth.validateSession (Users.admin_session req) w s) = Normal (Some d)) /\
  (exists flag uid,
     Users.body req = Some {| Users.f_username := Some name;
                              Users.f_password := Some password;
                              Users.f_user_id := uid; Users.f_is_active := flag |}) /\
  (3 <= String.length name <= 50)%nat /\
  (6 <= String.length password)%nat /\
  Users.insert_refused (tables s) (Users.new_user h w name password) = false.

(** A request to switch user [n] on or off that reaches the update. *)
Definition switchable (w : Env) (s : Sys) (req : Users.Request) (f : Users.Fields)
    (n : Z) : Prop :=
  Users.method req = "PUT" /\
  (exists d, fst (Auth.validateSession (Users.admin_session req) w s) = Normal (Some d)) /\
  Users.body req = Some f /\
  Js.truthy_scalar (Users.f_user_id f) = true /\
  Users.f_user_id f ≫= Js.parseInt = Some n /\
  RevokeKey.in_int4 n = true.

Definition add_request (name password : string) : Users.Request :=
  {| Users.method := "POST"; Users.admin_session := Some Fixture.sid;
     Users.body := Some {| Users.f_username := Some name;
                           Users.f_password := Some password;
                           Users.f_user_id := None; Users.f_is_active := None |} |}.

Definition switch_request (uid : string) (flag : option Js.json) : Users.Request :=
  {| Users.method := "PUT"; Users.admin_session := Some Fixture.sid;
     Users.body := Some {| Users.f_username := None; Users.f_password := None;
                           Users.f_user_id := Some (Js.SStr uid);
                           Users.f_is_active := flag |} |}.

(** A session the clerk opened at noon, next to the administrator's. *)
Definition clerk_sid : string := "7c1d7b1e-0000-4000-8000-00000000c1e7".

Definition clerk_entry : KvEntry :=
  {| kv_value :=
       {| token := issued_token (Sample.at_time Fixture.noon) 9 "clerk";
          userId := 9; s_username := "clerk";
          createdAt := Js.toISOString Fixture.noon |};
     kv_deadline := Fixture.noon + 86400 * 1000 |}.

Definition both_logged_in : Sys :=
  with_kv (<[Auth.session_key clerk_sid := clerk_entry]> (kv (staffed true)))
    (staffed true).

(** The live key with one call of its budget of ten left. *)
Definition last_call_key : ApiKeyRow := Fixture.key_row 9 false None "2024-01-02".

(* ===================================================================== *)
(** ** Sanity checks of the JavaScript builtins *)
(* ===================================================================== *)

Example iso_epoch : Js.toISOString 0 = "1970-01-01T00:00:00.000Z".
Proof. reflexivity. Qed.

Example iso_2023 : Js.toISOString 1700000000123 = "2023-11-14T22:13:20.123Z".
Proof. vm_compute. reflexivity. Qed.

Example iso_leap : Js.iso_date 1709164800000 = "2024-02-29".
Proof. vm_compute. reflexivity. Qed.

Example iso_before_epoch : Js.toISOString (-1) = "1969-12-31T23:59:59.999Z".
Proof. vm_compute. reflexivity. Qed.

Example parseInt_samples :
  Js.parseInt_str " 42abc" = Some 42 /\ Js.parseInt_str "-7" = Some (-7) /\
  Js.parseInt_str "0x1f" = Some 31 /\ Js.parseInt_str "abc" = None.
Proof. vm_compute. repeat split. Qed.


Example mobileRegex_samples :
  Lookup.mobileRegex_test "9876543210" = true /\
  Lookup.mobileRegex_test "5876543210" = false /\
  Lookup.mobileRegex_test "98765432101" = false /\
  Lookup.mobileRegex_test "987654321a" = false /\
  Lookup.mobileRegex_test "12345" = false.
Proof. repeat split. Qed.

(* ===================================================================== *)
(** ** Running the monad *)
(* ===================================================================== *)

Lemma run_bind {A B} (m : Eff A) (f : A -> Eff B) w s :
  (m ≫= f) w s =
  match m w s with
  | (Normal a, s') => f a w s'
  | (Throw e, s') => (Throw e, s')
  end.
Proof. reflexivity. Qed.

Lemma run_try_normal {A} (m : Eff A) h w s a s' :
  m w s = (Normal a, s') -> try_catch m h w s = (Normal a, s').
Proof. intros E. unfold try_catch. now rewrite E. Qed.

Lemma run_try_throw {A} (m : Eff A) h w s e s' :
  m w s = (Throw e, s') -> try_catch m h w s = h e w s'.
Proof. intros E. unfold try_catch. now rewrite E. Qed.

(** Whatever was thrown, the [catch] clause fails on its first free
    identifier and leaves the stores as they are. *)
Lemma on_error_throws req number e w s :
  Lookup.on_error req number e w s = (Throw (Js.ReferenceError "apiKeyInfo"), s).
Proof.
  unfold Lookup.on_error. destruct (Lookup.classify _) as [code msg]. reflexivity.
Qed.

Ltac run_eff :=
  unfold mbind, mret, mthrow, Eff_bind, Eff_ret, Eff_throw, ask, get_tables,
    put_tables, get_kv, put_kv, record_call, send_json, send_end, attempt;
  cbn beta iota.

(** From a well-formed request the handler enters the [try] block. *)
Lemma handler_enters_try req w s :
  well_formed req ->
  Lookup.handler req w s =
  try_catch (Lookup.pipeline req (secret req) (subject req))
            (Lookup.on_error req (subject req)) w s.
Proof.
  intros (Hm & Hk & Hn). unfold Lookup.handler. rewrite Hm, Hk, Hn. reflexivity.
Qed.

(** A subject that fails the format check never reaches the codec or the
    stores; the [catch] clause then fails as above. *)
Lemma invalid_subject_outcome req w s :
  well_formed req ->
  Lookup.mobileRegex_test (subject req) = false ->
  Lookup.handler req w s = (Throw (Js.ReferenceError "apiKeyInfo"), s).
Proof.
  intros Hwf Hbad. rewrite handler_enters_try by assumption.
  erewrite run_try_throw; [apply on_error_throws|].
  unfold Lookup.pipeline, Lookup.validateMobileNumber. rewrite Hbad. reflexivity.
Qed.

(** *** The steps of the pipeline *)

Section Pipeline.

Variables (req : Lookup.Request) (w : Env) (s : Sys).
Hypothesis Hwf : well_formed req.
Hypothesis Hsubject : Lookup.mobileRegex_test (subject req) = true.

Lemma pipeline_unknown_key :
  head (Db.key_join_user (tables s) (sha256_hex w (secret req))) = None ->
  Lookup.handler req w s =
  (Normal {| statusCode := 401;
             body := Some (error_body "Invalid or expired API key") |},
   resolved_sys w s req).
Proof.
  intros Hnone. rewrite handler_enters_try by assumption.
  apply run_try_normal.
  unfold Lookup.pipeline, Lookup.validateMobileNumber. rewrite Hsubject.
  unfold Auth.hashApiKey, Db.getApiKey. run_eff. cbn. rewrite Hnone. reflexivity.
Qed.

Variable info : Db.KeyInfo.
Hypothesis Hres : resolves w s req info.

Lemma pipeline_paused :
  Db.ki_is_paused info = true ->
  Lookup.handler req w s =
  (Normal {| statusCode := 403;
             body := Some (error_body "API key is currently paused") |},
   resolved_sys w s req).
Proof.
  intros Hp. rewrite handler_enters_try by assumption.
  apply run_try_normal.
  unfold Lookup.pipeline, Lookup.validateMobileNumber. rewrite Hsubject.
  unfold Auth.hashApiKey, Db.getApiKey. run_eff. cbn.
  red in Hres. rewrite Hres, Hp. reflexivity.
Qed.

Lemma pipeline_expired :
  Db.ki_is_paused info = false ->
  Lookup.has_expired (Db.ki_expires_at info) (now w) = true ->
  Lookup.handler req w s =
  (Normal {| statusCode := 401;
             body := Some (error_body "API key has expired") |},
   resolved_sys w s req).
Proof.
  intros Hp He. rewrite handler_enters_try by assumption.
  apply run_try_normal.
  unfold Lookup.pipeline, Lookup.validateMobileNumber. rewrite Hsubject.
  unfold Auth.hashApiKey, Db.getApiKey. run_eff. cbn.
  red in Hres. rewrite Hres, Hp, He. reflexivity.
Qed.

(** A key that is neither paused nor expired reaches the rate checks. *)
Lemma pipeline_live :
  Db.ki_is_paused info = false ->
  Lookup.has_expired (Db.ki_expires_at info) (now w) = false ->
  Lookup.pipeline req (secret req) (subject req) w s =
  (Lookup.checkRateLimit (Db.ki_id info) (Lookup.client_ip req);;
   Lookup.forward req (subject req) info (Lookup.client_ip req)) w (resolved_sys w s req).
Proof.
  intros Hp He.
  unfold Lookup.pipeline, Lookup.validateMobileNumber. rewrite Hsubject.
  unfold Auth.hashApiKey, Db.getApiKey. run_eff. cbn.
  red in Hres. rewrite Hres, Hp, He. reflexivity.
Qed.

End Pipeline.

(** *** The rate checks *)

Section RateLimit.

Variables (apiKeyId : Z) (ip : string) (w : Env) (s : Sys).

Lemma checkRateLimit_ip_exceeded :
  100 <= Lookup.ip_usage_count (tables s) ip (now w) ->
  Lookup.checkRateLimit apiKeyId ip w s =
  (Throw (Js.Error "Rate limit exceeded. Too many requests from this IP."),
   add_call (CallCountIp ip) s).
Proof.
  intros H. unfold Lookup.checkRateLimit. run_eff. cbn [tables add_call].
  apply Z.leb_le in H. rewrite H. reflexivity.
Qed.

Lemma checkRateLimit_quota_exceeded row :
  Lookup.ip_usage_count (tables s) ip (now w) < 100 ->
  head (Db.rows_by_id apiKeyId (tables s)) = Some row ->
  daily_limit row <= daily_used row ->
  Lookup.checkRateLimit apiKeyId ip w s =
  (Throw (Js.Error "Daily quota exceeded for this API key."),
   add_call (CallReadQuota apiKeyId) (add_call (CallCountIp ip) s)).
Proof.
  intros Hip Hrow Hq. unfold Lookup.checkRateLimit. run_eff. cbn [tables add_call].
  apply Z.leb_gt in Hip. rewrite Hip, Hrow.
  apply Z.leb_le in Hq. rewrite Hq. reflexivity.
Qed.

Lemma checkRateLimit_pass row :
  Lookup.ip_usage_count (tables s) ip (now w) < 100 ->
  head (Db.rows_by_id apiKeyId (tables s)) = Some row ->
  daily_used row < daily_limit row ->
  Lookup.checkRateLimit apiKeyId ip w s =
  (Normal true, add_call (CallReadQuota apiKeyId) (add_call (CallCountIp ip) s)).
Proof.
  intros Hip Hrow Hq. unfold Lookup.checkRateLimit. run_eff. cbn [tables add_call].
  apply Z.leb_gt in Hip. rewrite Hip, Hrow.
  apply Z.leb_gt in Hq. rewrite Hq. reflexivity.
Qed.

End RateLimit.

(** *** The stores' own operations *)

Lemma logUsage_ok apiKeyId number rt outcome ip ua w s :
  usage_insert_error w = None ->
  let row := {| api_key_id := apiKeyId; mobile_number := number;
                response_time := rt; status := outcome; ip_address := ip;
                user_agent := ua; log_created_at := now w |} in
  Db.logUsage apiKeyId number rt outcome ip ua w s =
  (Normal tt, append_log row (add_call (CallLogUsage row) s)).
Proof. intros H. unfold Db.logUsage. run_eff. rewrite H. reflexivity. Qed.

Lemma logUsage_refused apiKeyId number rt outcome ip ua w s msg :
  usage_insert_error w = Some msg ->
  exists row,
    Db.logUsage apiKeyId number rt outcome ip ua w s =
    (Throw (Js.Error msg), add_call (CallLogUsage row) s).
Proof. intros H. eexists. unfold Db.logUsage. run_eff. rewrite H. reflexivity. Qed.

Lemma incrementApiUsage_run apiKeyId w s :
  Db.incrementApiUsage apiKeyId w s =
  (Normal tt,
   with_tables (consumed w apiKeyId (tables s)) (add_call (CallIncrement apiKeyId) s)).
Proof.
  unfold Db.incrementApiUsage, consumed. run_eff. cbn [tables add_call].
  destruct (Db.needs_reset _ _); reflexivity.
Qed.

Lemma consumed_logs w apiKeyId t :
  api_usage_logs (consumed w apiKeyId t) = api_usage_logs t.
Proof. unfold consumed. destruct (Db.needs_reset _ _); reflexivity. Qed.

Lemma consumed_users w apiKeyId t : users (consumed w apiKeyId t) = users t.
Proof. unfold consumed. destruct (Db.needs_reset _ _); reflexivity. Qed.

(** Mapping the clean-up over entries none of which is [null] cannot throw. *)
Lemma map_eff_clean number items w s :
  Forall (fun item => item <> Js.JNull) items ->
  Lookup.map_eff (Lookup.clean_item number) items w s =
  (Normal (map (Lookup.cleaned number) items), s).
Proof.
  induction 1 as [|item items Hitem _ IH]; [reflexivity|].
  cbn [Lookup.map_eff map]. rewrite run_bind.
  assert (Lookup.clean_item number item w s = (Normal (Lookup.cleaned number item), s)) as ->.
  { destruct item; try reflexivity. congruence. }
  rewrite run_bind, IH. reflexivity.
Qed.

(** *** The upstream exchange *)

Lemma fetch_base_fails number w s :
  upstream_fails w number ->
  exists e, Lookup.fetch_base number w s = (Throw e, add_call (CallUpstream number) s).
Proof.
  unfold upstream_fails, Lookup.fetch_base. run_eff.
  destruct (upstream w number) as [msg|b]; intros H.
  - eexists. reflexivity.
  - eexists. rewrite H. reflexivity.
Qed.

Lemma fetch_base_ok number w s b :
  upstream w number = UpstreamBody b ->
  Lookup.bad_shape b = false ->
  Lookup.fetch_base number w s = (Normal b, add_call (CallUpstream number) s).
Proof.
  intros Hb Hs. unfold Lookup.fetch_base. run_eff. rewrite Hb, Hs. reflexivity.
Qed.

Section Forward.

Variables (req : Lookup.Request) (info : Db.KeyInfo) (w : Env) (s : Sys).

Lemma forward_upstream_failure :
  upstream_fails w (subject req) ->
  usage_insert_error w = None ->
  Lookup.forward req (subject req) info (Lookup.client_ip req) w s =
  (Normal {| statusCode := 503; body := Some Lookup.unavailable_body |},
   append_log (usage_row w req info "error")
     (add_call (CallLogUsage (usage_row w req info "error"))
        (add_call (CallUpstream (subject req)) s))).
Proof.
  intros Hfail Hins. unfold Lookup.forward.
  destruct (fetch_base_fails (subject req) w s Hfail) as [e He].
  rewrite run_bind. cbn [ask]. rewrite run_bind. unfold attempt at 1. rewrite He.
  rewrite run_bind, logUsage_ok by assumption. reflexivity.
Qed.

Lemma forward_upstream_failure_insert_refused msg :
  upstream_fails w (subject req) ->
  usage_insert_error w = Some msg ->
  exists s',
    Lookup.forward req (subject req) info (Lookup.client_ip req) w s =
    (Throw (Js.Error msg), s').
Proof.
  intros Hfail Hins. unfold Lookup.forward.
  destruct (fetch_base_fails (subject req) w s Hfail) as [e He].
  rewrite run_bind. cbn [ask]. rewrite run_bind. unfold attempt at 1. rewrite He.
  rewrite run_bind.
  edestruct logUsage_refused as [row ->]; [eassumption|]. eauto.
Qed.

Variable b : Js.json.
Hypothesis Hbody : upstream w (subject req) = UpstreamBody b.
Hypothesis Hshape : Lookup.bad_shape b = false.
Hypothesis Hitems : Forall (fun item => item <> Js.JNull) (Lookup.data_items b).

Lemma forward_success :
  usage_insert_error w = None ->
  Lookup.forward req (subject req) info (Lookup.client_ip req) w s =
  (Normal {| statusCode := 200;
             body := Some (Lookup.success_body
                             (map (Lookup.cleaned (subject req)) (Lookup.data_items b))
                             (subject req) (now w)) |},
   append_log (usage_row w req info "success")
     (add_call (CallLogUsage (usage_row w req info "success"))
        (with_tables (consumed w (Db.ki_id info) (tables s))
           (add_call (CallIncrement (Db.ki_id info))
              (add_call (CallUpstream (subject req)) s))))).
Proof.
  intros Hins. unfold Lookup.forward.
  rewrite run_bind. cbn [ask]. rewrite run_bind. unfold attempt at 1.
  rewrite (fetch_base_ok (subject req) w s b) by assumption.
  rewrite run_bind, map_eff_clean by assumption.
  rewrite run_bind, incrementApiUsage_run.
  rewrite run_bind, logUsage_ok by assumption. reflexivity.
Qed.

Lemma forward_success_insert_refused msg :
  usage_insert_error w = Some msg ->
  exists s',
    Lookup.forward req (subject req) info (Lookup.client_ip req) w s =
    (Throw (Js.Error msg), s').
Proof.
  intros Hins. unfold Lookup.forward.
  rewrite run_bind. cbn [ask]. rewrite run_bind. unfold attempt at 1.
  rewrite (fetch_base_ok (subject req) w s b) by assumption.
  rewrite run_bind, map_eff_clean by assumption.
  rewrite run_bind, incrementApiUsage_run.
  rewrite run_bind.
  edestruct logUsage_refused as [row ->]; [eassumption|]. eauto.
Qed.

End Forward.

(** An admitted request runs [forward] from the stores as the rate checks
    left them. *)
Lemma pipeline_admitted req info w s :
  admitted w s req info ->
  Lookup.pipeline req (secret req) (subject req) w s =
  Lookup.forward req (subject req) info (Lookup.client_ip req) w
    (admitted_sys w s req info).
Proof.
  intros (Hwf & Hsub & Hres & Hp & He & Hip & row & Hrow & Hq).
  rewrite (pipeline_live req w s Hsub info Hres Hp He).
  rewrite run_bind.
  rewrite (checkRateLimit_pass _ _ _ _ row); [reflexivity|assumption..].
Qed.

(** *** The handler on an admitted request *)

Section Served.

Variables (req : Lookup.Request) (info : Db.KeyInfo) (w : Env) (s : Sys).
Hypothesis Hadm : admitted w s req info.

Lemma handler_upstream_failure :
  upstream_fails w (subject req) ->
  usage_insert_error w = None ->
  Lookup.handler req w s =
  (Normal {| statusCode := 503; body := Some Lookup.unavailable_body |},
   append_log (usage_row w req info "error")
     (add_call (CallLogUsage (usage_row w req info "error"))
        (add_call (CallUpstream (subject req)) (admitted_sys w s req info)))).
Proof.
  intros Hfail Hins. rewrite handler_enters_try by apply Hadm.
  apply run_try_normal. rewrite (pipeline_admitted req info) by assumption.
  exact (forward_upstream_failure req info w (admitted_sys w s req info) Hfail Hins).
Qed.

Lemma handler_success b :
  upstream w (subject req) = UpstreamBody b ->
  Lookup.bad_shape b = false ->
  Forall (fun item => item <> Js.JNull) (Lookup.data_items b) ->
  usage_insert_error w = None ->
  Lookup.handler req w s =
  (Normal {| statusCode := 200;
             body := Some (Lookup.success_body
                             (map (Lookup.cleaned (subject req)) (Lookup.data_items b))
                             (subject req) (now w)) |},
   append_log (usage_row w req info "success")
     (add_call (CallLogUsage (usage_row w req info "success"))
        (with_tables (consumed w (Db.ki_id info) (tables s))
           (add_call (CallIncrement (Db.ki_id info))
              (add_call (CallUpstream (subject req))
                 (admitted_sys w s req info)))))).
Proof.
  intros Hbody Hshape Hitems Hins. rewrite handler_enters_try by apply Hadm.
  apply run_try_normal. rewrite (pipeline_admitted req info) by assumption.
  exact (forward_success req info w (admitted_sys w s req info) b
           Hbody Hshape Hitems Hins).
Qed.

(** A refused insert is thrown into the [catch] clause. *)
Lemma handler_insert_refused :
  usage_insert_error w <> None ->
  upstream_fails w (subject req) \/
  (exists b, upstream w (subject req) = UpstreamBody b /\
             Lookup.bad_shape b = false /\
             Forall (fun item => item <> Js.JNull) (Lookup.data_items b)) ->
  exists s', Lookup.handler req w s = (Throw (Js.ReferenceError "apiKeyInfo"), s').
Proof.
  intros Hins Hup. destruct (usage_insert_error w) as [msg|] eqn:Hmsg; [|congruence].
  rewrite handler_enters_try by apply Hadm.
  assert (exists s', Lookup.pipeline req (secret req) (subject req) w s =
                     (Throw (Js.Error msg), s')) as [s' Hrun].
  { rewrite (pipeline_admitted req info) by assumption.
    destruct Hup as [Hfail|(b & Hbody & Hshape & Hitems)].
    - now apply forward_upstream_failure_insert_refused.
    - now apply (forward_success_insert_refused req info w _ b). }
  exists s'. erewrite run_try_throw by eassumption. apply on_error_throws.
Qed.

End Served.

(* ===================================================================== *)
(** ** Admission order (C2) *)
(* ===================================================================== *)

(** C2.  For a well-formed request whose key resolves, the paused flag is
    tested first and yields 403 whatever the budget and the expiry are; a
    key that is not paused but has lapsed yields 401 whatever budget is
    left; in both cases the handler stops right after key resolution, before
    either rate check reads anything.  Only a key that passes both tests
    goes on to [checkRateLimit], which holds the quota comparison. *)
Theorem C2_paused_then_expired_then_quota req w s info :
  well_formed req ->
  Lookup.mobileRegex_test (subject req) = true ->
  resolves w s req info ->
  (Db.ki_is_paused info = true ->
   Lookup.handler req w s =
   (Normal {| statusCode := 403;
              body := Some (error_body "API key is currently paused") |},
    resolved_sys w s req)) /\
  (Db.ki_is_paused info = false ->
   Lookup.has_expired (Db.ki_expires_at info) (now w) = true ->
   Lookup.handler req w s =
   (Normal {| statusCode := 401;
              body := Some (error_body "API key has expired") |},
    resolved_sys w s req)) /\
  (Db.ki_is_paused info = false ->
   Lookup.has_expired (Db.ki_expires_at info) (now w) = false ->
   Lookup.pipeline req (secret req) (subject req) w s =
   (Lookup.checkRateLimit (Db.ki_id info) (Lookup.client_ip req);;
    Lookup.forward req (subject req) info (Lookup.client_ip req))
     w (resolved_sys w s req)).
Proof.
  intros Hwf Hsub Hres. repeat split.
  - now apply pipeline_paused.
  - now apply pipeline_expired.
  - now apply pipeline_live.
Qed.

(** The theorem at a concrete input: an expired key with budget left, at noon. *)
Lemma C2_witness :
  Lookup.handler (Fixture.request "9876543210")
    (Fixture.world Fixture.noon Fixture.timed_out None)
    (Fixture.store Fixture.expired_key []) =
  (Normal {| statusCode := 401; body := Some (error_body "API key has expired") |},
   resolved_sys (Fixture.world Fixture.noon Fixture.timed_out None)
     (Fixture.store Fixture.expired_key []) (Fixture.request "9876543210")).
Proof.
  refine (proj1 (proj2 (C2_paused_then_expired_then_quota
            (Fixture.request "9876543210")
            (Fixture.world Fixture.noon Fixture.timed_out None)
            (Fixture.store Fixture.expired_key [])
            Fixture.expired_info _ _ _)) _ _); vm_compute; auto.
Defined.

(* ===================================================================== *)
(** ** Format rejection (C3) *)
(* ===================================================================== *)

(** The format test is the one the claim words: ten characters, the first
    a digit from 6 to 9, the rest digits. *)
Lemma mobileRegex_test_spec number :
  Lookup.mobileRegex_test number = true <->
  exists c rest,
    number = String c rest /\ String.length rest = 9%nat /\
    Lookup.is_6_to_9 c = true /\
    Forall (fun d => Js.is_digit d = true) (String.list_ascii_of_string rest).
Proof.
  unfold Lookup.mobileRegex_test. split.
  - destruct number as [|c rest]; [discriminate|].
    rewrite !andb_true_iff, Nat.eqb_eq, forallb_forall.
    intros [[Hc Hlen] Hall]. exists c, rest. repeat split; try assumption.
    apply Forall_forall. intros d Hd. apply Hall. now apply list_elem_of_In.
  - intros (c & rest & -> & Hlen & Hc & Hall).
    rewrite !andb_true_iff, Nat.eqb_eq, forallb_forall. repeat split; try assumption.
    intros d Hd. rewrite Forall_forall in Hall. apply Hall. now apply list_elem_of_In.
Qed.

(** A request without a subject is turned away with 400 before the [try]
    block is entered. *)
Lemma missing_subject_is_400 req w s :
  Lookup.method req = "GET" ->
  Js.truthy_str (Lookup.q_number req) = false ->
  exists b, Lookup.handler req w s = (Normal {| statusCode := 400; body := Some b |}, s).
Proof.
  intros Hm Hn. unfold Lookup.handler. rewrite Hm, Hn, orb_true_r. cbn. eauto.
Qed.

(** C3 (evaluation at the failing input).  For [GET /lookup?key=k-live&number=12345]
    the format check fails and the [catch] clause is entered; it picks
    status 400 but then reads [apiKeyInfo], which is not in scope there, so
    the handler ends with a ReferenceError and sends nothing.  No call to
    the codec or to a store has been made and no table has changed. *)
Theorem C3_malformed_subject_ends_in_reference_error :
  let req := Fixture.request "12345" in
  let w := Fixture.world Fixture.noon Fixture.one_record None in
  let s := Fixture.store Fixture.live_key [] in
  Lookup.mobileRegex_test (subject req) = false /\
  Lookup.classify (Js.message
    (Js.Error "Invalid mobile number. Must be 10 digits starting with 6-9.")) =
    (400, "Invalid mobile number format") /\
  Lookup.handler req w s = (Throw (Js.ReferenceError "apiKeyInfo"), s).
Proof.
  cbv zeta. split; [reflexivity|]. split; [reflexivity|].
  apply invalid_subject_outcome; [repeat split|reflexivity].
Qed.

(* ===================================================================== *)
(** ** Upstream failure (C5) *)
(* ===================================================================== *)

(** C5.  When an admitted request meets an unusable upstream answer (the
    client throws, or the body is not an object with an array [data]) and
    the store accepts the insert, the handler answers 503 with the constant
    body [unavailable_body], which carries [retryAfter] and nothing taken
    from the provider; the usage log grows by exactly one row, tagged
    [error]; [api_keys] is untouched, and the calls made are the two rate
    reads, the upstream request and one usage insert, with no increment. *)
Theorem C5_upstream_failure_is_503 req info w s :
  admitted w s req info ->
  upstream_fails w (subject req) ->
  usage_insert_error w = None ->
  exists s',
    Lookup.handler req w s =
      (Normal {| statusCode := 503; body := Some Lookup.unavailable_body |}, s') /\
    Js.get_field Lookup.unavailable_body "retryAfter" = Some (Js.JNum 60) /\
    api_usage_logs (tables s') =
      api_usage_logs (tables s) ++ [usage_row w req info "error"] /\
    api_keys (tables s') = api_keys (tables s) /\
    calls s' = calls s ++ resolution_calls w req ++
      [CallCountIp (Lookup.client_ip req); CallReadQuota (Db.ki_id info);
       CallUpstream (subject req); CallLogUsage (usage_row w req info "error")].
Proof.
  intros Hadm Hfail Hins. eexists. split.
  - now apply (handler_upstream_failure req info).
  - repeat split. cbn. rewrite <- !app_assoc. reflexivity.
Qed.

(** The theorem at a concrete input: a live key and an upstream time-out. *)
Lemma C5_witness :
  exists s',
    Lookup.handler (Fixture.request "9876543210")
      (Fixture.world Fixture.noon Fixture.timed_out None)
      (Fixture.store Fixture.live_key []) =
      (Normal {| statusCode := 503; body := Some Lookup.unavailable_body |}, s') /\
    length (api_usage_logs (tables s')) = 1%nat /\
    api_keys (tables s') = [Fixture.live_key].
Proof.
  destruct (C5_upstream_failure_is_503
              (Fixture.request "9876543210") Fixture.live_info
              (Fixture.world Fixture.noon Fixture.timed_out None)
              (Fixture.store Fixture.live_key []))
    as (s' & Hrun & _ & Hlogs & Hkeys & _).
  - repeat split; try reflexivity. exists Fixture.live_key. split; reflexivity.
  - exact I.
  - reflexivity.
  - exists s'. rewrite Hlogs, Hkeys. repeat split; assumption || reflexivity.
Defined.

(* ===================================================================== *)
(** ** Normalisation of a successful answer (C6) *)
(* ===================================================================== *)

Lemma cleaned_is_projection number item :
  projection_of number item (Lookup.cleaned number item).
Proof.
  eexists. split; [reflexivity|]. split; [reflexivity|].
  intros f Hf. unfold Js.or_else, placeholder.
  cbn in Hf.
  destruct Hf as [<-|[<-|[<-|[<-|[<-|[<-|[<-|[]]]]]]]]; cbn;
    (split; [intros ->; reflexivity | intros v ->; reflexivity]).
Qed.

(** The part of the claim that holds.  When an admitted request gets a
    usable upstream answer whose entries are not [null] and the store
    accepts the insert, the handler
    answers 200 with [{success: true, data, meta: {query, results,
    processed_at}}]: [data] has one object per upstream entry, in order,
    each with exactly the fields name, fname, mobile, alt, address, circle,
    id; a field the entry lacks (or holds as a falsy value) reads ["N/A"],
    except [mobile], which then reads the queried number; a field the entry
    holds as a truthy value is kept; [meta.query] is the queried number and
    [meta.results] the length of [data]. *)
Lemma success_body_shape req info w s b :
  admitted w s req info ->
  upstream w (subject req) = UpstreamBody b ->
  Lookup.bad_shape b = false ->
  Forall (fun item => item <> Js.JNull) (Lookup.data_items b) ->
  usage_insert_error w = None ->
  exists data s',
    Lookup.handler req w s =
      (Normal {| statusCode := 200;
                 body := Some (Js.JObj [
                   ("success", Js.JBool true);
                   ("data", Js.JArr data);
                   ("meta", Js.JObj [
                      ("query", Js.JStr (subject req));
                      ("results", Js.JNum (Z.of_nat (length data)));
                      ("processed_at", Js.JStr (Js.toISOString (now w)))])]) |},
       s') /\
    Forall2 (projection_of (subject req)) (Lookup.data_items b) data.
Proof.
  intros Hadm Hbody Hshape Hitems Hins.
  exists (map (Lookup.cleaned (subject req)) (Lookup.data_items b)). eexists. split.
  - rewrite (handler_success req info w s Hadm b) by assumption.
    unfold Lookup.success_body. rewrite length_map. reflexivity.
  - clear. induction (Lookup.data_items b) as [|item items IH]; constructor.
    + apply cleaned_is_projection.
    + exact IH.
Qed.

(** At a concrete input: a live key and one upstream record that has a name only. *)
Lemma success_body_shape_one_record :
  exists data s',
    Lookup.handler (Fixture.request "9876543210")
      (Fixture.world Fixture.noon Fixture.one_record None)
      (Fixture.store Fixture.live_key []) =
      (Normal {| statusCode := 200;
                 body := Some (Js.JObj [
                   ("success", Js.JBool true);
                   ("data", Js.JArr data);
                   ("meta", Js.JObj [
                      ("query", Js.JStr "9876543210");
                      ("results", Js.JNum (Z.of_nat (length data)));
                      ("processed_at", Js.JStr (Js.toISOString Fixture.noon))])]) |},
       s') /\
    Forall2 (projection_of "9876543210")
      [Js.JObj [("name", Js.JStr "A. Kumar")]] data.
Proof.
  refine (success_body_shape
            (Fixture.request "9876543210") Fixture.live_info
            (Fixture.world Fixture.noon Fixture.one_record None)
            (Fixture.store Fixture.live_key [])
            (Js.JObj [("data", Js.JArr [Js.JObj [("name", Js.JStr "A. Kumar")]])])
            _ _ _ _ _).
  - repeat split; try reflexivity. exists Fixture.live_key. split; reflexivity.
  - reflexivity.
  - reflexivity.
  - repeat constructor. discriminate.
  - reflexivity.
Qed.

(** C6 (evaluation at the failing input).  The provider answers
    [{"data": [null]}] to an admitted request.  The body passes the shape
    check of the handler (an object whose [data] is an array), so it is a
    successful upstream response with one returned entry; the claim has that
    entry projected on the seven fields with their placeholders.  The
    callback of [map] reads [item.name] on [null] instead and throws a
    TypeError; the [catch] clause then fails on its own free identifier, so
    the handler sends neither the projected entry nor any other body, and
    writes no usage record although the provider was called. *)
Theorem C6_null_entry_is_not_projected :
  let req := Fixture.request "9876543210" in
  let w := Fixture.world Fixture.noon Fixture.null_record None in
  let s := Fixture.store Fixture.live_key [] in
  admitted w s req Fixture.live_info /\
  (exists b, upstream w (subject req) = UpstreamBody b /\
             Lookup.bad_shape b = false /\ Lookup.data_items b = [Js.JNull]) /\
  (exists msg,
     fst (Lookup.clean_item (subject req) Js.JNull w s) = Throw (Js.TypeError msg)) /\
  fst (Lookup.handler req w s) = Throw (Js.ReferenceError "apiKeyInfo") /\
  List.filter is_upstream_call (calls (snd (Lookup.handler req w s))) =
    [CallUpstream "9876543210"] /\
  api_usage_logs (tables (snd (Lookup.handler req w s))) = [] /\
  api_keys (tables (snd (Lookup.handler req w s))) = [Fixture.live_key].
Proof.
  cbv zeta. split.
  { repeat split; try reflexivity. exists Fixture.live_key. split; reflexivity. }
  split; [eexists; repeat split; reflexivity|].
  split; [eexists; reflexivity|].
  split; [vm_compute; reflexivity|].
  split; [vm_compute; reflexivity|].
  split; vm_compute; reflexivity.
Qed.

(* ===================================================================== *)
(** ** Usage records per exit path (C4) *)
(* ===================================================================== *)

(** C4 (counterexample).  A well-formed request whose key resolves to a
    paused key is answered 403, and that exit writes no usage record: the
    log is as empty as before and no insert was attempted. *)
Lemma C4_paused_exit_writes_no_record :
  let req := Fixture.request "9876543210" in
  let w := Fixture.world Fixture.noon Fixture.one_record None in
  let s := Fixture.store Fixture.paused_key [] in
  resolves w s req Fixture.paused_info /\
  exists resp s',
    Lookup.handler req w s = (Normal resp, s') /\
    statusCode resp = 403 /\
    api_usage_logs (tables s') = [] /\
    List.filter is_log_call (calls s') = [].
Proof.
  cbv zeta. split; [reflexivity|].
  do 2 eexists. split; [vm_compute; reflexivity|]. repeat split.
Qed.

(** C4 (amended).  Which exits of the pipeline record usage, for a
    well-formed request with a valid subject whose key resolves:
    - a paused or an expired key is answered (403, 401) without any usage
      record and without an attempt to write one;
    - an admitted request leaves exactly one record, tagged [error] when the
      upstream answer is unusable and [success] when it is usable and none
      of its entries is [null], as long as the store accepts the insert;
    - when the store refuses that insert the refusal is not contained: the
      503 or 200 the caller would have had is not what the handler yields. *)
Theorem C4_usage_record_per_exit req info w s :
  well_formed req ->
  Lookup.mobileRegex_test (subject req) = true ->
  resolves w s req info ->
  (Db.ki_is_paused info = true \/
   Lookup.has_expired (Db.ki_expires_at info) (now w) = true ->
   exists resp s',
     Lookup.handler req w s = (Normal resp, s') /\
     (statusCode resp = 403 \/ statusCode resp = 401) /\
     api_usage_logs (tables s') = api_usage_logs (tables s) /\
     List.filter is_log_call (calls s') = List.filter is_log_call (calls s)) /\
  (admitted w s req info ->
   (upstream_fails w (subject req) ->
    (usage_insert_error w = None ->
     exists resp s',
       Lookup.handler req w s = (Normal resp, s') /\ statusCode resp = 503 /\
       api_usage_logs (tables s') =
         api_usage_logs (tables s) ++ [usage_row w req info "error"]) /\
    (usage_insert_error w <> None ->
     forall r s', Lookup.handler req w s = (r, s') ->
       forall resp, r = Normal resp -> statusCode resp <> 503)) /\
   (forall b, upstream w (subject req) = UpstreamBody b ->
    Lookup.bad_shape b = false ->
    Forall (fun item => item <> Js.JNull) (Lookup.data_items b) ->
    (usage_insert_error w = None ->
     exists resp s',
       Lookup.handler req w s = (Normal resp, s') /\ statusCode resp = 200 /\
       api_usage_logs (tables s') =
         api_usage_logs (tables s) ++ [usage_row w req info "success"]) /\
    (usage_insert_error w <> None ->
     forall r s', Lookup.handler req w s = (r, s') ->
       forall resp, r = Normal resp -> statusCode resp <> 200))).
Proof.
  intros Hwf Hsub Hres. split; [|intros Hadm; split].
  - intros Hrej.
    destruct (Db.ki_is_paused info) eqn:Hp.
    + do 2 eexists. split; [exact (pipeline_paused req w s Hwf Hsub info Hres Hp)|].
      split; [now left|]. split; [reflexivity|].
      cbn. rewrite !List.filter_app. cbn. now rewrite !app_nil_r.
    + destruct Hrej as [Hrej|Hexp]; [discriminate|].
      do 2 eexists. split; [exact (pipeline_expired req w s Hwf Hsub info Hres Hp Hexp)|].
      split; [now right|]. split; [reflexivity|].
      cbn. rewrite !List.filter_app. cbn. now rewrite !app_nil_r.
  - intros Hfail. split.
    + intros Hins. do 2 eexists.
      split; [now apply (handler_upstream_failure req info)|]. split; reflexivity.
    + intros Hins r s' Hrun resp ->.
      destruct (handler_insert_refused req info w s Hadm Hins) as [s'' Hthrow];
        [now left|]. congruence.
  - intros b Hbody Hshape Hitems. split.
    + intros Hins. do 2 eexists.
      split; [now apply (handler_success req info w s Hadm b)|].
      split; [reflexivity|]. cbn. now rewrite consumed_logs.
    + intros Hins r s' Hrun resp ->.
      destruct (handler_insert_refused req info w s Hadm Hins) as [s'' Hthrow];
        [right; eauto|]. congruence.
Qed.

(** The theorem at concrete inputs, one for each kind of exit it speaks
    of: the paused key of the counterexample writes nothing; the live key
    leaves one [error] record when the provider times out and one [success]
    record when it answers with a record. *)
Lemma C4_witness :
  (exists resp s',
     Lookup.handler (Fixture.request "9876543210")
       (Fixture.world Fixture.noon Fixture.one_record None)
       (Fixture.store Fixture.paused_key []) = (Normal resp, s') /\
     (statusCode resp = 403 \/ statusCode resp = 401) /\
     api_usage_logs (tables s') = [] /\
     List.filter is_log_call (calls s') = []) /\
  (exists resp s',
     Lookup.handler (Fixture.request "9876543210")
       (Fixture.world Fixture.noon Fixture.timed_out None)
       (Fixture.store Fixture.live_key []) = (Normal resp, s') /\
     statusCode resp = 503 /\
     map status (api_usage_logs (tables s')) = ["error"]) /\
  (exists resp s',
     Lookup.handler (Fixture.request "9876543210")
       (Fixture.world Fixture.noon Fixture.one_record None)
       (Fixture.store Fixture.live_key []) = (Normal resp, s') /\
     statusCode resp = 200 /\
     map status (api_usage_logs (tables s')) = ["success"]).
Proof.
  assert (forall reply,
            admitted (Fixture.world Fixture.noon reply None)
              (Fixture.store Fixture.live_key []) (Fixture.request "9876543210")
              Fixture.live_info) as Hadm.
  { intros reply. repeat split; try reflexivity.
    exists Fixture.live_key. split; reflexivity. }
  split; [|split].
  - refine (proj1 (C4_usage_record_per_exit
              (Fixture.request "9876543210") Fixture.paused_info
              (Fixture.world Fixture.noon Fixture.one_record None)
              (Fixture.store Fixture.paused_key []) _ _ _) _).
    + repeat split.
    + reflexivity.
    + reflexivity.
    + left. reflexivity.
  - destruct (proj1 (proj1 (proj2 (C4_usage_record_per_exit
                (Fixture.request "9876543210") Fixture.live_info
                (Fixture.world Fixture.noon Fixture.timed_out None)
                (Fixture.store Fixture.live_key [])
                ltac:(repeat split) eq_refl eq_refl)
              (Hadm Fixture.timed_out)) I) eq_refl)
      as (resp & s' & Hrun & Hcode & Hlog).
    exists resp, s'. split; [exact Hrun|]. split; [exact Hcode|].
    rewrite Hlog. reflexivity.
  - destruct (proj1 (proj2 (proj2 (C4_usage_record_per_exit
                (Fixture.request "9876543210") Fixture.live_info
                (Fixture.world Fixture.noon Fixture.one_record None)
                (Fixture.store Fixture.live_key [])
                ltac:(repeat split) eq_refl eq_refl)
              (Hadm Fixture.one_record))
              (Js.JObj [("data", Js.JArr [Js.JObj [("name", Js.JStr "A. Kumar")]])])
              eq_refl eq_refl
              ltac:(repeat constructor; discriminate)) eq_refl)
      as (resp & s' & Hrun & Hcode & Hlog).
    exists resp, s'. split; [exact Hrun|]. split; [exact Hcode|].
    rewrite Hlog. reflexivity.
Defined.

(* ===================================================================== *)
(** ** Daily budget and day roll-over (C1) *)
(* ===================================================================== *)

(** What [incrementApiUsage] does to the rows of a key whose stored day is
    not today: the count restarts at one and the day is stamped. *)
Lemma consumed_new_day w apiKeyId t row :
  head (Db.rows_by_id apiKeyId t) = Some row ->
  last_reset_date row <> Js.iso_date (now w) ->
  api_keys (consumed w apiKeyId t) =
  map (fun k => if decide (id k = apiKeyId)
                then Db.reset_usage (Js.iso_date (now w)) k else k) (api_keys t).
Proof.
  intros Hrow Hday. unfold consumed, Db.needs_reset. rewrite Hrow.
  destruct (String.eqb_spec (last_reset_date row) (Js.iso_date (now w))); [contradiction|].
  reflexivity.
Qed.

(** On the stored day the count goes up by one. *)
Lemma consumed_same_day w apiKeyId t row :
  head (Db.rows_by_id apiKeyId t) = Some row ->
  last_reset_date row = Js.iso_date (now w) ->
  api_keys (consumed w apiKeyId t) =
  map (fun k => if decide (id k = apiKeyId) then Db.bump_usage k else k) (api_keys t).
Proof.
  intros Hrow Hday. unfold consumed, Db.needs_reset. rewrite Hrow, Hday, String.eqb_refl.
  reflexivity.
Qed.

(** The quota comparison never consults the stored day: a key whose count
    has reached its budget is refused on whatever day the request comes,
    before the provider is called and with the tables as they were. *)
Lemma spent_key_is_refused_on_any_day req info w s row :
  well_formed req ->
  Lookup.mobileRegex_test (subject req) = true ->
  resolves w s req info ->
  Db.ki_is_paused info = false ->
  Lookup.has_expired (Db.ki_expires_at info) (now w) = false ->
  under_ip_limit w s req ->
  head (Db.rows_by_id (Db.ki_id info) (tables s)) = Some row ->
  daily_limit row <= daily_used row ->
  exists r, Lookup.handler req w s = (r, admitted_sys w s req info) /\
            forall resp, r <> Normal resp.
Proof.
  intros Hwf Hsub Hres Hp He Hip Hrow Hq. eexists. split.
  - rewrite handler_enters_try by assumption.
    erewrite run_try_throw; [apply on_error_throws|].
    rewrite (pipeline_live req w s Hsub info Hres Hp He), run_bind.
    rewrite (checkRateLimit_quota_exceeded _ _ _ _ row); [reflexivity|assumption..].
  - discriminate.
Qed.

(** The first counted call of a new day: every row of the key ends with a
    count of one and today's date. *)
Lemma first_counted_call_of_day req info w s b row :
  admitted w s req info ->
  upstream w (subject req) = UpstreamBody b ->
  Lookup.bad_shape b = false ->
  Forall (fun item => item <> Js.JNull) (Lookup.data_items b) ->
  usage_insert_error w = None ->
  head (Db.rows_by_id (Db.ki_id info) (tables s)) = Some row ->
  last_reset_date row <> Js.iso_date (now w) ->
  forall k, k ∈ api_keys (tables (snd (Lookup.handler req w s))) ->
    id k = Db.ki_id info ->
    daily_used k = 1 /\ last_reset_date k = Js.iso_date (now w).
Proof.
  intros Hadm Hbody Hshape Hitems Hins Hrow Hday k.
  rewrite (handler_success req info w s Hadm b) by assumption.
  cbn [snd tables append_log with_tables with_usage_logs api_keys add_call].
  rewrite (consumed_new_day w _ _ row) by assumption.
  intros Hin Hid. apply list_elem_of_fmap in Hin as (k0 & -> & _).
  destruct (decide (id k0 = Db.ki_id info)) as [_|Hne]; [split; reflexivity|].
  contradiction.
Qed.

(** C1 (evaluation at the failing input).  The key used its budget of 10 on
    1 January; the request arrives at noon on 2 January.  The stored day
    differs from today, yet [checkRateLimit] compares the stored count with
    the budget as they stand and throws the quota error: the request does
    not reach the provider, and the row keeps [daily_used = 10] and the old
    day.  The roll-over sits in [incrementApiUsage] only, which runs after
    a successful upstream call. *)
Theorem C1_spent_key_stays_locked_on_new_day :
  let req := Fixture.request "9876543210" in
  let w := Fixture.world Fixture.noon Fixture.one_record None in
  let s := Fixture.store Fixture.spent_key [] in
  last_reset_date Fixture.spent_key <> Js.iso_date (now w) /\
  Lookup.checkRateLimit 1 (Lookup.client_ip req) w (resolved_sys w s req) =
    (Throw (Js.Error "Daily quota exceeded for this API key."),
     admitted_sys w s req (Db.select_key Fixture.spent_key (Fixture.owner true))) /\
  exists r s',
    Lookup.handler req w s = (r, s') /\
    api_keys (tables s') = [Fixture.spent_key] /\
    List.filter is_upstream_call (calls s') = [] /\
    forall resp, r = Normal resp -> False.
Proof.
  cbv zeta. split; [vm_compute; discriminate|]. split; [vm_compute; reflexivity|].
  do 2 eexists. split; [vm_compute; reflexivity|].
  repeat split. intros resp H. discriminate H.
Qed.

(* ===================================================================== *)
(** ** The per-address limiter (C7) *)
(* ===================================================================== *)

(** C7 (counterexample).  A hundred records from one address at 11:59:00
    and a request from it at 12:00:30: the calendar hour of the request
    holds no record at all, yet the limiter counts the hundred and refuses,
    and the request never reaches the provider.  Counts are not reset at the
    hour boundary. *)
Lemma C7_no_reset_at_hour_boundary :
  let req := Fixture.request "9876543210" in
  let w := Fixture.world (Fixture.noon + 30000) Fixture.one_record None in
  let s := Fixture.store Fixture.live_key Fixture.busy_minute in
  hour_bucket (Fixture.noon - 60000) <> hour_bucket (now w) /\
  bucket_count (tables s) (Lookup.client_ip req) (now w) = 0 /\
  Lookup.checkRateLimit 1 (Lookup.client_ip req) w s =
    (Throw (Js.Error "Rate limit exceeded. Too many requests from this IP."),
     add_call (CallCountIp (Lookup.client_ip req)) s) /\
  exists r s',
    Lookup.handler req w s = (r, s') /\
    List.filter is_upstream_call (calls s') = [].
Proof.
  cbv zeta. split; [vm_compute; discriminate|]. split; [vm_compute; reflexivity|].
  split; [vm_compute; reflexivity|].
  do 2 eexists. split; [vm_compute; reflexivity|]. reflexivity.
Qed.

(** The count looks at the address and the age of a record, never at the
    key it was written for. *)
Lemma ip_usage_count_relabel f t ip now :
  Lookup.ip_usage_count
    (with_usage_logs (map (relabel_key f) (api_usage_logs t)) t) ip now =
  Lookup.ip_usage_count t ip now.
Proof.
  unfold Lookup.ip_usage_count. cbn [api_usage_logs with_usage_logs]. f_equal.
  induction (api_usage_logs t) as [|r l IH]; [reflexivity|].
  cbn [map]. rewrite !filter_cons. cbn [relabel_key ip_address log_created_at].
  destruct (decide _); cbn [length]; now rewrite IH.
Qed.

(** A record written now for [ip] raises the count for [ip] by one. *)
Lemma ip_usage_count_append t ip now row :
  ip_address row = ip -> log_created_at row = now ->
  Lookup.ip_usage_count (with_usage_logs (api_usage_logs t ++ [row]) t) ip now =
  Lookup.ip_usage_count t ip now + 1.
Proof.
  intros Hip Hnow. unfold Lookup.ip_usage_count. cbn [api_usage_logs with_usage_logs].
  rewrite filter_app, length_app, filter_cons, filter_nil.
  destruct (decide _) as [_|Hno].
  - cbn [length]. lia.
  - exfalso. apply Hno. split; [assumption|]. unfold Lookup.one_hour. lia.
Qed.

(** C7 (amended).  For a well-formed request with a valid subject and a key
    that resolves and is neither paused nor expired, whichever key it is:
    when at least 100 usage records carry the caller's address and are less
    than one hour old (a window that slides with the clock), the rate check
    throws its rate-limit error and the handler stops there, with no call to
    the provider and no table changed; below 100 the address check lets the
    request through to the quota check and, budget permitting, to the
    provider.  The count is taken from the usage records themselves: it
    does not depend on the key ids they carry, and each record written now
    for the address raises it by one. *)
Theorem C7_sliding_hour_limit req info w s :
  well_formed req ->
  Lookup.mobileRegex_test (subject req) = true ->
  resolves w s req info ->
  Db.ki_is_paused info = false ->
  Lookup.has_expired (Db.ki_expires_at info) (now w) = false ->
  let ip := Lookup.client_ip req in
  (100 <= Lookup.ip_usage_count (tables s) ip (now w) ->
   Lookup.checkRateLimit (Db.ki_id info) ip w (resolved_sys w s req) =
     (Throw (Js.Error "Rate limit exceeded. Too many requests from this IP."),
      add_call (CallCountIp ip) (resolved_sys w s req)) /\
   exists r,
     Lookup.handler req w s = (r, add_call (CallCountIp ip) (resolved_sys w s req))) /\
  (Lookup.ip_usage_count (tables s) ip (now w) < 100 ->
   under_quota s info ->
   Lookup.pipeline req (secret req) (subject req) w s =
   Lookup.forward req (subject req) info ip w (admitted_sys w s req info)) /\
  (forall f,
     Lookup.ip_usage_count
       (with_usage_logs (map (relabel_key f) (api_usage_logs (tables s))) (tables s))
       ip (now w) =
     Lookup.ip_usage_count (tables s) ip (now w)) /\
  (forall row, ip_address row = ip -> log_created_at row = now w ->
     Lookup.ip_usage_count
       (with_usage_logs (api_usage_logs (tables s) ++ [row]) (tables s)) ip (now w) =
     Lookup.ip_usage_count (tables s) ip (now w) + 1).
Proof.
  intros Hwf Hsub Hres Hp He ip. split; [|split; [|split]].
  - intros Hfull. split; [now apply checkRateLimit_ip_exceeded|].
    eexists. rewrite handler_enters_try by assumption.
    erewrite run_try_throw; [apply on_error_throws|].
    rewrite (pipeline_live req w s Hsub info Hres Hp He), run_bind.
    rewrite checkRateLimit_ip_exceeded by assumption. reflexivity.
  - intros Hip Hq. apply pipeline_admitted.
    exact (conj Hwf (conj Hsub (conj Hres (conj Hp (conj He (conj Hip Hq)))))).
  - intros f. apply ip_usage_count_relabel.
  - intros row. apply ip_usage_count_append.
Qed.

(** The theorem at a concrete input: the hundred records of 11:59:00 and a request at 12:00:30. *)
Lemma C7_witness :
  let req := Fixture.request "9876543210" in
  let w := Fixture.world (Fixture.noon + 30000) Fixture.one_record None in
  let s := Fixture.store Fixture.live_key Fixture.busy_minute in
  exists r,
    Lookup.handler req w s =
    (r, add_call (CallCountIp (Lookup.client_ip req)) (resolved_sys w s req)).
Proof.
  cbv zeta.
  refine (proj2 (proj1 (C7_sliding_hour_limit
            (Fixture.request "9876543210") Fixture.live_info
            (Fixture.world (Fixture.noon + 30000) Fixture.one_record None)
            (Fixture.store Fixture.live_key Fixture.busy_minute) _ _ _ _ _) _)).
  - repeat split.
  - reflexivity.
  - reflexivity.
  - reflexivity.
  - reflexivity.
  - vm_compute. discriminate.
Defined.

(* ===================================================================== *)
(** ** Administrator sessions (C8) *)
(* ===================================================================== *)

Section Sessions.

Variables (w : Env) (s : Sys).

Lemma createSession_run userId username :
  let tok := {| claims := {| c_userId := userId; c_username := username;
                             iat := now w / 1000;
                             exp := now w / 1000 + 24 * 60 * 60 |};
                signed_with := jwt_secret w |} in
  Auth.createSession userId username w s =
  (Normal (random_uuid w, tok),
   with_kv (<[Auth.session_key (random_uuid w) :=
               {| kv_value := {| token := tok; userId := userId;
                                 s_username := username;
                                 createdAt := Js.toISOString (now w) |};
                  kv_deadline := now w + 86400 * 1000 |}]> (kv s)) s).
Proof. reflexivity. Qed.

(** A fresh session is stored under its id with 24 hours to live. *)
Lemma createSession_ttl userId username :
  Kv.ttl (now w) (kv (snd (Auth.createSession userId username w s)))
    (Auth.session_key (random_uuid w)) = Some 86400000.
Proof.
  rewrite createSession_run. cbn [snd kv with_kv]. unfold Kv.ttl, Kv.live.
  rewrite lookup_insert_eq. cbn [kv_deadline].
  destruct (Z.ltb_spec (now w) (now w + 86400 * 1000)); [|lia].
  cbn. f_equal. lia.
Qed.

Lemma kv_get_run key :
  Kv.get key w s = (Normal (kv_value <$> Kv.live (now w) (kv s) key), s).
Proof. reflexivity. Qed.

Lemma kv_expire_run key seconds :
  Kv.expire key seconds w s =
  (Normal tt,
   match Kv.live (now w) (kv s) key with
   | Some e => with_kv (<[key := {| kv_value := kv_value e;
                                    kv_deadline := now w + seconds * 1000 |}]> (kv s)) s
   | None => s
   end).
Proof. unfold Kv.expire. run_eff. destruct (Kv.live _ _ _); reflexivity. Qed.

Lemma verifyToken_run tok :
  Auth.verifyToken tok w s =
  (Normal (if decide (signed_with tok = jwt_secret w)
           then if now w / 1000 <? exp (claims tok) then Some (claims tok) else None
           else None), s).
Proof.
  unfold Auth.verifyToken. run_eff.
  destruct (decide _); [destruct (_ <? _)|]; reflexivity.
Qed.

(** The function, step by step, for a non-empty session id. *)
Lemma validateSession_run sid :
  sid <> "" ->
  Auth.validateSession (Some sid) w s =
  match Kv.live (now w) (kv s) (Auth.session_key sid) with
  | Some e =>
      if decide (signed_with (token (kv_value e)) = jwt_secret w) then
        if now w / 1000 <? exp (claims (token (kv_value e))) then
          if decide (c_userId (claims (token (kv_value e))) = userId (kv_value e)) then
            (Normal (Some (claims (token (kv_value e)))),
             with_kv (<[Auth.session_key sid := renewed w e]> (kv s)) s)
          else (Normal None, s)
        else (Normal None, s)
      else (Normal None, s)
  | None => (Normal None, s)
  end.
Proof.
  intros Hsid. unfold Auth.validateSession. cbn [Js.truthy_str].
  destruct (String.eqb_spec sid ""); [contradiction|].
  change (default "" (Some sid)) with sid. cbn [negb].
  rewrite run_bind, kv_get_run.
  destruct (Kv.live (now w) (kv s) (Auth.session_key sid)) as [e|] eqn:Hlive;
    [|reflexivity].
  cbn [fmap option_fmap option_map]. rewrite run_bind, verifyToken_run.
  destruct (decide (signed_with _ = _)); [|reflexivity].
  destruct (_ <? _); [|reflexivity].
  destruct (decide (c_userId _ = _)); [|reflexivity].
  rewrite run_bind, kv_expire_run, Hlive. reflexivity.
Qed.

Lemma session_checks_live sid e :
  session_checks w s sid e -> Kv.live (now w) (kv s) (Auth.session_key sid) = Some e.
Proof.
  intros (_ & Hlook & Hlive & _). unfold Kv.live. rewrite Hlook.
  apply Z.ltb_lt in Hlive. now rewrite Hlive.
Qed.

Lemma validateSession_success sid e :
  session_checks w s sid e ->
  Auth.validateSession (Some sid) w s =
  (Normal (Some (claims (token (kv_value e)))),
   with_kv (<[Auth.session_key sid := renewed w e]> (kv s)) s).
Proof.
  intros H. rewrite validateSession_run by apply H.
  rewrite (session_checks_live sid e H).
  destruct H as (_ & _ & _ & Hsig & Hexp & Huid).
  rewrite decide_True by assumption. apply Z.ltb_lt in Hexp. rewrite Hexp.
  now rewrite decide_True by assumption.
Qed.


(** Validation never throws and touches neither the tables nor the call
    log; it answers with claims only when all three checks pass. *)
Lemma validateSession_cases sessionId :
  exists r s',
    Auth.validateSession sessionId w s = (Normal r, s') /\
    tables s' = tables s /\ calls s' = calls s /\
    (forall d, r = Some d ->
       exists sid e, sessionId = Some sid /\ session_checks w s sid e /\
                     d = claims (token (kv_value e))) /\
    (r = None -> s' = s).
Proof.
  destruct sessionId as [sid|].
  2:{ exists None, s. repeat split; intros; discriminate. }
  destruct (String.eqb_spec sid "") as [->|Hsid].
  { exists None, s. repeat split; intros; discriminate. }
  rewrite validateSession_run by assumption. unfold Kv.live.
  destruct (kv s !! Auth.session_key sid) as [e|] eqn:Hlook.
  2:{ exists None, s. repeat split; intros; discriminate. }
  destruct (Z.ltb_spec (now w) (kv_deadline e)) as [Hlive|].
  2:{ exists None, s. repeat split; intros; discriminate. }
  destruct (decide (signed_with (token (kv_value e)) = jwt_secret w)) as [Hsig|].
  2:{ exists None, s. repeat split; intros; discriminate. }
  destruct (Z.ltb_spec (now w / 1000) (exp (claims (token (kv_value e))))) as [Hexp|].
  2:{ exists None, s. repeat split; intros; discriminate. }
  destruct (decide (c_userId (claims (token (kv_value e))) = userId (kv_value e)))
    as [Huid|].
  2:{ exists None, s. repeat split; intros; discriminate. }
  do 2 eexists. split; [reflexivity|]. split; [reflexivity|]. split; [reflexivity|].
  split; [|discriminate].
  intros d [= <-]. exists sid, e. repeat split; assumption.
Qed.

End Sessions.

(** The renewal sets the time to live, it does not add to it: a session
    issued at noon has 86390 seconds left ten seconds later, and 1800 once
    it has been validated then. *)
Lemma renewal_sets_the_idle_window :
  let w0 := Fixture.world Fixture.noon Fixture.one_record None in
  let w1 := Fixture.world (Fixture.noon + 10000) Fixture.one_record None in
  let key := Auth.session_key Fixture.sid in
  let validated := Auth.validateSession (Some Fixture.sid) w1 Fixture.logged_in in
  Kv.ttl (now w0) (kv Fixture.logged_in) key = Some 86400000 /\
  Kv.ttl (now w1) (kv Fixture.logged_in) key = Some 86390000 /\
  (exists e, session_checks w1 Fixture.logged_in Fixture.sid e /\
             fst validated = Normal (Some (claims (token (kv_value e))))) /\
  Kv.ttl (now w1) (kv (snd validated)) key = Some 1800000.
Proof.
  cbv zeta. split; [apply createSession_ttl|]. split; [vm_compute; reflexivity|].
  split; [|vm_compute; reflexivity].
  eexists. split.
  - unfold session_checks. split; [discriminate|]. split; [vm_compute; reflexivity|].
    repeat split; vm_compute; reflexivity.
  - vm_compute. reflexivity.
Qed.



(* ===================================================================== *)
(** ** Revocation (C9) *)
(* ===================================================================== *)

Lemma revoked_rows_ids t n rows : map id (revoked_rows t n rows) = map id rows.
Proof.
  unfold revoked_rows. rewrite map_map. apply map_ext.
  intros k. destruct (decide _); reflexivity.
Qed.

Lemma revoked_rows_revoked t n rows k :
  k ∈ revoked_rows t n rows -> id k = n ->
  revoked_at t k /\ expires_at k = Some (t - Js.ms_per_day).
Proof.
  unfold revoked_rows. intros Hin Hid.
  apply list_elem_of_fmap in Hin as (k0 & -> & _).
  destruct (decide (id k0 = n)) as [_|Hne]; [|contradiction].
  unfold revoked_at. cbn. repeat split.
  apply Z.ltb_lt. unfold Js.ms_per_day. lia.
Qed.

Lemma revoked_rows_others t n rows k :
  k ∈ revoked_rows t n rows -> id k <> n -> k ∈ rows.
Proof.
  unfold revoked_rows. intros Hin Hid.
  apply list_elem_of_fmap in Hin as (k0 & -> & Hk0).
  destruct (decide (id k0 = n)) as [Heq|_]; [contradiction|assumption].
Qed.

(** A second revocation overwrites the first. *)
Lemma revoked_rows_again t1 t2 n rows :
  revoked_rows t2 n (revoked_rows t1 n rows) = revoked_rows t2 n rows.
Proof.
  unfold revoked_rows. rewrite map_map. apply map_ext. intros k.
  destruct (decide (id k = n)) as [Heq|Hne].
  - cbn [id RevokeKey.revoke_row]. rewrite decide_True by assumption. reflexivity.
  - rewrite decide_False by assumption. reflexivity.
Qed.

Lemma rows_by_id_revoked t n rows :
  filter (fun k => id k = n) (revoked_rows t n rows) =
  map (RevokeKey.revoke_row t) (filter (fun k => id k = n) rows).
Proof.
  induction rows as [|k rows IH]; [reflexivity|].
  cbn [revoked_rows map]. rewrite !filter_cons.
  destruct (decide (id k = n)) as [Heq|Hne].
  - cbn [id RevokeKey.revoke_row]. rewrite decide_True by assumption.
    cbn [map]. f_equal. exact IH.
  - rewrite decide_False by assumption. exact IH.
Qed.

(** What one authorised revoke request does. *)
Lemma revoke_handler_effect req w s d s1 key_id n :
  RevokeKey.method req = "DELETE" ->
  Auth.validateSession (RevokeKey.admin_session req) w s = (Normal (Some d), s1) ->
  RevokeKey.body req = Some key_id ->
  Js.truthy_scalar key_id = true ->
  key_id ≫= Js.parseInt = Some n ->
  RevokeKey.in_int4 n = true ->
  exists resp,
    RevokeKey.handler req w s =
      (Normal resp,
       with_tables (with_api_keys (revoked_rows (now w) n (api_keys (tables s1)))
                      (tables s1)) s1) /\
    (statusCode resp = 200 <-> exists k, k ∈ api_keys (tables s1) /\ id k = n).
Proof.
  intros Hm Hsess Hbody Htruthy Hparse Hint.
  unfold RevokeKey.handler. rewrite Hm. cbn [String.eqb Ascii.eqb negb].
  change (String.eqb "DELETE" "DELETE") with true. cbn [negb].
  unfold RevokeKey.revoke.
  set (rows := filter (fun k => id k = n) (api_keys (tables s1))).
  exists (match head rows with
          | Some row => {| statusCode := 200;
                           body := Some (RevokeKey.revoked_body
                                           (RevokeKey.revoke_row (now w) row) (now w)) |}
          | None => {| statusCode := 404; body := Some (error_body "API key not found") |}
          end).
  split.
  - apply run_try_normal. rewrite run_bind, Hsess, Hbody, Htruthy. cbn [negb].
    rewrite Hparse, Hint. run_eff. unfold Db.rows_by_id, Db.update_key.
    cbn [api_keys with_api_keys tables with_tables].
    fold (revoked_rows (now w) n (api_keys (tables s1))).
    rewrite rows_by_id_revoked. fold rows.
    destruct rows as [|row rows']; reflexivity.
  - split.
    + intros H. destruct rows as [|row rows'] eqn:Hrows; [discriminate|].
      assert (row ∈ rows) as Hin by (rewrite Hrows; left).
      unfold rows in Hin. apply list_elem_of_filter in Hin as [Hid Hin]. eauto.
    + intros (k & Hk & Hid).
      assert (k ∈ rows) as Hin by (unfold rows; apply list_elem_of_filter; auto).
      destruct rows; [inversion Hin|reflexivity].
Qed.

(** C9.  An authorised revoke request for key id [n] performs one update
    that gives every row with that id both an expiry one day in the past
    and the paused flag, and changes no other row and no other column; the
    rows are the same in number and carry the same ids, and the other
    tables are untouched, so nothing is removed.  Revoking once more, at
    the same instant or later, leaves the key revoked (paused and expired)
    and the table as a single revocation at that instant would: the same
    rows, the same answer, and at the same instant the very same table. *)
Theorem C9_revoke_is_an_idempotent_soft_delete req w s d s1 key_id n :
  RevokeKey.method req = "DELETE" ->
  Auth.validateSession (RevokeKey.admin_session req) w s = (Normal (Some d), s1) ->
  RevokeKey.body req = Some key_id ->
  Js.truthy_scalar key_id = true ->
  key_id ≫= Js.parseInt = Some n ->
  RevokeKey.in_int4 n = true ->
  exists resp s',
    RevokeKey.handler req w s = (Normal resp, s') /\
    api_keys (tables s') = revoked_rows (now w) n (api_keys (tables s)) /\
    (forall k, k ∈ api_keys (tables s') -> id k = n ->
       is_paused k = true /\ expires_at k = Some (now w - 86400000) /\
       Lookup.has_expired (expires_at k) (now w) = true) /\
    (forall k, k ∈ api_keys (tables s') -> id k <> n -> k ∈ api_keys (tables s)) /\
    map id (api_keys (tables s')) = map id (api_keys (tables s)) /\
    users (tables s') = users (tables s) /\
    api_usage_logs (tables s') = api_usage_logs (tables s) /\
    (forall w2 d2 s2,
       Auth.validateSession (RevokeKey.admin_session req) w2 s' = (Normal (Some d2), s2) ->
       exists resp2 s'',
         RevokeKey.handler req w2 s' = (Normal resp2, s'') /\
         (statusCode resp2 = 200 <-> statusCode resp = 200) /\
         api_keys (tables s'') = revoked_rows (now w2) n (api_keys (tables s)) /\
         map id (api_keys (tables s'')) = map id (api_keys (tables s)) /\
         (forall k, k ∈ api_keys (tables s'') -> id k = n -> revoked_at (now w2) k) /\
         (now w2 = now w -> api_keys (tables s'') = api_keys (tables s'))).
Proof.
  intros Hm Hsess Hbody Htruthy Hparse Hint.
  assert (tables s1 = tables s) as Ht.
  { destruct (validateSession_cases w s (RevokeKey.admin_session req))
      as (r & s0 & Hrun & Htab & _). rewrite Hsess in Hrun. now inversion Hrun. }
  destruct (revoke_handler_effect req w s d s1 key_id n) as (resp & Hrun & Hcode);
    try assumption.
  rewrite Ht in Hrun, Hcode.
  do 2 eexists. split; [exact Hrun|].
  cbn [tables with_tables api_keys with_api_keys users api_usage_logs].
  split; [reflexivity|]. split.
  { intros k Hk Hid. destruct (revoked_rows_revoked _ _ _ _ Hk Hid) as [[Hp He] Hx].
    auto. }
  split; [intros k; apply revoked_rows_others|].
  split; [apply revoked_rows_ids|].
  split; [reflexivity|]. split; [reflexivity|].
  intros w2 d2 s2 Hsess2.
  match type of Hsess2 with
  | Auth.validateSession _ _ ?s' = _ => set (once := s') in *
  end.
  assert (tables s2 = tables once) as Ht2.
  { destruct (validateSession_cases w2 once (RevokeKey.admin_session req))
      as (r & s0 & Hrun2 & Htab & _). rewrite Hsess2 in Hrun2. now inversion Hrun2. }
  destruct (revoke_handler_effect req w2 once d2 s2 key_id n) as (resp2 & Hrun2 & Hcode2);
    try assumption.
  rewrite Ht2 in Hrun2, Hcode2.
  do 2 eexists. split; [exact Hrun2|].
  cbn [once tables with_tables api_keys with_api_keys] in *.
  rewrite revoked_rows_again.
  split.
  { rewrite Hcode, Hcode2. split.
    - intros (k & Hk & Hid).
      apply list_elem_of_fmap in Hk as (k0 & -> & Hk0). exists k0. split; [assumption|].
      destruct (decide (id k0 = n)); [assumption|]. assumption.
    - intros (k & Hk & Hid).
      exists (RevokeKey.revoke_row (now w) k). split; [|assumption].
      apply list_elem_of_fmap. exists k. split; [|assumption].
      now rewrite decide_True by assumption. }
  split; [reflexivity|]. split; [apply revoked_rows_ids|].
  split.
  { intros k Hk Hid. now apply (revoked_rows_revoked _ _ _ _ Hk Hid). }
  intros ->. reflexivity.
Qed.

(** The theorem at a concrete input: a logged-in administrator revoking
    key 1 ten seconds after login. *)
Lemma C9_witness :
  exists resp s',
    RevokeKey.handler Fixture.revoke_request
      (Fixture.world (Fixture.noon + 10000) Fixture.one_record None)
      Fixture.logged_in = (Normal resp, s') /\
    api_keys (tables s') =
      revoked_rows (Fixture.noon + 10000) 1 [Fixture.live_key].
Proof.
  edestruct (C9_revoke_is_an_idempotent_soft_delete
               Fixture.revoke_request
               (Fixture.world (Fixture.noon + 10000) Fixture.one_record None)
               Fixture.logged_in)
    as (resp & s' & Hrun & Hkeys & _).
  - reflexivity.
  - vm_compute. reflexivity.
  - reflexivity.
  - reflexivity.
  - vm_compute. reflexivity.
  - reflexivity.
  - exists resp, s'. split; [exact Hrun|exact Hkeys].
Defined.

(* ===================================================================== *)
(** ** Key resolution and the owner's activity flag (C10) *)
(* ===================================================================== *)

Section Activity.

Variable f : Z -> bool.




















End Activity.

(** A key whose owner row exists resolves, whatever the owner's flag. *)
Lemma getApiKey_finds_owned_key w s k u :
  k ∈ api_keys (tables s) ->
  u ∈ users (tables s) ->
  user_id k = Some (u_id u) ->
  exists info, fst (Db.getApiKey (key_hash k) w s) = Normal (Some info).
Proof.
  intros Hk Hu Hown. unfold Db.getApiKey. run_eff. cbn [fst].
  change (tables (add_call _ s)) with (tables s).
  assert (Db.select_key k u ∈ Db.key_join_user (tables s) (key_hash k)) as Hin.
  { unfold Db.key_join_user. apply list_elem_of_bind. exists k. split.
    - apply list_elem_of_bind. exists u. split; [left|].
      apply list_elem_of_filter. auto.
    - apply list_elem_of_filter. auto. }
  destruct (Db.key_join_user (tables s) (key_hash k)) as [|info rest];
    [inversion Hin|]. exists info. reflexivity.
Qed.






(* ===================================================================== *)
(** ** The exits of the lookup handler *)
(* ===================================================================== *)

(** Every row the join yields comes from a key row and a user row. *)
Lemma key_join_user_origin t keyHash info :
  info ∈ Db.key_join_user t keyHash ->
  exists k u, k ∈ api_keys t /\ u ∈ users t /\ key_hash k = keyHash /\
              user_id k = Some (u_id u) /\ info = Db.select_key k u.
Proof.
  unfold Db.key_join_user. intros Hin.
  apply list_elem_of_bind in Hin as (k & Hin & Hk).
  apply list_elem_of_bind in Hin as (u & Hin & Hu).
  apply list_elem_of_filter in Hk as [Hhash Hk].
  apply list_elem_of_filter in Hu as [Hown Hu].
  apply list_elem_of_singleton in Hin. eauto 10.
Qed.

Lemma head_elem_of {A} (l : list A) x : head l = Some x -> x ∈ l.
Proof. destruct l; [discriminate|]. intros [= ->]. left. Qed.

(** The key a request resolves to has a row for the quota read. *)
Lemma resolved_key_has_row w s req info :
  resolves w s req info ->
  exists row, head (Db.rows_by_id (Db.ki_id info) (tables s)) = Some row.
Proof.
  intros Hres. apply head_elem_of in Hres.
  apply key_join_user_origin in Hres as (k & u & Hk & _ & _ & _ & ->).
  assert (k ∈ Db.rows_by_id (id k) (tables s)) as Hin
    by (apply list_elem_of_filter; auto).
  cbn [Db.select_key Db.ki_id].
  destruct (Db.rows_by_id (id k) (tables s)) as [|row rest]; [inversion Hin|eauto].
Qed.

(** A [null] among the entries makes the clean-up throw, the stores being
    left as they are. *)
Lemma map_eff_clean_null number items w s :
  ~ no_null items ->
  exists msg,
    Lookup.map_eff (Lookup.clean_item number) items w s = (Throw (Js.TypeError msg), s).
Proof.
  unfold no_null. induction items as [|item items IH]; intros Hnull.
  - exfalso. apply Hnull. constructor.
  - cbn [Lookup.map_eff]. rewrite run_bind.
    destruct item;
      try (eexists; reflexivity);
      (destruct IH as [msg IH];
       [intros Hall; apply Hnull; constructor; [discriminate|exact Hall]|];
       cbn [Lookup.clean_item]; unfold mret, Eff_ret; rewrite run_bind, IH; eauto).
Qed.

Lemma no_null_dec items : no_null items \/ ~ no_null items.
Proof.
  unfold no_null. induction items as [|item items [IH|IH]].
  - left. constructor.
  - destruct item; try (left; constructor; [discriminate|exact IH]).
    right. intros H. inversion H. congruence.
  - right. intros H. inversion H. contradiction.
Qed.

Section Exits.

Variables (req : Lookup.Request) (w : Env) (s : Sys).

Lemma run_rate_exceeded info :
  live_key w s req info ->
  100 <= Lookup.ip_usage_count (tables s) (Lookup.client_ip req) (now w) ->
  Lookup.handler req w s =
  (reference_error, add_call (CallCountIp (Lookup.client_ip req)) (resolved_sys w s req)).
Proof.
  intros (Hwf & Hsub & Hres & Hp & He) Hfull.
  rewrite handler_enters_try by assumption.
  erewrite run_try_throw; [apply on_error_throws|].
  rewrite (pipeline_live req w s Hsub info Hres Hp He), run_bind.
  rewrite checkRateLimit_ip_exceeded by assumption. reflexivity.
Qed.

Lemma run_quota_exceeded info row :
  live_key w s req info -> under_ip_limit w s req ->
  head (Db.rows_by_id (Db.ki_id info) (tables s)) = Some row ->
  daily_limit row <= daily_used row ->
  Lookup.handler req w s = (reference_error, admitted_sys w s req info).
Proof.
  intros (Hwf & Hsub & Hres & Hp & He) Hip Hrow Hq.
  rewrite handler_enters_try by assumption.
  erewrite run_try_throw; [apply on_error_throws|].
  rewrite (pipeline_live req w s Hsub info Hres Hp He), run_bind.
  rewrite (checkRateLimit_quota_exceeded _ _ _ _ row); [reflexivity|assumption..].
Qed.

Lemma logUsage_refused_exact apiKeyId number rt outcome ip ua s0 :
  usage_insert_error w <> None ->
  exists msg,
    Db.logUsage apiKeyId number rt outcome ip ua w s0 =
    (Throw (Js.Error msg),
     add_call (CallLogUsage {| api_key_id := apiKeyId; mobile_number := number;
                               response_time := rt; status := outcome;
                               ip_address := ip; user_agent := ua;
                               log_created_at := now w |}) s0).
Proof.
  intros H. unfold Db.logUsage. run_eff.
  destruct (usage_insert_error w) as [msg|]; [|congruence]. eauto.
Qed.

Lemma run_upstream_unlogged info :
  admitted w s req info -> upstream_fails w (subject req) ->
  usage_insert_error w <> None ->
  Lookup.handler req w s =
  (reference_error,
   add_call (CallLogUsage (usage_row w req info "error")) (called_sys w s req info)).
Proof.
  intros Hadm Hfail Hins. rewrite handler_enters_try by apply Hadm.
  destruct (logUsage_refused_exact (Db.ki_id info) (subject req) (upstream_latency w)
              "error" (Lookup.client_ip req) (Lookup.h_user_agent req)
              (called_sys w s req info) Hins) as [msg Hlog].
  erewrite run_try_throw; [apply on_error_throws|].
  rewrite (pipeline_admitted req info) by assumption. unfold Lookup.forward.
  destruct (fetch_base_fails (subject req) w (admitted_sys w s req info) Hfail) as [e He].
  rewrite run_bind. cbn [ask]. rewrite run_bind. unfold attempt at 1. rewrite He.
  rewrite run_bind. fold (called_sys w s req info). rewrite Hlog. reflexivity.
Qed.

Lemma run_null_entry info b :
  admitted w s req info -> upstream_gives w (subject req) b ->
  ~ no_null (Lookup.data_items b) ->
  Lookup.handler req w s = (reference_error, called_sys w s req info).
Proof.
  intros Hadm [Hbody Hshape] Hnull. rewrite handler_enters_try by apply Hadm.
  destruct (map_eff_clean_null (subject req) (Lookup.data_items b) w
              (called_sys w s req info) Hnull) as [msg Hmap].
  erewrite run_try_throw; [apply on_error_throws|].
  rewrite (pipeline_admitted req info) by assumption. unfold Lookup.forward.
  rewrite run_bind. cbn [ask]. rewrite run_bind. unfold attempt at 1.
  rewrite (fetch_base_ok (subject req) w _ b) by assumption.
  rewrite run_bind. fold (called_sys w s req info). rewrite Hmap. reflexivity.
Qed.

Lemma run_success_unlogged info b :
  admitted w s req info -> upstream_gives w (subject req) b ->
  no_null (Lookup.data_items b) -> usage_insert_error w <> None ->
  Lookup.handler req w s =
  (reference_error,
   add_call (CallLogUsage (usage_row w req info "success")) (counted_sys w s req info)).
Proof.
  intros Hadm [Hbody Hshape] Hitems Hins. rewrite handler_enters_try by apply Hadm.
  destruct (logUsage_refused_exact (Db.ki_id info) (subject req) (upstream_latency w)
              "success" (Lookup.client_ip req) (Lookup.h_user_agent req)
              (counted_sys w s req info) Hins) as [msg Hlog].
  erewrite run_try_throw; [apply on_error_throws|].
  rewrite (pipeline_admitted req info) by assumption. unfold Lookup.forward.
  rewrite run_bind. cbn [ask]. rewrite run_bind. unfold attempt at 1.
  rewrite (fetch_base_ok (subject req) w _ b) by assumption.
  rewrite run_bind, map_eff_clean by assumption.
  rewrite run_bind, incrementApiUsage_run.
  rewrite run_bind. fold (called_sys w s req info).
  change (tables (called_sys w s req info)) with (tables s).
  fold (counted_sys w s req info). rewrite Hlog. reflexivity.
Qed.

(** Every run of the handler ends in one of the exits. *)
Lemma handler_exits :
  Exit req w s (fst (Lookup.handler req w s)) (snd (Lookup.handler req w s)).
Proof.
  destruct (String.eqb_spec (Lookup.method req) "OPTIONS") as [Hopt|Hopt].
  { unfold Lookup.handler. rewrite Hopt. now apply exit_preflight. }
  destruct (String.eqb_spec (Lookup.method req) "GET") as [Hget|Hget].
  2:{ unfold Lookup.handler.
      destruct (String.eqb_spec (Lookup.method req) "OPTIONS"); [contradiction|].
      destruct (String.eqb_spec (Lookup.method req) "GET"); [contradiction|].
      now apply exit_method. }
  destruct (Js.truthy_str (Lookup.q_key req)) eqn:Hkey.
  2:{ unfold Lookup.handler. rewrite Hget, Hkey. apply exit_missing; auto. }
  destruct (Js.truthy_str (Lookup.q_number req)) eqn:Hnum.
  2:{ unfold Lookup.handler. rewrite Hget, Hkey, Hnum. apply exit_missing; auto. }
  assert (well_formed req) as Hwf by (repeat split; assumption).
  destruct (Lookup.mobileRegex_test (subject req)) eqn:Hsub.
  2:{ rewrite invalid_subject_outcome by assumption. now apply exit_format. }
  destruct (head (Db.key_join_user (tables s) (sha256_hex w (secret req))))
    as [info|] eqn:Hres.
  2:{ rewrite pipeline_unknown_key by assumption. now apply exit_unknown. }
  destruct (Db.ki_is_paused info) eqn:Hp.
  { rewrite (pipeline_paused req w s Hwf Hsub info Hres Hp). now apply (exit_paused _ _ _ info). }
  destruct (Lookup.has_expired (Db.ki_expires_at info) (now w)) eqn:He.
  { rewrite (pipeline_expired req w s Hwf Hsub info Hres Hp He).
    now apply (exit_expired _ _ _ info). }
  assert (live_key w s req info) as Hlive by (repeat split; assumption).
  destruct (Z.le_gt_cases 100
              (Lookup.ip_usage_count (tables s) (Lookup.client_ip req) (now w)))
    as [Hfull|Hip].
  { rewrite (run_rate_exceeded info) by assumption. now apply (exit_rate _ _ _ info). }
  destruct (resolved_key_has_row w s req info Hres) as [row Hrow].
  destruct (Z.le_gt_cases (daily_limit row) (daily_used row)) as [Hspent|Hq].
  { rewrite (run_quota_exceeded info row) by assumption.
    now apply (exit_quota _ _ _ info row). }
  assert (admitted w s req info) as Hadm.
  { split; [assumption|]. split; [assumption|]. split; [assumption|].
    split; [assumption|]. split; [assumption|]. split; [assumption|].
    exists row. split; [assumption|lia]. }
  assert (upstream_fails w (subject req) \/
          exists b, upstream_gives w (subject req) b) as [Hfail|[b Hup]].
  { unfold upstream_fails, upstream_gives.
    destruct (upstream w (subject req)) as [msg|b]; [now left|].
    destruct (Lookup.bad_shape b) eqn:Hshape; [now left|right; eauto]. }
  - destruct (usage_insert_error w) as [msg|] eqn:Hins.
    + rewrite (run_upstream_unlogged info) by (assumption || congruence).
      apply exit_upstream_unlogged; (assumption || congruence).
    + rewrite (handler_upstream_failure req info w s Hadm Hfail Hins).
      now apply exit_upstream.
  - destruct (no_null_dec (Lookup.data_items b)) as [Hitems|Hnull].
    2:{ rewrite (run_null_entry info b) by assumption.
        now apply (exit_null_entry _ _ _ info b). }
    destruct (usage_insert_error w) as [msg|] eqn:Hins.
    + rewrite (run_success_unlogged info b) by (assumption || congruence).
      apply (exit_success_unlogged _ _ _ info b); (assumption || congruence).
    + destruct Hup as [Hbody Hshape].
      rewrite (handler_success req info w s Hadm b Hbody Hshape Hitems Hins).
      apply (exit_success _ _ _ info b); (assumption || split; assumption).
Qed.

End Exits.

(** *** What the handler sends *)

(** X1.  Whatever the request, the environment and the stores, the lookup
    handler sends one of the statuses 200, 400, 401, 403, 405, 503, or it
    ends in the ReferenceError of its [catch] clause; it never sends 429 or
    500, and it sends 400 only when a query parameter is missing. *)
Theorem X1_lookup_status_set req w s :
  match fst (Lookup.handler req w s) with
  | Normal resp =>
      In (statusCode resp) [200; 400; 401; 403; 405; 503] /\
      (statusCode resp = 400 ->
       Js.truthy_str (Lookup.q_key req) = false \/
       Js.truthy_str (Lookup.q_number req) = false)
  | Throw e => e = Js.ReferenceError "apiKeyInfo"
  end.
Proof.
  destruct (handler_exits req w s); cbn; try reflexivity;
    (split; [tauto|]); try discriminate.
  intros _. assumption.
Qed.

(** *** What the handler writes *)

Lemma consumed_keeps_columns w apiKeyId t :
  Forall2 same_but_usage (api_keys t) (api_keys (consumed w apiKeyId t)).
Proof.
  assert (forall f, (forall k, same_but_usage k (f k)) ->
            Forall2 same_but_usage (api_keys t)
              (map (fun k => if decide (id k = apiKeyId) then f k else k) (api_keys t)))
    as Hmap.
  { intros f Hf. induction (api_keys t) as [|k l IH]; constructor; [|exact IH].
    destruct (decide _); [apply Hf|]. repeat split. }
  unfold consumed. destruct (Db.needs_reset _ _); apply Hmap; intros k; repeat split.
Qed.

Lemma same_but_usage_refl l : Forall2 same_but_usage l l.
Proof. induction l; constructor; [repeat split|assumption]. Qed.

(** X2.  The usage log only ever grows at its end, by one row per request at
    most, and it grows exactly when the handler answers 503 or answers 200
    to a lookup: the new row is tagged [success] for 200 and [error] for 503
    and carries the subject, the caller's address and the time of the
    request.  On every other outcome, the 200 of an [OPTIONS] preflight
    included, the log is left as it was. *)
Theorem X2_usage_log_grows_with_200_and_503 req w s :
  let r := fst (Lookup.handler req w s) in
  let s' := snd (Lookup.handler req w s) in
  (exists resp row,
     r = Normal resp /\
     (statusCode resp = 200 /\ status row = "success" \/
      statusCode resp = 503 /\ status row = "error") /\
     api_usage_logs (tables s') = api_usage_logs (tables s) ++ [row] /\
     mobile_number row = subject req /\ ip_address row = Lookup.client_ip req /\
     log_created_at row = now w) \/
  (api_usage_logs (tables s') = api_usage_logs (tables s) /\
   forall resp, r = Normal resp ->
     statusCode resp <> 503 /\
     (statusCode resp = 200 -> Lookup.method req = "OPTIONS")).
Proof.
  cbv zeta.
  destruct (handler_exits req w s);
    first
      [ right; split; [reflexivity|];
        intros resp [= <-]; cbn; split; [discriminate|];
        first [discriminate | intros _; assumption]
      | right; split; [reflexivity|intros resp Heq; discriminate Heq]
      | right; cbn; rewrite consumed_logs; split;
        [reflexivity|intros resp Heq; discriminate Heq]
      | idtac ].
  - left. exists (answer 503 Lookup.unavailable_body), (usage_row w req info "error").
    repeat split. now right.
  - left. eexists _, (usage_row w req info "success"). split; [reflexivity|].
    split; [now left|]. cbn. rewrite consumed_logs. repeat split.
Qed.

(** X3.  The handler leaves alone what the administrator owns: the session
    store and the users table are never changed, [api_keys] keeps its rows
    in number and order, and a row can differ from what it was only in its
    daily counter and its reset date. *)
Theorem X3_lookup_changes_counters_only req w s :
  let s' := snd (Lookup.handler req w s) in
  kv s' = kv s /\
  users (tables s') = users (tables s) /\
  Forall2 same_but_usage (api_keys (tables s)) (api_keys (tables s')).
Proof.
  cbv zeta.
  destruct (handler_exits req w s); cbn;
    rewrite ?consumed_users;
    (split; [reflexivity|]); (split; [reflexivity|]);
    first [apply same_but_usage_refl | apply consumed_keeps_columns].
Qed.

(** X4.  The provider is contacted for admitted requests only, and once:
    the calls a run adds contain an upstream call only if the request has
    passed the format check, key resolution, the paused and expiry gates and
    both rate checks, and then exactly one, for the queried number. *)
Theorem X4_upstream_called_only_when_admitted req w s :
  exists added,
    calls (snd (Lookup.handler req w s)) = calls s ++ added /\
    (List.filter is_upstream_call added = [] \/
     List.filter is_upstream_call added = [CallUpstream (subject req)] /\
     exists info, admitted w s req info).
Proof.
  destruct (handler_exits req w s); cbn;
    try (exists []; split; [now rewrite app_nil_r|now left]);
    rewrite <- ?app_assoc; cbn;
    eexists; (split; [reflexivity|]); cbn; eauto.
Qed.

(** *** The daily counter *)

Lemma unique_by_id (l : list ApiKeyRow) k k' :
  NoDup (map id l) -> k ∈ l -> k' ∈ l -> id k = id k' -> k = k'.
Proof.
  induction l as [|x l IH]; intros Hnd Hk Hk' Hid; [inversion Hk|].
  cbn [map] in Hnd. apply NoDup_cons in Hnd as [Hx Hnd].
  apply list_elem_of_In in Hk, Hk'. cbn [In] in Hk, Hk'.
  destruct Hk as [<-|Hk], Hk' as [<-|Hk'].
  - reflexivity.
  - exfalso. apply Hx. rewrite Hid. apply list_elem_of_fmap. exists k'.
    split; [reflexivity|now apply list_elem_of_In].
  - exfalso. apply Hx. rewrite <- Hid. apply list_elem_of_fmap. exists k.
    split; [reflexivity|now apply list_elem_of_In].
  - apply IH; try assumption; now apply list_elem_of_In.
Qed.

Lemma consumed_within_budget w apiKeyId t row :
  NoDup (map id (api_keys t)) ->
  Forall within_budget (api_keys t) ->
  head (Db.rows_by_id apiKeyId t) = Some row ->
  daily_used row < daily_limit row ->
  Forall within_budget (api_keys (consumed w apiKeyId t)).
Proof.
  intros Hnd Hall Hrow Hq.
  assert (row ∈ api_keys t /\ id row = apiKeyId) as [Hin Hid].
  { apply head_elem_of in Hrow. unfold Db.rows_by_id in Hrow.
    apply list_elem_of_filter in Hrow. tauto. }
  assert (forall f,
            (forall k, 0 <= daily_used k < daily_limit k -> within_budget (f k)) ->
            Forall within_budget
              (map (fun k => if decide (id k = apiKeyId) then f k else k) (api_keys t)))
    as Hmap.
  { intros f Hf. apply Forall_fmap, Forall_forall. intros k Hk. cbn.
    rewrite Forall_forall in Hall.
    destruct (decide (id k = apiKeyId)) as [Hk_id|_]; [|now apply Hall].
    assert (k = row) as -> by (apply (unique_by_id (api_keys t)); congruence).
    apply Hf. specialize (Hall row Hin). unfold within_budget in Hall. lia. }
  unfold consumed. destruct (Db.needs_reset _ _); apply Hmap;
    intros k Hk; unfold within_budget; cbn; lia.
Qed.

(** One run of the handler keeps the ids of [api_keys] and, from unique
    ids, every counter within its budget. *)
Lemma handler_keeps_ids req w s :
  map id (api_keys (tables (snd (Lookup.handler req w s)))) = map id (api_keys (tables s)).
Proof.
  assert (Forall2 same_but_usage (api_keys (tables s))
            (api_keys (tables (snd (Lookup.handler req w s))))) as Hsame.
  { destruct (handler_exits req w s); cbn;
      first [apply same_but_usage_refl | apply consumed_keeps_columns]. }
  induction Hsame as [|k k' l l' Hk _ IH]; [reflexivity|].
  cbn [map]. rewrite IH. f_equal. apply Hk.
Qed.

Lemma handler_keeps_budget req w s :
  NoDup (map id (api_keys (tables s))) ->
  Forall within_budget (api_keys (tables s)) ->
  Forall within_budget (api_keys (tables (snd (Lookup.handler req w s)))).
Proof.
  intros Hnd Hall.
  destruct (handler_exits req w s); cbn; try assumption;
    match goal with
    | H : admitted _ _ _ _ |- _ =>
        destruct H as (_ & _ & _ & _ & _ & _ & row & Hrow & Hq)
    end;
    now apply (consumed_within_budget _ _ _ row).
Qed.

(** The two steps of the source are separate statements with awaits between
    them: when a second request passes [checkRateLimit] before the first
    has reached [incrementApiUsage], both are let through on the last call
    of the budget and the count ends above it. *)
Lemma overlapping_requests_overrun_budget :
  let w := Sample.at_time Fixture.noon in
  let s0 := Fixture.store last_call_key [] in
  let overlapped :=
    (Lookup.checkRateLimit 1 "203.0.113.9";;
     Lookup.checkRateLimit 1 "203.0.113.9";;
     Db.incrementApiUsage 1;;
     Db.incrementApiUsage 1) w s0 in
  fst overlapped = Normal tt /\
  map daily_used (api_keys (tables (snd overlapped))) = [11] /\
  map daily_limit (api_keys (tables (snd overlapped))) = [10].
Proof. cbv zeta. vm_compute. repeat split. Qed.

(** X5.  Under sequential execution the daily counters stay within their
    budgets: with key ids unique, as the primary key makes them, and every
    counter between zero and its budget, any series of requests served one
    after the other, each run to its end before the next starts and whatever
    their outcomes, leaves every counter between zero and its budget.  (The
    guarantee is for requests that do not overlap: see
    [overlapping_requests_overrun_budget].) *)
Theorem X5_counter_stays_within_budget requests s :
  NoDup (map id (api_keys (tables s))) ->
  Forall within_budget (api_keys (tables s)) ->
  Forall within_budget (api_keys (tables (serve_all requests s))).
Proof.
  revert s. induction requests as [|[w req] rest IH]; intros s Hnd Hall.
  - exact Hall.
  - cbn [serve_all]. apply IH.
    + now rewrite handler_keeps_ids.
    + now apply handler_keeps_budget.
Qed.

(** The theorem at a concrete input: two lookups, one after the other, on
    the last call of the budget; the second is refused. *)
Lemma X5_witness :
  Forall within_budget
    (api_keys (tables (serve_all
                         [(Sample.at_time Fixture.noon, Fixture.request "9876543210");
                          (Sample.at_time (Fixture.noon + 1000),
                           Fixture.request "9876543210")]
                         (Fixture.store last_call_key [])))).
Proof.
  apply X5_counter_stays_within_budget.
  - repeat constructor. cbn. intros H. inversion H.
  - repeat constructor; cbn; lia.
Defined.

(** X6.  The counter is advanced before the usage row is written and
    nothing undoes it: when an admitted request gets a usable answer and
    the store then refuses the usage insert, the caller gets no result and
    no usage row exists, yet the key's rows have been counted up (or
    restarted at one on a new day). *)
Theorem X6_refused_insert_still_counts req info w s b :
  admitted w s req info ->
  upstream_gives w (subject req) b ->
  no_null (Lookup.data_items b) ->
  usage_insert_error w <> None ->
  let s' := snd (Lookup.handler req w s) in
  fst (Lookup.handler req w s) = reference_error /\
  api_usage_logs (tables s') = api_usage_logs (tables s) /\
  exists row,
    head (Db.rows_by_id (Db.ki_id info) (tables s)) = Some row /\
    (last_reset_date row = Js.iso_date (now w) -> Db.bump_usage row ∈ api_keys (tables s')) /\
    (last_reset_date row <> Js.iso_date (now w) ->
     Db.reset_usage (Js.iso_date (now w)) row ∈ api_keys (tables s')).
Proof.
  intros Hadm Hup Hitems Hins. cbv zeta.
  rewrite (run_success_unlogged req w s info b) by assumption.
  cbn [fst snd]. split; [reflexivity|].
  cbn [tables add_call counted_sys with_tables api_usage_logs].
  split; [apply consumed_logs|].
  destruct Hadm as (_ & _ & _ & _ & _ & _ & row & Hrow & _).
  exists row. split; [assumption|].
  assert (row ∈ api_keys (tables s) /\ id row = Db.ki_id info) as [Hin Hid].
  { apply head_elem_of in Hrow. unfold Db.rows_by_id in Hrow.
    apply list_elem_of_filter in Hrow. tauto. }
  split; intros Hday.
  - rewrite (consumed_same_day w _ _ row) by assumption.
    apply list_elem_of_fmap. exists row. split; [|assumption].
    now rewrite decide_True by assumption.
  - rewrite (consumed_new_day w _ _ row) by assumption.
    apply list_elem_of_fmap. exists row. split; [|assumption].
    now rewrite decide_True by assumption.
Qed.

(** The theorem at a concrete input: the store refuses the address. *)
Lemma X6_witness :
  fst (Lookup.handler (Fixture.request "9876543210")
         (Fixture.world Fixture.noon Fixture.one_record (Some "invalid input syntax for type inet"))
         (Fixture.store Fixture.live_key [])) = reference_error.
Proof.
  refine (proj1 (X6_refused_insert_still_counts
            (Fixture.request "9876543210") Fixture.live_info
            (Fixture.world Fixture.noon Fixture.one_record
               (Some "invalid input syntax for type inet"))
            (Fixture.store Fixture.live_key [])
            (Js.JObj [("data", Js.JArr [Js.JObj [("name", Js.JStr "A. Kumar")]])])
            _ _ _ _)).
  - repeat split; try reflexivity. exists Fixture.live_key. split; reflexivity.
  - split; reflexivity.
  - repeat constructor. discriminate.
  - discriminate.
Defined.

(** *** Keys that do not resolve *)

(** X7.  A key resolves only through its owner's row: when no row of
    [api_keys] with the presented fingerprint has an owner present in
    [users] (the key is unknown, or its owner is null or missing), a
    well-formed request with a valid subject is answered 401 "Invalid or
    expired API key", with nothing written and no rate or quota read. *)
Theorem X7_key_without_owner_is_unknown req w s :
  well_formed req ->
  Lookup.mobileRegex_test (subject req) = true ->
  (forall k u, k ∈ api_keys (tables s) -> u ∈ users (tables s) ->
     key_hash k = sha256_hex w (secret req) -> user_id k <> Some (u_id u)) ->
  Lookup.handler req w s =
  (Normal (answer 401 (error_body "Invalid or expired API key")), resolved_sys w s req).
Proof.
  intros Hwf Hsub Hnone. apply pipeline_unknown_key; try assumption.
  destruct (head _) as [info|] eqn:Hhead; [|reflexivity].
  apply head_elem_of, key_join_user_origin in Hhead
    as (k & u & Hk & Hu & Hhash & Hown & _).
  exfalso. exact (Hnone k u Hk Hu Hhash Hown).
Qed.

(** The theorem at a concrete input: the live key with its owner's row gone. *)
Lemma X7_witness :
  fst (Lookup.handler (Fixture.request "9876543210")
         (Fixture.world Fixture.noon Fixture.one_record None)
         {| tables := {| api_keys := [Fixture.live_key]; users := [];
                         api_usage_logs := [] |};
            kv := ∅; calls := [] |}) =
  Normal (answer 401 (error_body "Invalid or expired API key")).
Proof.
  rewrite X7_key_without_owner_is_unknown; [reflexivity|repeat split|reflexivity|].
  intros k u _ Hu. inversion Hu.
Defined.

(* ===================================================================== *)
(** ** Tokens and sessions *)
(* ===================================================================== *)

(** X8.  A token verifies exactly while it is fresh and only under the
    secret it was signed with: [verifyToken] applied to what
    [generateToken] produced returns the claims it was given (user id and
    name) when the secret is the same and fewer than 86400 seconds have
    passed since the second of issue, and [null] otherwise; it never
    throws. *)
Theorem X8_token_round_trip userId username w0 s0 w1 s1 tok :
  fst (Auth.generateToken userId username w0 s0) = Normal tok ->
  c_userId (claims tok) = userId /\ c_username (claims tok) = username /\
  (jwt_secret w1 = jwt_secret w0 -> now w1 / 1000 < token_deadline (now w0) ->
   Auth.verifyToken tok w1 s1 = (Normal (Some (claims tok)), s1)) /\
  (jwt_secret w1 <> jwt_secret w0 \/ token_deadline (now w0) <= now w1 / 1000 ->
   Auth.verifyToken tok w1 s1 = (Normal None, s1)).
Proof.
  intros [= <-]. rewrite verifyToken_run. cbn [claims signed_with exp c_userId c_username].
  unfold token_deadline. repeat split.
  - intros Hsec Hlive. rewrite decide_True by congruence.
    apply Z.ltb_lt in Hlive. change (24 * 60 * 60) with 86400. now rewrite Hlive.
  - intros [Hsec|Hlate].
    + now rewrite decide_False by congruence.
    + destruct (decide _); [|reflexivity].
      change (24 * 60 * 60) with 86400.
      apply Z.ltb_ge in Hlate. now rewrite Hlate.
Qed.

(** The theorem at a concrete input: verified ten seconds after issue. *)
Lemma X8_witness :
  exists tok,
    Auth.verifyToken tok
      (Fixture.world (Fixture.noon + 10000) Fixture.one_record None)
      (Fixture.store Fixture.live_key []) =
    (Normal (Some (claims tok)), Fixture.store Fixture.live_key []) /\
    c_userId (claims tok) = 7.
Proof.
  eexists. split.
  - refine (proj1 (proj2 (proj2 (X8_token_round_trip 7 "ops"
              (Fixture.world Fixture.noon Fixture.one_record None)
              (Fixture.store Fixture.live_key [])
              (Fixture.world (Fixture.noon + 10000) Fixture.one_record None)
              (Fixture.store Fixture.live_key []) _ _))) _ _).
    + reflexivity.
    + reflexivity.
    + reflexivity.
  - reflexivity.
Defined.

Lemma session_key_inj a b : Auth.session_key a = Auth.session_key b -> a = b.
Proof. unfold Auth.session_key. cbn. intros H. now injection H. Qed.

(** Validation yields nothing, and changes nothing, unless the checks pass. *)
Lemma validateSession_none sid w s :
  (forall e, ~ session_checks w s sid e) ->
  Auth.validateSession (Some sid) w s = (Normal None, s).
Proof.
  intros Hno.
  destruct (validateSession_cases w s (Some sid))
    as (r & s' & Hrun & _ & _ & Hsome & Hnone).
  destruct r as [d|].
  - destruct (Hsome d eq_refl) as (sid' & e & [= <-] & Hchecks & _).
    destruct (Hno e Hchecks).
  - rewrite Hrun, (Hnone eq_refl). reflexivity.
Qed.

(** The store entry of a fresh session outlasts its token. *)
Lemma store_outlasts_token t0 t1 :
  t1 / 1000 < t0 / 1000 + 86400 -> t1 < t0 + 86400 * 1000.
Proof.
  intros H.
  pose proof (Z.mul_succ_div_gt t1 1000 ltac:(lia)).
  pose proof (Z.mul_div_le t0 1000 ltac:(lia)). lia.
Qed.

(** X9.  A fresh session is valid exactly until its token lapses: issued at
    one instant and validated at another with nothing in between, it yields
    the identity it was issued for as long as the token's 86400 seconds
    have not run out, and nothing from then on (the store entry, which
    lasts 86400000 ms from the instant of issue, never lapses first). *)
Theorem X9_fresh_session_lifetime uid name w0 s0 w1 :
  random_uuid w0 <> "" ->
  jwt_secret w1 = jwt_secret w0 ->
  let s1 := snd (Auth.createSession uid name w0 s0) in
  (now w1 / 1000 < token_deadline (now w0) ->
   exists d, fst (Auth.validateSession (Some (random_uuid w0)) w1 s1) = Normal (Some d) /\
             c_userId d = uid /\ c_username d = name) /\
  (token_deadline (now w0) <= now w1 / 1000 ->
   Auth.validateSession (Some (random_uuid w0)) w1 s1 = (Normal None, s1)).
Proof.
  intros Hsid Hsec. cbv zeta. rewrite createSession_run. cbn [snd].
  unfold token_deadline. split.
  - intros Hlive. eexists. split.
    + erewrite validateSession_success; [reflexivity|].
      unfold session_checks. cbn [kv with_kv].
      split; [assumption|]. split; [apply lookup_insert_eq|].
      cbn [kv_deadline kv_value token claims exp signed_with c_userId userId].
      split; [now apply store_outlasts_token|].
      repeat split; try congruence; lia.
    + split; reflexivity.
  - intros Hlate. apply validateSession_none.
    intros e (_ & Hlook & _ & _ & Hexp & _).
    cbn [kv with_kv] in Hlook. rewrite lookup_insert_eq in Hlook.
    injection Hlook as <-. cbn in Hexp. lia.
Qed.

(** The theorem at a concrete input: the login of the fixture, ten seconds on. *)
Lemma X9_witness :
  exists d,
    fst (Auth.validateSession (Some Fixture.sid)
           (Fixture.world (Fixture.noon + 10000) Fixture.one_record None)
           Fixture.logged_in) = Normal (Some d) /\
    c_userId d = 7 /\ c_username d = "ops".
Proof.
  refine (proj1 (X9_fresh_session_lifetime 7 "ops"
            (Fixture.world Fixture.noon Fixture.one_record None)
            (Fixture.store Fixture.live_key [])
            (Fixture.world (Fixture.noon + 10000) Fixture.one_record None) _ _) _).
  - discriminate.
  - reflexivity.
  - reflexivity.
Defined.

(** X10.  Destroying a session revokes it at once and for good: whatever
    token it holds, a validation after [destroySession] yields nothing;
    destroying it again changes nothing; and the entries of other sessions
    are left as they were. *)
Theorem X10_destroy_session_revokes sid w s w1 :
  sid <> "" ->
  let s1 := snd (Auth.destroySession (Some sid) w s) in
  Auth.validateSession (Some sid) w1 s1 = (Normal None, s1) /\
  Auth.destroySession (Some sid) w1 s1 = (Normal tt, s1) /\
  tables s1 = tables s /\
  forall other, other <> sid ->
    kv s1 !! Auth.session_key other = kv s !! Auth.session_key other.
Proof.
  intros Hsid. cbv zeta. unfold Auth.destroySession. cbn [Js.truthy_str].
  destruct (String.eqb_spec sid ""); [contradiction|]. cbn [negb].
  change (default "" (Some sid)) with sid.
  unfold Kv.del. run_eff. cbn [snd]. split; [|split; [|split]].
  - rewrite validateSession_run by assumption. unfold Kv.live. cbn [kv with_kv].
    now rewrite lookup_delete_eq.
  - cbn [kv with_kv]. unfold with_kv at 1. cbn [tables calls kv].
    rewrite delete_delete_eq. reflexivity.
  - reflexivity.
  - intros other Hother. cbn [kv with_kv]. apply lookup_delete_ne.
    intros Heq. apply session_key_inj in Heq. congruence.
Qed.

(** The theorem at a concrete input: the session of the fixture, destroyed. *)
Lemma X10_witness :
  fst (Auth.validateSession (Some Fixture.sid)
         (Fixture.world (Fixture.noon + 10000) Fixture.one_record None)
         (snd (Auth.destroySession (Some Fixture.sid)
                 (Fixture.world (Fixture.noon + 5000) Fixture.one_record None)
                 Fixture.logged_in))) = Normal None.
Proof.
  refine (f_equal fst (proj1 (X10_destroy_session_revokes Fixture.sid
            (Fixture.world (Fixture.noon + 5000) Fixture.one_record None)
            Fixture.logged_in
            (Fixture.world (Fixture.noon + 10000) Fixture.one_record None) _))).
  discriminate.
Defined.

(** X11.  Once validated, a session lives on thirty minutes at a time: if
    no validation follows within 1800 seconds of the last successful one,
    the next one fails, although the token may still be good; one that
    comes in time, with the token still fresh, succeeds again. *)
Theorem X11_idle_session_lapses_after_30_minutes sid e w1 s w2 :
  session_checks w1 s sid e ->
  let s1 := snd (Auth.validateSession (Some sid) w1 s) in
  (now w1 + 1800000 <= now w2 ->
   Auth.validateSession (Some sid) w2 s1 = (Normal None, s1)) /\
  (now w2 < now w1 + 1800000 ->
   jwt_secret w2 = jwt_secret w1 ->
   now w2 / 1000 < exp (claims (token (kv_value e))) ->
   fst (Auth.validateSession (Some sid) w2 s1) =
   Normal (Some (claims (token (kv_value e))))).
Proof.
  intros Hchecks. cbv zeta. rewrite (validateSession_success w1 s sid e Hchecks).
  cbn [snd]. destruct Hchecks as (Hsid & Hlook & Hlive & Hsig & Hexp & Huid). split.
  - intros Hlate. apply validateSession_none.
    intros e' (_ & Hlook' & Hlive' & _).
    cbn [kv with_kv] in Hlook'. rewrite lookup_insert_eq in Hlook'.
    injection Hlook' as <-. cbn [renewed kv_deadline] in Hlive'. lia.
  - intros Hsoon Hsec Hfresh.
    rewrite (validateSession_success w2 _ sid (renewed w1 e)); [reflexivity|].
    unfold session_checks. cbn [kv with_kv renewed kv_deadline kv_value].
    split; [assumption|]. split; [apply lookup_insert_eq|].
    repeat split; try assumption; try congruence; lia.
Qed.

(** The theorem at a concrete input: logged in at noon, validated ten
    seconds later, then not again for thirty-one minutes. *)
Lemma X11_witness :
  fst (Auth.validateSession (Some Fixture.sid)
         (Sample.at_time (Fixture.noon + 1870000))
         (snd (Auth.validateSession (Some Fixture.sid)
                 (Sample.at_time (Fixture.noon + 10000))
                 Fixture.logged_in))) = Normal None.
Proof.
  refine (f_equal fst (proj1 (X11_idle_session_lapses_after_30_minutes
            Fixture.sid Sample.fresh_entry
            (Sample.at_time (Fixture.noon + 10000)) Fixture.logged_in
            (Sample.at_time (Fixture.noon + 1870000)) _) _)).
  - unfold session_checks. split; [discriminate|].
    split; [vm_compute; reflexivity|]. repeat split; vm_compute; reflexivity.
  - vm_compute. discriminate.
Defined.

(** Validation may move a deadline; it never changes what is stored under
    a key, nor the tables. *)
Lemma validateSession_keeps_values sessionId w s key :
  let s' := snd (Auth.validateSession sessionId w s) in
  kv_value <$> (kv s' !! key) = kv_value <$> (kv s !! key) /\ tables s' = tables s.
Proof.
  cbv zeta. destruct sessionId as [sid|]; [|split; reflexivity].
  destruct (String.eqb_spec sid "") as [->|Hsid]; [split; reflexivity|].
  rewrite validateSession_run by assumption. unfold Kv.live.
  destruct (kv s !! Auth.session_key sid) as [e|] eqn:Hlook; [|split; reflexivity].
  destruct (_ <? _); [|split; reflexivity].
  destruct (decide _); [|split; reflexivity].
  destruct (_ <? _); [|split; reflexivity].
  destruct (decide _); [|split; reflexivity].
  cbn [snd kv with_kv tables]. split; [|reflexivity].
  destruct (decide (Auth.session_key sid = key)) as [<-|Hne].
  - rewrite lookup_insert_eq, Hlook. reflexivity.
  - now rewrite lookup_insert_ne.
Qed.

Lemma validate_all_keeps_values attempts s key :
  kv_value <$> (kv (validate_all attempts s) !! key) = kv_value <$> (kv s !! key).
Proof.
  revert s. induction attempts as [|[w sessionId] rest IH]; intros s; [reflexivity|].
  cbn [validate_all]. rewrite IH. apply validateSession_keeps_values.
Qed.

(** X12.  Renewal cannot carry a session past its token: however many
    validations, of whatever sessions and at whatever instants, follow the
    issue of a session, a validation of it from the 86400th second after
    the second of issue on yields nothing. *)
Theorem X12_renewal_cannot_outlive_token uid name w0 s0 attempts w :
  token_deadline (now w0) <= now w / 1000 ->
  fst (Auth.validateSession (Some (random_uuid w0)) w
         (validate_all attempts (snd (Auth.createSession uid name w0 s0)))) =
  Normal None.
Proof.
  intros Hlate.
  rewrite validateSession_none; [reflexivity|].
  intros e (_ & Hlook & _ & _ & Hexp & _).
  pose proof (validate_all_keeps_values attempts
                (snd (Auth.createSession uid name w0 s0))
                (Auth.session_key (random_uuid w0))) as Hkeep.
  rewrite Hlook, createSession_run in Hkeep. cbn [snd kv with_kv] in Hkeep.
  rewrite lookup_insert_eq in Hkeep. cbn in Hkeep. injection Hkeep as Hval.
  rewrite Hval in Hexp. cbn in Hexp. unfold token_deadline in Hlate. lia.
Qed.

(** The theorem at a concrete input: two renewals, then a validation a day
    and a second after the login at noon. *)
Lemma X12_witness :
  fst (Auth.validateSession (Some Fixture.sid)
         (Fixture.world (Fixture.noon + 86401000) Fixture.one_record None)
         (validate_all
            [(Fixture.world (Fixture.noon + 10000) Fixture.one_record None, Some Fixture.sid);
             (Fixture.world (Fixture.noon + 900000) Fixture.one_record None, Some Fixture.sid)]
            Fixture.logged_in)) = Normal None.
Proof.
  apply (X12_renewal_cannot_outlive_token 7 "ops"
           (Fixture.world Fixture.noon Fixture.one_record None)
           (Fixture.store Fixture.live_key [])).
  vm_compute. discriminate.
Defined.

(* ===================================================================== *)
(** ** The revoke endpoint as a whole *)
(* ===================================================================== *)

Lemma with_api_keys_same t : with_api_keys (api_keys t) t = t.
Proof. destruct t. reflexivity. Qed.

(** An update that finds no row leaves the table as it is. *)
Lemma revoked_rows_no_match t n rows :
  filter (fun k => id k = n) (revoked_rows t n rows) = [] ->
  revoked_rows t n rows = rows.
Proof.
  rewrite rows_by_id_revoked. intros Hnone.
  apply fmap_nil_inv in Hnone.
  unfold revoked_rows. induction rows as [|k rows IH]; [reflexivity|].
  rewrite filter_cons in Hnone. cbn [map].
  destruct (decide (id k = n)); [discriminate|].
  f_equal. apply IH, Hnone.
Qed.

(** The outcomes of the revoke handler: it always answers; only a 200
    comes with a change, and that change is the revocation of the rows with
    the parsed id. *)
Lemma revoke_cases req w s :
  exists resp s',
    RevokeKey.handler req w s = (Normal resp, s') /\
    users (tables s') = users (tables s) /\
    api_usage_logs (tables s') = api_usage_logs (tables s) /\
    calls s' = calls s /\
    (statusCode resp = 200 /\
     (exists key_id n k,
        RevokeKey.body req = Some key_id /\ key_id ≫= Js.parseInt = Some n /\
        k ∈ api_keys (tables s) /\ id k = n /\
        api_keys (tables s') = revoked_rows (now w) n (api_keys (tables s))) /\
     (exists d, fst (Auth.validateSession (RevokeKey.admin_session req) w s) = Normal (Some d))
     \/
     In (statusCode resp) [400; 401; 404; 405; 500] /\ tables s' = tables s).
Proof.
  unfold RevokeKey.handler.
  destruct (negb (String.eqb (RevokeKey.method req) "DELETE")).
  { do 2 eexists. split; [reflexivity|]. repeat split. right. cbn. tauto. }
  destruct (validateSession_cases w s (RevokeKey.admin_session req))
    as (r & s1 & Hrun & Htab & Hcalls & _ & _).
  unfold try_catch, RevokeKey.revoke. rewrite run_bind, Hrun.
  rewrite <- Htab, <- Hcalls.
  destruct r as [d|].
  2:{ do 2 eexists. split; [reflexivity|]. repeat split. right. cbn. tauto. }
  destruct (RevokeKey.body req) as [key_id|].
  2:{ do 2 eexists. split; [reflexivity|]. repeat split. right. cbn. tauto. }
  destruct (Js.truthy_scalar key_id); cbn [negb].
  2:{ do 2 eexists. split; [reflexivity|]. repeat split. right. cbn. tauto. }
  destruct (key_id ≫= Js.parseInt) as [n|] eqn:Hparse.
  2:{ do 2 eexists. split; [reflexivity|]. repeat split. right. cbn. tauto. }
  destruct (RevokeKey.in_int4 n).
  2:{ do 2 eexists. split; [reflexivity|]. repeat split. right. cbn. tauto. }
  run_eff. unfold Db.rows_by_id, Db.update_key.
  cbn [api_keys with_api_keys tables with_tables].
  fold (revoked_rows (now w) n (api_keys (tables s1))).
  destruct (filter _ (revoked_rows (now w) n (api_keys (tables s1))))
    as [|row rows'] eqn:Hrows; cbn [head].
  - do 2 eexists. split; [reflexivity|]. cbn [tables with_tables users api_usage_logs
      with_api_keys calls]. repeat split. right. split; [cbn; tauto|].
    rewrite (revoked_rows_no_match _ _ _ Hrows). apply with_api_keys_same.
  - do 2 eexists. split; [reflexivity|]. cbn [tables with_tables users api_usage_logs
      with_api_keys calls api_keys]. repeat split. left. split; [reflexivity|]. split.
    + assert (row ∈ filter (fun k => id k = n) (revoked_rows (now w) n (api_keys (tables s1))))
        as Hin by (rewrite Hrows; left).
      rewrite rows_by_id_revoked in Hin.
      apply list_elem_of_fmap in Hin as (k & _ & Hk).
      apply list_elem_of_filter in Hk as [Hid Hk].
      exists key_id, n, k. auto.
    + exists d. reflexivity.
Qed.

(** X13.  The revoke endpoint always answers and never throws; whatever the
    request, the users and the usage log stay as they were, and so does
    [api_keys] unless the answer is 200.  A 200 is given only to a caller
    whose session validates, for an id that names an existing row. *)
Theorem X13_revoke_changes_keys_only_on_200 req w s :
  exists resp,
    fst (RevokeKey.handler req w s) = Normal resp /\
    In (statusCode resp) [200; 400; 401; 404; 405; 500] /\
    users (tables (snd (RevokeKey.handler req w s))) = users (tables s) /\
    api_usage_logs (tables (snd (RevokeKey.handler req w s))) = api_usage_logs (tables s) /\
    (statusCode resp <> 200 -> tables (snd (RevokeKey.handler req w s)) = tables s) /\
    (statusCode resp = 200 ->
     (exists d, fst (Auth.validateSession (RevokeKey.admin_session req) w s) = Normal (Some d)) /\
     exists key_id n k,
       RevokeKey.body req = Some key_id /\ key_id ≫= Js.parseInt = Some n /\
       k ∈ api_keys (tables s) /\ id k = n).
Proof.
  destruct (revoke_cases req w s) as (resp & s' & Hrun & Hu & Hl & _ & Hcase).
  rewrite Hrun. cbn [fst snd]. exists resp. split; [reflexivity|].
  destruct Hcase as [(Hcode & (key_id & n & k & Hb & Hp & Hk & Hid & _) & Hd)|[Hcode Htab]].
  - split; [rewrite Hcode; cbn; tauto|]. split; [assumption|]. split; [assumption|].
    split; [intros Hne; contradiction|].
    intros _. split; [assumption|]. exists key_id, n, k. auto.
  - assert (statusCode resp <> 200) as Hne.
    { intros H200. rewrite H200 in Hcode. cbn in Hcode.
      repeat (destruct Hcode as [Hcode|Hcode]; [discriminate|]). destruct Hcode. }
    split; [cbn in *; tauto|]. split; [assumption|]. split; [assumption|].
    split; [intros _; assumption|]. intros H200. contradiction.
Qed.

(** X14.  A revoked key admits no traffic: after the revoke endpoint has
    answered 200 for key id [n], every well-formed lookup with a valid
    subject whose key resolves to that id is answered 403, at whatever
    instant it arrives, before any rate or quota read. *)
Theorem X14_revoked_key_is_refused_by_lookup rreq w s key_id n req w2 info :
  let revoked := RevokeKey.handler rreq w s in
  (exists resp, fst revoked = Normal resp /\ statusCode resp = 200) ->
  RevokeKey.body rreq = Some key_id ->
  key_id ≫= Js.parseInt = Some n ->
  well_formed req ->
  Lookup.mobileRegex_test (subject req) = true ->
  resolves w2 (snd revoked) req info ->
  Db.ki_id info = n ->
  Lookup.handler req w2 (snd revoked) =
  (Normal (answer 403 (error_body "API key is currently paused")),
   resolved_sys w2 (snd revoked) req).
Proof.
  cbv zeta. intros (resp & Hnormal & H200) Hbody Hparse Hwf Hsub Hres Hid.
  destruct (revoke_cases rreq w s) as (resp' & s' & Hrun & _ & _ & _ & Hcase).
  rewrite Hrun in *. cbn [fst snd] in *. injection Hnormal as ->.
  destruct Hcase as [(_ & (key_id' & n' & k0 & Hb & Hp & _ & _ & Hkeys) & _)|[Hcode _]].
  2:{ rewrite H200 in Hcode. cbn in Hcode.
      repeat (destruct Hcode as [Hcode|Hcode]; [discriminate|]). destruct Hcode. }
  assert (n' = n) as -> by congruence.
  apply (pipeline_paused req w2 s' Hwf Hsub info Hres).
  pose proof Hres as Hin. apply head_elem_of, key_join_user_origin in Hin
    as (k & u & Hk & _ & _ & _ & ->).
  rewrite Hkeys in Hk. cbn [Db.select_key Db.ki_id Db.ki_is_paused] in *.
  now destruct (revoked_rows_revoked _ _ _ _ Hk Hid) as [[Hp' _] _].
Qed.

(** The theorem at a concrete input: key 1 revoked ten seconds after the
    login, looked up with a minute later. *)
Lemma X14_witness :
  fst (Lookup.handler (Fixture.request "9876543210")
         (Sample.at_time (Fixture.noon + 70000))
         (snd (RevokeKey.handler Fixture.revoke_request
                 (Sample.at_time (Fixture.noon + 10000)) Fixture.logged_in))) =
  Normal (answer 403 (error_body "API key is currently paused")).
Proof.
  refine (f_equal fst (X14_revoked_key_is_refused_by_lookup
            Fixture.revoke_request (Sample.at_time (Fixture.noon + 10000))
            Fixture.logged_in (Some (Js.SStr "1")) 1
            (Fixture.request "9876543210") (Sample.at_time (Fixture.noon + 70000))
            (Db.select_key
               (RevokeKey.revoke_row (Fixture.noon + 10000) Fixture.live_key)
               (Fixture.owner true))
            _ _ _ _ _ _ _)).
  - eexists. split; [vm_compute; reflexivity|reflexivity].
  - reflexivity.
  - reflexivity.
  - repeat split.
  - reflexivity.
  - vm_compute. reflexivity.
  - reflexivity.
Defined.

(* ===================================================================== *)
(** ** The login endpoint *)
(* ===================================================================== *)

Lemma truthy_str_some o :
  Js.truthy_str o = true -> exists x, o = Some x /\ x <> "".
Proof.
  destruct o as [x|]; [|discriminate]. cbn.
  destruct (String.eqb_spec x ""); [discriminate|]. eauto.
Qed.

(** A [POST] with both fields ends in one of the three outcomes. *)
Lemma login_exits h req w s name password :
  Login.method req = "POST" ->
  Login.credentials req =
    Some {| Login.c_name := Some name; Login.c_password := Some password |} ->
  name <> "" -> password <> "" ->
  LoginExit h w s name password
    (fst (Login.handler h req w s)) (snd (Login.handler h req w s)).
Proof.
  intros Hm Hc Hname Hpass. unfold Login.handler. rewrite Hm, Hc.
  change (negb (String.eqb "POST" "POST")) with false. cbn [Login.c_name Login.c_password
    Js.truthy_str].
  destruct (String.eqb_spec name ""); [contradiction|].
  destruct (String.eqb_spec password ""); [contradiction|].
  cbn [negb orb]. change (default "" (Some name)) with name.
  change (default "" (Some password)) with password.
  unfold try_catch, Login.authenticate. run_eff.
  destruct (head (Login.active_users_named (tables s) name)) as [user|] eqn:Huser.
  2:{ now apply login_no_user. }
  unfold Passwords.comparePassword.
  destruct (bcrypt_compare h password (password_hash user)) eqn:Hcmp; cbn [negb].
  - rewrite createSession_run. cbn [fst snd]. now apply (login_ok h w s name password user).
  - now apply (login_bad_password h w s name password user).
Qed.

(** X15.  A session is opened only for an active user who presents the
    matching password: when the login endpoint sets the session cookie, the
    users table holds an active row with the given name whose hash the
    password matches, the answer is 200, and the cookies are given 86400
    seconds; every other answer sets no cookie and leaves the session store
    and the tables exactly as they were. *)
Theorem X15_login_needs_active_user_and_password h req w s name password :
  Login.method req = "POST" ->
  Login.credentials req =
    Some {| Login.c_name := Some name; Login.c_password := Some password |} ->
  name <> "" -> password <> "" ->
  let out := Login.handler h req w s in
  tables (snd out) = tables s /\
  exists rep,
    fst out = Normal rep /\
    match Login.set_cookie rep with
    | Some ck =>
        statusCode (Login.response rep) = 200 /\ Login.max_age ck = 86400 /\
        exists user,
          user ∈ users (tables s) /\ username user = name /\ is_active user = true /\
          bcrypt_compare h password (password_hash user) = true
    | None =>
        rep = bare 401 (error_body "Invalid credentials") /\ snd out = s
    end.
Proof.
  intros Hm Hc Hname Hpass. cbv zeta.
  destruct (login_exits h req w s name password Hm Hc Hname Hpass)
    as [Hnone|user Huser Hcmp|user Huser Hcmp].
  - split; [reflexivity|]. eexists. split; [reflexivity|]. cbn. auto.
  - split; [reflexivity|]. eexists. split; [reflexivity|]. cbn. auto.
  - split; [reflexivity|]. eexists. split; [reflexivity|]. cbn.
    split; [reflexivity|]. split; [reflexivity|]. exists user.
    apply head_elem_of in Huser. unfold Login.active_users_named in Huser.
    apply list_elem_of_filter in Huser as [[Hn Ha] Hin]. auto.
Qed.

(** The theorem at a concrete input: the administrator with a wrong password. *)
Lemma X15_witness :
  snd (Login.handler sample_host (login_request "ops" "letmein")
         (Sample.at_time Fixture.noon) (office true)) = office true.
Proof.
  destruct (X15_login_needs_active_user_and_password sample_host
              (login_request "ops" "letmein") (Sample.at_time Fixture.noon)
              (office true) "ops" "letmein" eq_refl eq_refl
              ltac:(discriminate) ltac:(discriminate))
    as (_ & rep & Hrep & Hcase).
  vm_compute in Hrep. injection Hrep as <-. cbn in Hcase. apply Hcase.
Defined.

(** X16.  What a login hands out is what validation accepts: the session
    id in the cookie of a successful login validates, under the same
    secret, to the id and name of the user who logged in, for as long as
    the token is fresh. *)
Theorem X16_login_cookie_validates h req w s name password ck w1 :
  Login.method req = "POST" ->
  Login.credentials req =
    Some {| Login.c_name := Some name; Login.c_password := Some password |} ->
  name <> "" -> password <> "" ->
  (exists rep, fst (Login.handler h req w s) = Normal rep /\
               Login.set_cookie rep = Some ck) ->
  random_uuid w <> "" ->
  jwt_secret w1 = jwt_secret w ->
  now w1 / 1000 < token_deadline (now w) ->
  exists user d,
    user ∈ users (tables s) /\ username user = name /\
    fst (Auth.validateSession (Some (Login.admin_session ck)) w1
           (snd (Login.handler h req w s))) = Normal (Some d) /\
    c_userId d = u_id user /\ c_username d = name /\
    d = claims (Login.admin_token ck).
Proof.
  intros Hm Hc Hname Hpass (rep & Hrep & Hck) Huuid Hsec Hfresh.
  destruct (login_exits h req w s name password Hm Hc Hname Hpass)
    as [Hnone|user Huser Hcmp|user Huser Hcmp];
    injection Hrep as <-; try discriminate Hck.
  cbn in Hck. injection Hck as <-. cbn [Login.admin_session Login.admin_token].
  apply head_elem_of in Huser. unfold Login.active_users_named in Huser.
  apply list_elem_of_filter in Huser as [[Hn Ha] Hin].
  exists user, (claims (issued_token w (u_id user) (username user))).
  split; [assumption|]. split; [assumption|]. split.
  - rewrite createSession_run. cbn [snd].
    erewrite validateSession_success; cycle 1.
    { unfold session_checks. cbn [kv with_kv].
      split; [assumption|]. split; [apply lookup_insert_eq|].
      cbn [kv_deadline kv_value token claims exp signed_with c_userId userId].
      split; [now apply store_outlasts_token|].
      unfold token_deadline in Hfresh. repeat split; try congruence; lia. }
    reflexivity.
  - cbn. auto.
Qed.

(** The theorem at a concrete input: the administrator logs in at noon and
    comes back ten seconds later. *)
Lemma X16_witness :
  exists d,
    fst (Auth.validateSession (Some (random_uuid (Sample.at_time Fixture.noon)))
           (Sample.at_time (Fixture.noon + 10000))
           (snd (Login.handler sample_host (login_request "ops" "hunter22")
                   (Sample.at_time Fixture.noon) (office true)))) = Normal (Some d) /\
    c_userId d = 7.
Proof.
  edestruct (X16_login_cookie_validates sample_host (login_request "ops" "hunter22")
               (Sample.at_time Fixture.noon) (office true) "ops" "hunter22"
               {| Login.admin_session := random_uuid (Sample.at_time Fixture.noon);
                  Login.admin_token :=
                    issued_token (Sample.at_time Fixture.noon) 7 "ops";
                  Login.max_age := 86400 |}
               (Sample.at_time (Fixture.noon + 10000)))
    as (user & d & Hin & _ & Hval & Hid & _).
  - reflexivity.
  - reflexivity.
  - discriminate.
  - discriminate.
  - eexists. split; [vm_compute; reflexivity|reflexivity].
  - discriminate.
  - reflexivity.
  - reflexivity.
  - exists d. split; [exact Hval|]. rewrite Hid.
    apply list_elem_of_In in Hin. cbn in Hin. destruct Hin as [<-|[]]. reflexivity.
Defined.

(** X17.  A deactivated user cannot log in, and is told no more than a
    stranger: when every row with the given name is inactive, or there is
    none, a [POST] with both fields is answered 401 "Invalid credentials"
    whatever the password, and nothing is changed. *)
Theorem X17_inactive_user_cannot_log_in h req w s name password :
  Login.method req = "POST" ->
  Login.credentials req =
    Some {| Login.c_name := Some name; Login.c_password := Some password |} ->
  name <> "" -> password <> "" ->
  (forall u, u ∈ users (tables s) -> username u = name -> is_active u = false) ->
  Login.handler h req w s = (Normal (bare 401 (error_body "Invalid credentials")), s).
Proof.
  intros Hm Hc Hname Hpass Hinactive.
  assert (head (Login.active_users_named (tables s) name) = None) as Hnone.
  { destruct (head _) as [user|] eqn:Huser; [|reflexivity].
    apply head_elem_of in Huser. unfold Login.active_users_named in Huser.
    apply list_elem_of_filter in Huser as [[Hn Ha] Hin].
    rewrite (Hinactive user Hin Hn) in Ha. discriminate. }
  pose proof (login_exits h req w s name password Hm Hc Hname Hpass) as Hexit.
  destruct (Login.handler h req w s) as [r s']. cbn [fst snd] in Hexit.
  destruct Hexit as [_|user Huser _|user Huser _]; congruence.
Qed.

(** The theorem at a concrete input: the right password, the user deactivated. *)
Lemma X17_witness :
  Login.handler sample_host (login_request "ops" "hunter22")
    (Sample.at_time Fixture.noon) (office false) =
  (Normal (bare 401 (error_body "Invalid credentials")), office false).
Proof.
  apply X17_inactive_user_cannot_log_in with (name := "ops") (password := "hunter22");
    try reflexivity; try discriminate.
  intros u Hu _. apply list_elem_of_In in Hu. cbn in Hu. destruct Hu as [<-|[]].
  reflexivity.
Defined.

(* ===================================================================== *)
(** ** The key-creation endpoint *)
(* ===================================================================== *)

Lemma validateSession_frame w s sessionId :
  exists r s1,
    Auth.validateSession sessionId w s = (Normal r, s1) /\
    tables s1 = tables s /\ calls s1 = calls s.
Proof.
  destruct (validateSession_cases w s sessionId) as (r & s1 & Hrun & Ht & Hc & _).
  eauto.
Qed.

(** What the endpoint does for a request that passes its checks. *)
Lemma create_run h w s req f days limit :
  creatable h w s req f days limit ->
  exists s',
    CreateKey.handler h req w s =
      (Normal (answer 201 (CreateKey.created_body (created_row h w f days limit))), s') /\
    tables s' =
      with_api_keys (api_keys (tables s) ++ [created_row h w f days limit]) (tables s) /\
    api_keys (tables s') = api_keys (tables s) ++ [created_row h w f days limit] /\
    users (tables s') = users (tables s) /\
    api_usage_logs (tables s') = api_usage_logs (tables s).
Proof.
  intros (Hm & [d Hd] & Hb & Hte & Htl & Hpd & Hpl & Hdays & Hlimit & Hins).
  destruct (validateSession_frame w s (CreateKey.admin_session req))
    as (r & s1 & Hrun & Htab & Hcalls).
  rewrite Hrun in Hd. cbn [fst] in Hd. injection Hd as ->.
  unfold CreateKey.handler. rewrite Hm.
  change (negb (String.eqb "POST" "POST")) with false. cbn iota.
  unfold try_catch, CreateKey.create. rewrite run_bind, Hrun, Hb, Hte, Htl.
  cbn [negb orb]. rewrite Hpd, Hpl. unfold nan_lt, nan_gt.
  destruct (Z.ltb_spec days 1); [lia|]. destruct (Z.ltb_spec 3650 days); [lia|].
  destruct (Z.ltb_spec limit 10); [lia|]. destruct (Z.ltb_spec 100000 limit); [lia|].
  cbn [orb]. unfold Auth.hashApiKey, Passwords.generateApiKey. run_eff.
  cbn [tables add_call]. rewrite Htab. fold (created_row h w f days limit).
  rewrite Hins. eexists. split; [reflexivity|]. repeat split.
Qed.

(** The outcomes of the endpoint: it always answers, and only a 201 comes
    with a change. *)
Lemma create_cases h req w s :
  exists resp s',
    CreateKey.handler h req w s = (Normal resp, s') /\
    (statusCode resp = 201 /\
     (exists f days limit, creatable h w s req f days limit)
     \/
     In (statusCode resp) [400; 401; 405; 500] /\ tables s' = tables s).
Proof.
  unfold CreateKey.handler.
  destruct (String.eqb_spec (CreateKey.method req) "POST") as [Hm|Hm]; cbn [negb].
  2:{ do 2 eexists. split; [reflexivity|]. right. cbn. tauto. }
  destruct (validateSession_frame w s (CreateKey.admin_session req))
    as (r & s1 & Hrun & Htab & Hcalls).
  unfold try_catch, CreateKey.create. rewrite run_bind, Hrun. rewrite <- Htab.
  destruct r as [d|].
  2:{ do 2 eexists. split; [reflexivity|]. right. cbn. tauto. }
  destruct (CreateKey.body req) as [f|] eqn:Hb.
  2:{ do 2 eexists. split; [reflexivity|]. right. cbn. tauto. }
  destruct (Js.truthy_scalar (CreateKey.expires_in_days f)) eqn:Hte; cbn [negb orb].
  2:{ do 2 eexists. split; [reflexivity|]. right. cbn. tauto. }
  destruct (Js.truthy_scalar (CreateKey.daily_limit_field f)) eqn:Htl; cbn [negb orb].
  2:{ do 2 eexists. split; [reflexivity|]. right. cbn. tauto. }
  assert (forall (m : Eff Response) code msg,
            m = send_json code (error_body msg) -> In code [400; 401; 405; 500] ->
            exists resp s',
              (let (c, s') := m w s1 in
               match c with
               | Normal a => (Normal a, s')
               | Throw e => send_json 500 (error_body "Internal server error") w s'
               end) = (Normal resp, s') /\
              (statusCode resp = 201 /\
               (exists f days limit, creatable h w s req f days limit) \/
               In (statusCode resp) [400; 401; 405; 500] /\ tables s' = tables s1))
    as Hsend.
  { intros m code msg -> Hcode. do 2 eexists. split; [reflexivity|]. right. auto. }
  assert (forall (m : Eff Response) e,
            m w s1 = (Throw e, add_call (CallHash (random_key h)) s1) ->
            exists resp s',
              (let (c, s') := m w s1 in
               match c with
               | Normal a => (Normal a, s')
               | Throw e => send_json 500 (error_body "Internal server error") w s'
               end) = (Normal resp, s') /\
              (statusCode resp = 201 /\
               (exists f days limit, creatable h w s req f days limit) \/
               In (statusCode resp) [400; 401; 405; 500] /\ tables s' = tables s1))
    as Hthrow.
  { intros m e ->. do 2 eexists. split; [reflexivity|]. right. cbn. tauto. }
  destruct (CreateKey.expires_in_days f ≫= Js.parseInt) as [days|] eqn:Hpd;
    destruct (CreateKey.daily_limit_field f ≫= Js.parseInt) as [limit|] eqn:Hpl;
    cbn [nan_lt nan_gt orb].
  - destruct ((days <? 1) || (3650 <? days)) eqn:Hdays.
    { eapply Hsend; [reflexivity|cbn; tauto]. }
    destruct ((limit <? 10) || (100000 <? limit)) eqn:Hlimit.
    { eapply Hsend; [reflexivity|cbn; tauto]. }
    destruct (CreateKey.insert_refused (tables s1) (created_row h w f days limit)) eqn:Hins.
    { eapply Hthrow. unfold Auth.hashApiKey, Passwords.generateApiKey. run_eff.
      cbn [tables add_call]. fold (created_row h w f days limit). rewrite Hins.
      reflexivity. }
    unfold Auth.hashApiKey, Passwords.generateApiKey. run_eff.
    cbn [tables add_call]. fold (created_row h w f days limit). rewrite Hins.
    do 2 eexists. split; [reflexivity|]. left. split; [reflexivity|].
    exists f, days, limit. unfold creatable.
    apply orb_false_iff in Hdays as [Hd1 Hd2]. apply orb_false_iff in Hlimit as [Hl1 Hl2].
    rewrite Z.ltb_ge in Hd1, Hd2, Hl1, Hl2.
    rewrite Hrun. cbn [fst]. rewrite <- Htab.
    repeat split; eauto; lia.
  - destruct ((days <? 1) || (3650 <? days)) eqn:Hdays.
    { eapply Hsend; [reflexivity|cbn; tauto]. }
    eapply Hthrow. reflexivity.
  - destruct ((limit <? 10) || (100000 <? limit)) eqn:Hlimit.
    { eapply Hsend; [reflexivity|cbn; tauto]. }
    eapply Hthrow. reflexivity.
  - eapply Hthrow. reflexivity.
Qed.

(** An accepted insert met the constraints: the id and the fingerprint are
    new, and a named owner exists. *)
Lemma insert_accepted t row :
  CreateKey.insert_refused t row = false ->
  (forall k, k ∈ api_keys t -> id k <> id row /\ key_hash k <> key_hash row) /\
  (forall u, user_id row = Some u -> exists r, r ∈ users t /\ u_id r = u).
Proof.
  unfold CreateKey.insert_refused. intros H.
  apply orb_false_iff in H as [H Hown]. apply orb_false_iff in H as [Hid Hhash].
  split.
  - intros k Hk. apply list_elem_of_In in Hk. split.
    + intros Heq. assert (existsb (fun k => id k =? id row) (api_keys t) = true) as Hex
        by (apply existsb_exists; exists k; split; [assumption|now apply Z.eqb_eq]).
      congruence.
    + intros Heq.
      assert (existsb (fun k => String.eqb (key_hash k) (key_hash row)) (api_keys t) = true)
        as Hex by (apply existsb_exists; exists k; split;
                   [assumption|now apply String.eqb_eq]).
      congruence.
  - intros u Hu. rewrite Hu in Hown. apply orb_false_iff in Hown as [Hex _].
    apply negb_false_iff, existsb_exists in Hex as (r & Hr & Heq).
    exists r. split; [now apply list_elem_of_In|now apply Z.eqb_eq].
Qed.

(** X18.  The key-creation endpoint always answers and changes [api_keys]
    only with a 201, and then by appending one row: its daily limit lies in
    10..100000, its expiry is a whole number of days, 1 to 3650, after the
    request, it is not paused and has used nothing, its fingerprint is the
    digest of the secret it stores, and neither its id nor its fingerprint
    occurred before.  A 201 is given only to a caller whose session
    validates; users and the usage log are never touched. *)
Theorem X18_created_keys_are_bounded h req w s :
  let s' := snd (CreateKey.handler h req w s) in
  exists resp,
    fst (CreateKey.handler h req w s) = Normal resp /\
    In (statusCode resp) [201; 400; 401; 405; 500] /\
    (statusCode resp <> 201 -> tables s' = tables s) /\
    (statusCode resp = 201 ->
     (exists d, fst (Auth.validateSession (CreateKey.admin_session req) w s) =
                Normal (Some d)) /\
     users (tables s') = users (tables s) /\
     api_usage_logs (tables s') = api_usage_logs (tables s) /\
     exists row days,
       api_keys (tables s') = api_keys (tables s) ++ [row] /\
       10 <= daily_limit row <= 100000 /\
       1 <= days <= 3650 /\ expires_at row = Some (now w + days * 86400000) /\
       is_paused row = false /\ daily_used row = 0 /\
       key_hash row = sha256_hex w (api_key row) /\
       forall k, k ∈ api_keys (tables s) -> id k <> id row /\ key_hash k <> key_hash row).
Proof.
  cbv zeta. destruct (create_cases h req w s) as (resp & s' & Hrun & Hcase).
  destruct Hcase as [(Hcode & f & days & limit & Hok)|[Hcode Htab]].
  - destruct (create_run h w s req f days limit Hok) as (s'' & Hrun' & _ & Hkeys & Hu & Hl).
    rewrite Hrun'. cbn [fst snd]. eexists. split; [reflexivity|].
    split; [cbn; tauto|]. split; [intros Hne; now destruct Hne|]. intros _.
    destruct Hok as (_ & Hd & _ & _ & _ & _ & _ & Hdays & Hlimit & Hins).
    split; [assumption|]. split; [assumption|]. split; [assumption|].
    exists (created_row h w f days limit), days. split; [assumption|].
    cbn. repeat split; try lia. all: apply (insert_accepted _ _ Hins); assumption.
  - rewrite Hrun. cbn [fst snd]. exists resp. split; [reflexivity|].
    assert (statusCode resp <> 201) as Hne.
    { intros H. rewrite H in Hcode. cbn in Hcode.
      repeat (destruct Hcode as [Hcode|Hcode]; [discriminate|]). destruct Hcode. }
    split; [cbn in *; tauto|]. split; [intros _; assumption|].
    intros H. contradiction.
Qed.

Lemma filter_none {A} (P : A -> Prop) `{forall x, Decision (P x)} (l : list A) :
  (forall x, x ∈ l -> ~ P x) -> filter P l = [].
Proof.
  induction l as [|x l IH]; intros Hno; [reflexivity|].
  rewrite filter_cons, decide_False by (apply Hno; left).
  apply IH. intros y Hy. apply Hno. now right.
Qed.

(** What the join finds for a fingerprint that only the last row carries. *)
Lemma key_join_user_new_row t row u hash :
  (forall k, k ∈ api_keys t -> key_hash k <> hash) ->
  key_hash row = hash ->
  user_id row = Some u ->
  Db.key_join_user (with_api_keys (api_keys t ++ [row]) t) hash =
  map (Db.select_key row) (filter (fun r => Some u = Some (u_id r)) (users t)).
Proof.
  intros Hfresh Hhash Hown. unfold Db.key_join_user.
  cbn [api_keys users with_api_keys]. rewrite filter_app.
  rewrite (filter_none _ (api_keys t)) by exact Hfresh.
  cbn [app]. rewrite filter_cons, decide_True by assumption.
  rewrite filter_nil. cbn [mbind list_bind app]. rewrite app_nil_r, Hown.
  induction (filter _ (users t)) as [|r l IH]; [reflexivity|].
  cbn [mbind list_bind map app]. now rewrite IH.
Qed.

(** X19.  A key created for an existing user works at once: a lookup that
    presents the secret shown in the 201 answer, with a valid subject, at
    any instant up to the key's expiry and from an address under the
    hourly limit, is admitted under the new row's id and budget. *)
Theorem X19_created_key_is_admitted h w s req f days limit w2 number owner :
  creatable h w s req f days limit ->
  CreateKey.owner_or_null (CreateKey.owner_id f) = Some owner ->
  random_key h <> "" ->
  Lookup.mobileRegex_test number = true ->
  sha256_hex w2 (random_key h) = sha256_hex w (random_key h) ->
  now w2 <= now w + days * 86400000 ->
  let s' := snd (CreateKey.handler h req w s) in
  let lookup := lookup_with (random_key h) number in
  under_ip_limit w2 s' lookup ->
  exists info,
    admitted w2 s' lookup info /\
    Db.ki_id info = next_key_id h /\ Db.ki_daily_limit info = limit /\
    Db.ki_user_id info = Some owner.
Proof.
  intros Hok Hown Hkey Hnum Hsha Hfresh. cbv zeta.
  destruct (create_run h w s req f days limit Hok)
    as (s' & Hrun & Htab & Hkeys & Hu & Hl).
  rewrite Hrun. cbn [snd]. intros Hip.
  destruct Hok as (_ & _ & _ & _ & _ & _ & _ & Hdays & Hlimit & Hins).
  destruct (insert_accepted _ _ Hins) as [Hnew Howner].
  set (row := created_row h w f days limit) in *.
  assert (user_id row = Some owner) as Hrow_owner by exact Hown.
  destruct (Howner owner Hrow_owner) as (r & Hr & Hrid).
  assert (exists u0, head (Db.key_join_user (tables s') (sha256_hex w (random_key h))) =
                     Some (Db.select_key row u0)) as [u0 Hhead].
  { rewrite Htab.
    rewrite (key_join_user_new_row _ row owner); try reflexivity; try assumption.
    - assert (r ∈ filter (fun r => Some owner = Some (u_id r)) (users (tables s))) as Hin
        by (apply list_elem_of_filter; split; [congruence|assumption]).
      destruct (filter _ (users (tables s))) as [|u0 rest]; [inversion Hin|].
      exists u0. reflexivity.
    - intros k Hk. now apply Hnew. }
  exists (Db.select_key row u0).
  assert (Js.truthy_str (Some (random_key h)) = true) as Htk.
  { cbn. now destruct (String.eqb_spec (random_key h) ""). }
  assert (Js.truthy_str (Some number) = true) as Htn.
  { cbn. destruct (String.eqb_spec number "") as [->|]; [discriminate Hnum|reflexivity]. }
  split; [|repeat split; assumption].
  unfold admitted. split; [repeat split; assumption|]. split; [exact Hnum|].
  split. { unfold resolves, secret. cbn [lookup_with Lookup.q_key].
           change (default "" (Some (random_key h))) with (random_key h).
           rewrite Hsha. exact Hhead. }
  split; [reflexivity|]. split.
  { cbn. apply Z.ltb_ge. exact Hfresh. }
  split; [exact Hip|].
  exists row. split; [|cbn; lia].
  unfold Db.rows_by_id. rewrite Hkeys, filter_app.
  rewrite (filter_none _ (api_keys (tables s)))
    by (intros k Hk; exact (proj1 (Hnew k Hk))).
  cbn [app]. rewrite filter_cons, decide_True by reflexivity. reflexivity.
Qed.

Lemma sample_creatable owner :
  (owner = Some 7 \/ owner = None) ->
  creatable sample_host (Sample.at_time (Fixture.noon + 10000)) Fixture.logged_in
    (create_request "30" "100" owner)
    {| CreateKey.expires_in_days := Some (Js.SStr "30");
       CreateKey.daily_limit_field := Some (Js.SStr "100");
       CreateKey.owner_id := owner |} 30 100.
Proof.
  intros Howner. unfold creatable. split; [reflexivity|].
  split; [eexists; vm_compute; reflexivity|].
  split; [reflexivity|]. split; [reflexivity|]. split; [reflexivity|].
  split; [reflexivity|]. split; [reflexivity|].
  split; [lia|]. split; [lia|].
  destruct Howner as [-> | ->]; vm_compute; reflexivity.
Qed.

(** The theorem at a concrete input: a 30-day key for user 7, used a
    minute after its creation. *)
Lemma X19_witness :
  exists info,
    admitted (Sample.at_time (Fixture.noon + 70000))
      (snd (CreateKey.handler sample_host (create_request "30" "100" (Some 7))
              (Sample.at_time (Fixture.noon + 10000)) Fixture.logged_in))
      (lookup_with "5f2c1d9a" "9876543210") info /\
    Db.ki_id info = 2.
Proof.
  destruct (X19_created_key_is_admitted sample_host
              (Sample.at_time (Fixture.noon + 10000)) Fixture.logged_in
              (create_request "30" "100" (Some 7)) _ 30 100
              (Sample.at_time (Fixture.noon + 70000)) "9876543210" 7
              (sample_creatable (Some 7) (or_introl eq_refl)))
    as (info & Hadm & Hid & _).
  - reflexivity.
  - discriminate.
  - reflexivity.
  - reflexivity.
  - vm_compute. discriminate.
  - vm_compute. reflexivity.
  - exists info. split; assumption.
Defined.

(** X20.  A key created without an owner can never be used: the endpoint
    accepts the request and answers 201 with the secret, but the row has no
    owner for key resolution to join, so a lookup presenting that secret is
    answered 401 "Invalid or expired API key". *)
Theorem X20_ownerless_key_never_resolves h w s req f days limit w2 number :
  creatable h w s req f days limit ->
  CreateKey.owner_or_null (CreateKey.owner_id f) = None ->
  random_key h <> "" ->
  Lookup.mobileRegex_test number = true ->
  sha256_hex w2 (random_key h) = sha256_hex w (random_key h) ->
  let s' := snd (CreateKey.handler h req w s) in
  statusCode (default (answer 0 Js.JNull)
                (match fst (CreateKey.handler h req w s) with
                 | Normal resp => Some resp | Throw _ => None end)) = 201 /\
  Lookup.handler (lookup_with (random_key h) number) w2 s' =
  (Normal (answer 401 (error_body "Invalid or expired API key")),
   resolved_sys w2 s' (lookup_with (random_key h) number)).
Proof.
  intros Hok Hown Hkey Hnum Hsha. cbv zeta.
  destruct (create_run h w s req f days limit Hok)
    as (s' & Hrun & Htab & Hkeys & Hu & Hl).
  rewrite Hrun. cbn [fst snd]. split; [reflexivity|].
  destruct Hok as (_ & _ & _ & _ & _ & _ & _ & _ & _ & Hins).
  destruct (insert_accepted _ _ Hins) as [Hnew _].
  apply pipeline_unknown_key.
  - repeat split. + cbn. now destruct (String.eqb_spec (random_key h) "").
    + cbn. destruct (String.eqb_spec number "") as [->|]; [discriminate Hnum|reflexivity].
  - exact Hnum.
  - unfold secret. cbn [lookup_with Lookup.q_key].
    change (default "" (Some (random_key h))) with (random_key h).
    destruct (head _) as [info|] eqn:Hhead; [|reflexivity]. exfalso.
    apply head_elem_of, key_join_user_origin in Hhead
      as (k & u & Hk & _ & Hhash & Hku & _).
    rewrite Hkeys in Hk. apply elem_of_app in Hk as [Hk|Hk].
    + apply (proj2 (Hnew k Hk)). rewrite Hhash, Hsha. reflexivity.
    + apply list_elem_of_singleton in Hk. subst k.
      cbn [created_row CreateKey.new_row user_id] in Hku. congruence.
Qed.

(** The theorem at a concrete input: the same key, created without owner. *)
Lemma X20_witness :
  fst (Lookup.handler (lookup_with "5f2c1d9a" "9876543210")
         (Sample.at_time (Fixture.noon + 70000))
         (snd (CreateKey.handler sample_host (create_request "30" "100" None)
                 (Sample.at_time (Fixture.noon + 10000)) Fixture.logged_in))) =
  Normal (answer 401 (error_body "Invalid or expired API key")).
Proof.
  refine (f_equal fst (proj2 (X20_ownerless_key_never_resolves sample_host
            (Sample.at_time (Fixture.noon + 10000)) Fixture.logged_in
            (create_request "30" "100" None) _ 30 100
            (Sample.at_time (Fixture.noon + 70000)) "9876543210"
            (sample_creatable None (or_intror eq_refl)) _ _ _ _))).
  - reflexivity.
  - discriminate.
  - reflexivity.
  - reflexivity.
Defined.

(** X21.  The range check lets a number of days through that [parseInt]
    cannot read: for an authorised request whose [expires_in_days] is
    present but not numeric, and whose daily limit passes its own check,
    the answer is not the 400 of the validation but 500, and no key is
    created. *)
Theorem X21_unreadable_days_end_in_500 h req w s f :
  CreateKey.method req = "POST" ->
  (exists d, fst (Auth.validateSession (CreateKey.admin_session req) w s) = Normal (Some d)) ->
  CreateKey.body req = Some f ->
  Js.truthy_scalar (CreateKey.expires_in_days f) = true ->
  Js.truthy_scalar (CreateKey.daily_limit_field f) = true ->
  CreateKey.expires_in_days f ≫= Js.parseInt = None ->
  nan_lt (CreateKey.daily_limit_field f ≫= Js.parseInt) 10 ||
  nan_gt (CreateKey.daily_limit_field f ≫= Js.parseInt) 100000 = false ->
  fst (CreateKey.handler h req w s) =
    Normal (answer 500 (error_body "Internal server error")) /\
  tables (snd (CreateKey.handler h req w s)) = tables s.
Proof.
  intros Hm [d Hd] Hb Hte Htl Hpd Hlimit.
  destruct (validateSession_frame w s (CreateKey.admin_session req))
    as (r & s1 & Hrun & Htab & Hcalls).
  rewrite Hrun in Hd. cbn [fst] in Hd. injection Hd as ->.
  unfold CreateKey.handler. rewrite Hm.
  change (negb (String.eqb "POST" "POST")) with false. cbn iota.
  unfold try_catch, CreateKey.create. rewrite run_bind, Hrun, Hb, Hte, Htl.
  cbn [negb orb]. rewrite Hpd. cbn [nan_lt nan_gt orb]. rewrite Hlimit.
  unfold Auth.hashApiKey, Passwords.generateApiKey. run_eff.
  split; [reflexivity|]. cbn. exact Htab.
Qed.

(** The theorem at a concrete input: [expires_in_days] is the text [soon]. *)
Lemma X21_witness :
  fst (CreateKey.handler sample_host (create_request "soon" "100" (Some 7))
         (Sample.at_time (Fixture.noon + 10000)) Fixture.logged_in) =
  Normal (answer 500 (error_body "Internal server error")).
Proof.
  refine (proj1 (X21_unreadable_days_end_in_500 sample_host
            (create_request "soon" "100" (Some 7))
            (Sample.at_time (Fixture.noon + 10000)) Fixture.logged_in _
            eq_refl _ eq_refl _ _ _ _)).
  - eexists. vm_compute. reflexivity.
  - reflexivity.
  - reflexivity.
  - reflexivity.
  - reflexivity.
Defined.

(* ===================================================================== *)
(** ** The password endpoint *)
(* ===================================================================== *)

Lemma update_user_keeps_identity n g t :
  (forall u, identity_of (g u) = identity_of u) ->
  map identity_of (users (ChangePassword.update_user n g t)) = map identity_of (users t).
Proof.
  intros Hg. unfold ChangePassword.update_user. cbn [users with_users].
  induction (users t) as [|u l IH]; [reflexivity|]. cbn [map]. rewrite IH.
  destruct (decide (u_id u = n)); [rewrite Hg|]; reflexivity.
Qed.

(** A request that passes the checks reaches the branch on whose password
    it is, with the session renewed and the tables as they were. *)
Lemma change_password_reaches_branch h w s req f d n user p :
  changeable w s req f d n user p ->
  exists s1,
    tables s1 = tables s /\
    ChangePassword.handler h req w s =
    try_catch (ChangePassword.change h d n user f)
      (fun _ => send_json 500 (error_body "Internal server error")) w s1.
Proof.
  intros (Hm & Hd & Hb & Hid & Hp & Hlen & Hn & Hint & Huser).
  destruct (validateSession_frame w s (ChangePassword.admin_session req))
    as (r & s1 & Hrun & Htab & _).
  rewrite Hrun in Hd. cbn [fst] in Hd. injection Hd as ->.
  exists s1. split; [assumption|].
  unfold ChangePassword.handler. rewrite Hm.
  change (negb (String.eqb "POST" "POST")) with false. cbn iota.
  unfold try_catch, ChangePassword.attempt_change.
  rewrite run_bind, Hrun, Hb, Hid, Hp, Hn, Hint.
  assert (Js.truthy_str (Some p) = true) as ->.
  { cbn. destruct p; [cbn in Hlen; lia|reflexivity]. }
  cbn [negb orb]. change (default "" (Some p)) with p.
  destruct (Nat.ltb_spec (String.length p) 6) as [Hlt|_]; [lia|].
  rewrite run_bind. unfold get_tables at 1. cbn beta iota.
  rewrite Htab, Huser. reflexivity.
Qed.

Lemma filter_by_id_has_id n (l : list UserRow) user :
  head (filter (fun u => u_id u = n) l) = Some user -> user ∈ l /\ u_id user = n.
Proof.
  intros H. apply head_elem_of, list_elem_of_filter in H. tauto.
Qed.

Lemma password_length_nonempty p : (6 <= String.length p)%nat -> p <> "".
Proof. intros H ->. cbn in H. lia. Qed.

(** X22.  Nobody can change their own password through this endpoint: the
    file calls [comparePassword] without importing it, so for an authorised
    request that names the caller's own user id and passes every check, the
    answer is 500 "Internal server error", whatever current password is
    presented, and the tables stay as they were. *)
Theorem X22_own_password_change_ends_in_500 h w s req f d n user p :
  changeable w s req f d n user p ->
  n = c_userId d ->
  fst (ChangePassword.handler h req w s) =
    Normal (answer 500 (error_body "Internal server error")) /\
  tables (snd (ChangePassword.handler h req w s)) = tables s.
Proof.
  intros Hok Hown.
  destruct (change_password_reaches_branch h w s req f d n user p Hok)
    as (s1 & Htab & ->).
  unfold try_catch, ChangePassword.change.
  destruct (decide (n = c_userId d)) as [_|Hne]; [|contradiction].
  run_eff. unfold unbound. run_eff. cbn [fst snd]. split; [reflexivity|assumption].
Qed.

Lemma sample_changeable uid n user current active :
  uid ≫= Js.parseInt = Some n ->
  Js.truthy_scalar uid = true -> RevokeKey.in_int4 n = true ->
  head (filter (fun u => u_id u = n) [admin_row true; clerk_row active]) = Some user ->
  changeable (Sample.at_time (Fixture.noon + 10000)) (staffed active)
    {| ChangePassword.method := "POST";
       ChangePassword.admin_session := Some Fixture.sid;
       ChangePassword.body :=
         Some {| ChangePassword.user_id_field := uid;
                 ChangePassword.current_password := current;
                 ChangePassword.new_password := Some "new-secret" |} |}
    {| ChangePassword.user_id_field := uid;
       ChangePassword.current_password := current;
       ChangePassword.new_password := Some "new-secret" |}
    (claims (issued_token (Sample.at_time Fixture.noon) 7 "ops")) n user "new-secret".
Proof.
  intros Hn Hid Hint Huser. unfold changeable.
  split; [reflexivity|]. split; [vm_compute; reflexivity|].
  split; [reflexivity|]. split; [exact Hid|]. split; [reflexivity|].
  split; [cbn; lia|]. split; [exact Hn|]. split; [exact Hint|]. exact Huser.
Qed.

(** The theorem at a concrete input: the administrator, logged in, presents
    the right current password. *)
Lemma X22_witness :
  fst (ChangePassword.handler sample_host
         (password_request "7" (Some "hunter22") "new-secret")
         (Sample.at_time (Fixture.noon + 10000)) (staffed true)) =
  Normal (answer 500 (error_body "Internal server error")).
Proof.
  refine (proj1 (X22_own_password_change_ends_in_500 sample_host
            (Sample.at_time (Fixture.noon + 10000)) (staffed true)
            (password_request "7" (Some "hunter22") "new-secret") _ _ 7
            (admin_row true) "new-secret"
            (sample_changeable (Some (Js.SStr "7")) 7 (admin_row true)
               (Some "hunter22") true eq_refl eq_refl eq_refl _) _)).
  - vm_compute. reflexivity.
  - reflexivity.
Defined.

Lemma filter_map_commute (P : UserRow -> Prop) `{forall u, Decision (P u)}
    (g : UserRow -> UserRow) (l : list UserRow) :
  (forall u, P (g u) <-> P u) -> filter P (map g l) = map g (filter P l).
Proof.
  intros Hg. induction l as [|u l IH]; [reflexivity|]. cbn [map].
  rewrite !filter_cons. destruct (decide (P (g u))) as [Hy|Hn].
  - rewrite decide_True by (now apply Hg). cbn [map]. now rewrite IH.
  - rewrite decide_False by (now rewrite <- Hg). exact IH.
Qed.

Lemma head_map {A B} (g : A -> B) (l : list A) : head (map g l) = g <$> head l.
Proof. destruct l; reflexivity. Qed.

(** The first active row of a name after an update that keeps names and
    activity flags. *)
Lemma active_head_after_update n g t name who :
  (forall u, username (g u) = username u /\ is_active (g u) = is_active u) ->
  head (Login.active_users_named t name) = Some who ->
  head (Login.active_users_named (ChangePassword.update_user n g t) name) =
  Some (if decide (u_id who = n) then g who else who).
Proof.
  intros Hg Hwho. unfold Login.active_users_named, ChangePassword.update_user in *.
  cbn [users with_users]. rewrite filter_map_commute.
  - rewrite head_map, Hwho. reflexivity.
  - intros u. destruct (decide (u_id u = n)); [|tauto].
    destruct (Hg u) as [-> ->]. tauto.
Qed.

(** A login that finds an active row whose hash the password matches. *)
Lemma login_welcomes h req w s name password who :
  Login.method req = "POST" ->
  Login.credentials req =
    Some {| Login.c_name := Some name; Login.c_password := Some password |} ->
  name <> "" -> password <> "" ->
  head (Login.active_users_named (tables s) name) = Some who ->
  bcrypt_compare h password (password_hash who) = true ->
  fst (Login.handler h req w s) = Normal (welcome w who).
Proof.
  intros Hm Hc Hname Hpass Hwho Hcmp.
  pose proof (login_exits h req w s name password Hm Hc Hname Hpass) as Hexit.
  destruct (Login.handler h req w s) as [r s']. cbn [fst snd] in *.
  destruct Hexit as [Hnone|user Huser Hbad|user Huser Hgood]; congruence.
Qed.

(** A login that finds an active row whose hash the password does not match. *)
Lemma login_refuses h req w s name password who :
  Login.method req = "POST" ->
  Login.credentials req =
    Some {| Login.c_name := Some name; Login.c_password := Some password |} ->
  name <> "" -> password <> "" ->
  head (Login.active_users_named (tables s) name) = Some who ->
  bcrypt_compare h password (password_hash who) = false ->
  fst (Login.handler h req w s) = Normal (bare 401 (error_body "Invalid credentials")).
Proof.
  intros Hm Hc Hname Hpass Hwho Hcmp.
  pose proof (login_exits h req w s name password Hm Hc Hname Hpass) as Hexit.
  destruct (Login.handler h req w s) as [r s']. cbn [fst snd] in *.
  destruct Hexit as [Hnone|user Huser Hbad|user Huser Hgood]; congruence.
Qed.

(** What the endpoint does for another user's password. *)
Lemma change_password_run h w s req f d n user p :
  changeable w s req f d n user p ->
  n <> c_userId d ->
  exists s',
    ChangePassword.handler h req w s =
      (Normal (answer 200 (ChangePassword.changed_body user (now w))), s') /\
    tables s' = password_set h w n p (tables s).
Proof.
  intros Hok Hother.
  destruct (change_password_reaches_branch h w s req f d n user p Hok)
    as (s1 & Htab & ->).
  destruct Hok as (_ & _ & _ & _ & Hp & _).
  unfold try_catch, ChangePassword.change.
  destruct (decide (n = c_userId d)) as [|_]; [contradiction|].
  run_eff. rewrite Hp. change (default "" (Some p)) with p.
  eexists. split; [reflexivity|]. cbn [tables with_tables]. rewrite Htab. reflexivity.
Qed.

(** X23.  An administrator resets another user's password without knowing
    the current one: for an authorised request that names a user other than
    the caller and passes the checks, whatever [current_password] holds, the
    answer is 200; every row keeps its id, name, creation date and activity
    flag; the rows with the given id carry the hash of the new password and
    the date of the change; every other row, the keys and the usage log are
    as they were. *)
Theorem X23_reset_of_another_users_password h w s req f d n user p :
  changeable w s req f d n user p ->
  n <> c_userId d ->
  let t' := tables (snd (ChangePassword.handler h req w s)) in
  fst (ChangePassword.handler h req w s) =
    Normal (answer 200 (ChangePassword.changed_body user (now w))) /\
  api_keys t' = api_keys (tables s) /\
  api_usage_logs t' = api_usage_logs (tables s) /\
  Forall2 (fun u u' =>
             identity_of u' = identity_of u /\
             (u_id u = n ->
              password_hash u' = bcrypt_hash h p /\ last_password_change u' = now w) /\
             (u_id u <> n -> u' = u))
    (users (tables s)) (users t').
Proof.
  intros Hok Hother. cbv zeta.
  destruct (change_password_run h w s req f d n user p Hok Hother) as (s' & -> & Htab).
  cbn [fst snd]. rewrite Htab. split; [reflexivity|]. split; [reflexivity|].
  split; [reflexivity|].
  unfold password_set, ChangePassword.update_user. cbn [users with_users].
  induction (users (tables s)) as [|u l IH]; constructor; [|exact IH].
  destruct (decide (u_id u = n)) as [Hid|Hid].
  - split; [reflexivity|]. split; [intros _; split; reflexivity|]. intros Hne. contradiction.
  - split; [reflexivity|]. split; [intros Heq; contradiction|]. reflexivity.
Qed.

(** The theorem at a concrete input: the administrator sets the clerk's
    password, with no current password in the request. *)
Lemma X23_witness :
  fst (ChangePassword.handler sample_host (password_request "9" None "new-secret")
         (Sample.at_time (Fixture.noon + 10000)) (staffed true)) =
  Normal (answer 200 (ChangePassword.changed_body (clerk_row true) (Fixture.noon + 10000))).
Proof.
  refine (proj1 (X23_reset_of_another_users_password sample_host
            (Sample.at_time (Fixture.noon + 10000)) (staffed true)
            (password_request "9" None "new-secret") _ _ 9
            (clerk_row true) "new-secret"
            (sample_changeable (Some (Js.SStr "9")) 9 (clerk_row true)
               None true eq_refl eq_refl eq_refl _) _)).
  - vm_compute. reflexivity.
  - vm_compute. discriminate.
Defined.

(** X24.  After such a reset the new password opens a session and the old
    one no longer does: when the user is active and [bcrypt.compare] accepts
    a password against its own hash, a login with the user's name and the new
    password is answered 200 with the session cookie; a login with any
    password the new hash does not match is answered 401. *)
Theorem X24_new_password_logs_in h w s req f d n user p lreq w2 name password :
  changeable w s req f d n user p ->
  n <> c_userId d ->
  head (Login.active_users_named (tables s) name) = Some user ->
  name <> "" -> password <> "" ->
  Login.method lreq = "POST" ->
  Login.credentials lreq =
    Some {| Login.c_name := Some name; Login.c_password := Some password |} ->
  let s' := snd (ChangePassword.handler h req w s) in
  let row := ChangePassword.set_password (bcrypt_hash h p) (now w) user in
  fst (Login.handler h lreq w2 s') =
  Normal (if bcrypt_compare h password (bcrypt_hash h p) then welcome w2 row
          else bare 401 (error_body "Invalid credentials")).
Proof.
  intros Hok Hother Hactive Hname Hpass Hm Hc. cbv zeta.
  destruct (change_password_run h w s req f d n user p Hok Hother) as (s' & -> & Htab).
  cbn [snd].
  destruct Hok as (_ & _ & _ & _ & _ & _ & _ & _ & Huser).
  apply filter_by_id_has_id in Huser as [_ Hid].
  assert (head (Login.active_users_named (tables s') name) =
          Some (ChangePassword.set_password (bcrypt_hash h p) (now w) user)) as Hrow.
  { rewrite Htab. unfold password_set.
    erewrite active_head_after_update; [|intros u; split; reflexivity|exact Hactive].
    rewrite decide_True by exact Hid. reflexivity. }
  destruct (bcrypt_compare h password (bcrypt_hash h p)) eqn:Hcmp.
  - eapply login_welcomes; eauto.
  - eapply login_refuses; eauto.
Qed.

(** The theorem at a concrete input: the clerk logs in with the new password. *)
Lemma X24_witness :
  fst (Login.handler sample_host (login_request "clerk" "new-secret")
         (Sample.at_time (Fixture.noon + 20000))
         (snd (ChangePassword.handler sample_host
                 (password_request "9" None "new-secret")
                 (Sample.at_time (Fixture.noon + 10000)) (staffed true)))) =
  Normal (welcome (Sample.at_time (Fixture.noon + 20000))
            (ChangePassword.set_password "bcrypt:new-secret" (Fixture.noon + 10000)
               (clerk_row true))).
Proof.
  refine (X24_new_password_logs_in sample_host
            (Sample.at_time (Fixture.noon + 10000)) (staffed true)
            (password_request "9" None "new-secret") _ _ 9
            (clerk_row true) "new-secret" (login_request "clerk" "new-secret")
            (Sample.at_time (Fixture.noon + 20000)) "clerk" "new-secret"
            (sample_changeable (Some (Js.SStr "9")) 9 (clerk_row true)
               None true eq_refl eq_refl eq_refl _) _ _ _ _ eq_refl eq_refl).
  - vm_compute. reflexivity.
  - vm_compute. discriminate.
  - vm_compute. reflexivity.
  - discriminate.
  - discriminate.
Defined.

(** The outcomes of the password endpoint. *)
Lemma change_password_cases h req w s :
  exists resp s',
    ChangePassword.handler h req w s = (Normal resp, s') /\
    ((In (statusCode resp) [400; 401; 404; 405; 500] /\ tables s' = tables s) \/
     (statusCode resp = 200 /\
      exists d f n p,
        fst (Auth.validateSession (ChangePassword.admin_session req) w s) = Normal (Some d) /\
        ChangePassword.body req = Some f /\
        ChangePassword.user_id_field f ≫= Js.parseInt = Some n /\
        n <> c_userId d /\
        tables s' = password_set h w n p (tables s))).
Proof.
  destruct (validateSession_frame w s (ChangePassword.admin_session req))
    as (r & s1 & Hrun & Htab & _).
  unfold ChangePassword.handler.
  destruct (String.eqb (ChangePassword.method req) "POST"); cbn [negb];
    [|eexists _, _; split; [reflexivity|left; split; [cbn; tauto|reflexivity]]].
  rewrite Hrun. cbn [fst].
  unfold try_catch, ChangePassword.attempt_change. rewrite run_bind, Hrun.
  destruct r as [d|];
    [|eexists _, _; split; [reflexivity|left; split; [cbn; tauto|assumption]]].
  destruct (ChangePassword.body req) as [f|] eqn:Hb;
    [|eexists _, _; split; [reflexivity|left; split; [cbn; tauto|assumption]]].
  destruct (Js.truthy_scalar (ChangePassword.user_id_field f)); cbn [negb orb];
    [|eexists _, _; split; [reflexivity|left; split; [cbn; tauto|assumption]]].
  destruct (Js.truthy_str (ChangePassword.new_password f)); cbn [negb];
    [|eexists _, _; split; [reflexivity|left; split; [cbn; tauto|assumption]]].
  destruct (Nat.ltb _ 6);
    [eexists _, _; split; [reflexivity|left; split; [cbn; tauto|assumption]]|].
  destruct (ChangePassword.user_id_field f ≫= Js.parseInt) as [n|] eqn:Hn;
    [|eexists _, _; split; [reflexivity|left; split; [cbn; tauto|assumption]]].
  destruct (RevokeKey.in_int4 n);
    [|eexists _, _; split; [reflexivity|left; split; [cbn; tauto|assumption]]].
  rewrite run_bind. unfold get_tables at 1. cbn beta iota.
  destruct (head _) as [user|];
    [|eexists _, _; split; [reflexivity|left; split; [cbn; tauto|assumption]]].
  unfold ChangePassword.change.
  destruct (decide (n = c_userId d)) as [Hown|Hother].
  - run_eff. unfold unbound. run_eff.
    eexists _, _; split; [reflexivity|left; split; [cbn; tauto|assumption]].
  - run_eff. eexists _, _. split; [reflexivity|]. right. split; [reflexivity|].
    exists d, f, n, (default "" (ChangePassword.new_password f)).
    split; [reflexivity|]. split; [reflexivity|]. split; [assumption|].
    split; [assumption|]. cbn [tables with_tables]. rewrite Htab. reflexivity.
Qed.

(** X25.  The password endpoint always answers and never throws; whatever
    the request, the keys and the usage log stay as they were and every user
    keeps id, name, creation date and activity flag; the tables change only
    with a 200, and a 200 is given only to a caller whose session validates
    and who names a user id other than their own. *)
Theorem X25_password_endpoint_frame h req w s :
  exists resp,
    fst (ChangePassword.handler h req w s) = Normal resp /\
    In (statusCode resp) [200; 400; 401; 404; 405; 500] /\
    api_keys (tables (snd (ChangePassword.handler h req w s))) = api_keys (tables s) /\
    api_usage_logs (tables (snd (ChangePassword.handler h req w s))) =
      api_usage_logs (tables s) /\
    map identity_of (users (tables (snd (ChangePassword.handler h req w s)))) =
      map identity_of (users (tables s)) /\
    (statusCode resp <> 200 -> tables (snd (ChangePassword.handler h req w s)) = tables s) /\
    (statusCode resp = 200 ->
     exists d f n,
       fst (Auth.validateSession (ChangePassword.admin_session req) w s) = Normal (Some d) /\
       ChangePassword.body req = Some f /\
       ChangePassword.user_id_field f ≫= Js.parseInt = Some n /\
       n <> c_userId d).
Proof.
  destruct (change_password_cases h req w s) as (resp & s' & Hrun & Hcase).
  rewrite Hrun. cbn [fst snd]. exists resp. split; [reflexivity|].
  destruct Hcase as [[Hcode Htab]|(Hcode & d & f & n & p & Hd & Hb & Hn & Hother & Htab)].
  - assert (statusCode resp <> 200) as Hne.
    { intros H200. rewrite H200 in Hcode. cbn in Hcode.
      repeat (destruct Hcode as [Hcode|Hcode]; [discriminate|]). destruct Hcode. }
    split; [cbn in *; tauto|]. rewrite Htab. split; [reflexivity|].
    split; [reflexivity|]. split; [reflexivity|]. split; [reflexivity|].
    intros H200. contradiction.
  - split; [rewrite Hcode; cbn; tauto|]. rewrite Htab.
    split; [reflexivity|]. split; [reflexivity|].
    split; [apply update_user_keeps_identity; reflexivity|].
    split; [intros Hne; contradiction|]. intros _. exists d, f, n. auto.
Qed.

(* ===================================================================== *)
(** ** The users endpoint *)
(* ===================================================================== *)

Lemma long_enough_is_truthy x k : (S k <= String.length x)%nat -> Js.truthy_str (Some x) = true.
Proof. destruct x; cbn; [lia|reflexivity]. Qed.

(** What the endpoint does for a request that passes its checks. *)
Lemma users_add_run h w s req name password :
  addable h w s req name password ->
  exists s',
    Users.handler h req w s =
      (Normal (answer 201 (Users.created_body (Users.new_user h w name password))), s') /\
    tables s' =
      with_users (users (tables s) ++ [Users.new_user h w name password]) (tables s).
Proof.
  intros (Hm & [d Hd] & (flag & uid & Hb) & [Hlo Hhi] & Hpw & Hins).
  destruct (validateSession_frame w s (Users.admin_session req))
    as (r & s1 & Hrun & Htab & _).
  rewrite Hrun in Hd. cbn [fst] in Hd. injection Hd as ->.
  unfold Users.handler, try_catch, Users.manage. rewrite run_bind, Hrun, Hm, Hb.
  change (String.eqb "POST" "GET") with false.
  change (String.eqb "POST" "POST") with true. cbn iota.
  unfold Users.create_user. cbn [Users.f_username Users.f_password].
  rewrite (long_enough_is_truthy name 2) by lia.
  rewrite (long_enough_is_truthy password 5) by lia.
  cbn [negb orb]. change (default "" (Some name)) with name.
  change (default "" (Some password)) with password.
  destruct (Nat.ltb_spec (String.length name) 3); [lia|].
  destruct (Nat.ltb_spec 50 (String.length name)); [lia|].
  destruct (Nat.ltb_spec (String.length password) 6); [lia|].
  cbn [orb]. rewrite run_bind. unfold get_tables at 1. cbn beta iota.
  rewrite Htab. pose proof Hins as Hboth. unfold Users.insert_refused in Hboth.
  apply orb_false_elim in Hboth as [_ Hname]. cbn [username Users.new_user] in Hname.
  rewrite Hname. run_eff. rewrite Hins.
  eexists. split; [reflexivity|reflexivity].
Qed.

(** What the endpoint does for a request that reaches the update. *)
Lemma users_switch_run h w s req f n :
  switchable w s req f n ->
  exists resp s',
    Users.handler h req w s = (Normal resp, s') /\
    In (statusCode resp) [200; 404] /\
    tables s' =
      ChangePassword.update_user n
        (Users.set_activity (Users.to_boolean (Users.f_is_active f)) (now w)) (tables s).
Proof.
  intros (Hm & [d Hd] & Hb & Hid & Hn & Hint).
  destruct (validateSession_frame w s (Users.admin_session req))
    as (r & s1 & Hrun & Htab & _).
  rewrite Hrun in Hd. cbn [fst] in Hd. injection Hd as ->.
  unfold Users.handler, try_catch, Users.manage. rewrite run_bind, Hrun, Hm, Hb.
  change (String.eqb "PUT" "GET") with false.
  change (String.eqb "PUT" "POST") with false.
  change (String.eqb "PUT" "PUT") with true. cbn iota.
  unfold Users.update_activity. rewrite Hid, Hn, Hint. cbn [negb]. run_eff.
  rewrite Htab.
  destruct (head _) as [row|]; eexists _, _;
    (split; [reflexivity|split; [cbn; tauto|reflexivity]]).
Qed.

Lemma update_user_absent n g t :
  (forall u, u_id (g u) = u_id u) ->
  head (filter (fun u => u_id u = n) (users (ChangePassword.update_user n g t))) = None ->
  ChangePassword.update_user n g t = t.
Proof.
  intros Hg Hnone. destruct t as [keys us logs].
  unfold ChangePassword.update_user, with_users in *. cbn [users api_keys api_usage_logs] in *.
  f_equal. induction us as [|u l IH]; [reflexivity|]. cbn [map] in *.
  rewrite filter_cons in Hnone.
  destruct (decide (u_id u = n)) as [Hid|Hid].
  - rewrite decide_True in Hnone by (now rewrite Hg). discriminate.
  - rewrite decide_False in Hnone by exact Hid. now rewrite IH.
Qed.

Ltac unchanged_exit :=
  eexists _, _; split; [reflexivity|split; [reflexivity|split; [reflexivity|
    left; split; [cbn; tauto|assumption]]]].

(** The outcomes of the users endpoint: [s1] is the store after the session
    check. *)
Lemma users_cases h req w s :
  exists r s1 resp s',
    Auth.validateSession (Users.admin_session req) w s = (Normal r, s1) /\
    Users.handler h req w s = (Normal resp, s') /\
    kv s' = kv s1 /\
    ((In (statusCode resp) [400; 401; 404; 405; 409; 500] /\ tables s' = tables s) \/
     (statusCode resp = 201 /\ r <> None /\
      exists name password,
        Users.insert_refused (tables s) (Users.new_user h w name password) = false /\
        tables s' =
          with_users (users (tables s) ++ [Users.new_user h w name password]) (tables s)) \/
     (statusCode resp = 200 /\ r <> None /\
      exists n b,
        tables s' = ChangePassword.update_user n (Users.set_activity b (now w)) (tables s))).
Proof.
  destruct (validateSession_frame w s (Users.admin_session req))
    as (r & s1 & Hrun & Htab & _).
  exists r, s1. unfold Users.handler, try_catch, Users.manage. rewrite run_bind, Hrun.
  destruct r as [d|];
    [|unchanged_exit].
  destruct (String.eqb (Users.method req) "GET");
    [unchanged_exit|].
  destruct (String.eqb (Users.method req) "POST").
  { destruct (Users.body req) as [f|];
      [|unchanged_exit].
    unfold Users.create_user.
    destruct (negb (Js.truthy_str (Users.f_username f)) ||
              negb (Js.truthy_str (Users.f_password f)));
      [unchanged_exit|].
    destruct (_ || _);
      [unchanged_exit|].
    destruct (Nat.ltb _ 6);
      [unchanged_exit|].
    rewrite run_bind. unfold get_tables at 1. cbn beta iota. rewrite Htab.
    destruct (existsb _ _);
      [unchanged_exit|].
    run_eff.
    destruct (Users.insert_refused _ _) eqn:Hins;
      [unchanged_exit|].
    eexists _, _. split; [reflexivity|]. split; [reflexivity|]. split; [reflexivity|].
    right. left. split; [reflexivity|]. split; [discriminate|].
    eexists _, _. split; [exact Hins|reflexivity]. }
  destruct (String.eqb (Users.method req) "PUT");
    [|unchanged_exit].
  destruct (Users.body req) as [f|];
    [|unchanged_exit].
  unfold Users.update_activity.
  destruct (Js.truthy_scalar (Users.f_user_id f)); cbn [negb];
    [|unchanged_exit].
  destruct (Users.f_user_id f ≫= Js.parseInt) as [n|];
    [|unchanged_exit].
  destruct (RevokeKey.in_int4 n);
    [|unchanged_exit].
  run_eff. rewrite Htab.
  destruct (head _) as [row|] eqn:Hrow.
  - eexists _, _. split; [reflexivity|]. split; [reflexivity|]. split; [reflexivity|].
    right. right. split; [reflexivity|]. split; [discriminate|].
    eexists _, _. reflexivity.
  - eexists _, _. split; [reflexivity|]. split; [reflexivity|]. split; [reflexivity|].
    left. split; [cbn; tauto|]. cbn [tables with_tables].
    apply update_user_absent; [reflexivity|exact Hrow].
Qed.

Lemma name_is_new (l : list UserRow) name :
  existsb (fun u => String.eqb (username u) name) l = false ->
  forall u, u ∈ l -> username u <> name.
Proof.
  intros Hex u Hu Hname.
  assert (existsb (fun u => String.eqb (username u) name) l = true) as Hyes.
  { apply existsb_exists. exists u. split; [now apply list_elem_of_In|].
    now apply String.eqb_eq. }
  congruence.
Qed.

(** X26.  A user the endpoint has created can log in: after an authorised
    [POST] with a name of 3 to 50 characters not yet taken and a password of
    at least 6 characters is answered 201, a login with that name and
    password is answered 200 with the session cookie, provided
    [bcrypt.compare] accepts a password against its own hash. *)
Theorem X26_created_user_can_log_in h w s req name password lreq w2 :
  addable h w s req name password ->
  bcrypt_compare h password (bcrypt_hash h password) = true ->
  Login.method lreq = "POST" ->
  Login.credentials lreq =
    Some {| Login.c_name := Some name; Login.c_password := Some password |} ->
  fst (Users.handler h req w s) =
    Normal (answer 201 (Users.created_body (Users.new_user h w name password))) /\
  fst (Login.handler h lreq w2 (snd (Users.handler h req w s))) =
    Normal (welcome w2 (Users.new_user h w name password)).
Proof.
  intros Hok Hcmp Hm Hc.
  destruct (users_add_run h w s req name password Hok) as (s' & -> & Htab).
  cbn [fst snd]. split; [reflexivity|].
  destruct Hok as (_ & _ & _ & [Hlo _] & Hpw & Hins).
  apply login_welcomes with (name := name) (password := password); try assumption.
  - intros ->. cbn in Hlo. lia.
  - intros ->. cbn in Hpw. lia.
  - rewrite Htab. unfold Login.active_users_named. cbn [users with_users].
    rewrite filter_app. unfold Users.insert_refused in Hins.
    apply orb_false_elim in Hins as [_ Hname]. cbn [username Users.new_user] in Hname.
    rewrite (filter_none _ (users (tables s))).
    + rewrite filter_cons, decide_True by (split; reflexivity). reflexivity.
    + intros u Hu [Hn _]. exact (name_is_new _ _ Hname u Hu Hn).
Qed.

Lemma sample_addable :
  addable sample_host (Sample.at_time (Fixture.noon + 10000)) (staffed true)
    (add_request "auditor" "s3cret-pw") "auditor" "s3cret-pw".
Proof.
  unfold addable. split; [reflexivity|].
  split; [eexists; vm_compute; reflexivity|].
  split; [eexists _, _; reflexivity|].
  split; [cbn; lia|]. split; [cbn; lia|]. vm_compute. reflexivity.
Qed.

(** The theorem at a concrete input: the administrator adds an auditor, who
    then logs in. *)
Lemma X26_witness :
  fst (Login.handler sample_host (login_request "auditor" "s3cret-pw")
         (Sample.at_time (Fixture.noon + 20000))
         (snd (Users.handler sample_host (add_request "auditor" "s3cret-pw")
                 (Sample.at_time (Fixture.noon + 10000)) (staffed true)))) =
  Normal (welcome (Sample.at_time (Fixture.noon + 20000))
            (Users.new_user sample_host (Sample.at_time (Fixture.noon + 10000))
               "auditor" "s3cret-pw")).
Proof.
  exact (proj2 (X26_created_user_can_log_in sample_host
                  (Sample.at_time (Fixture.noon + 10000)) (staffed true)
                  (add_request "auditor" "s3cret-pw") "auditor" "s3cret-pw"
                  (login_request "auditor" "s3cret-pw")
                  (Sample.at_time (Fixture.noon + 20000))
                  sample_addable eq_refl eq_refl eq_refl)).
Defined.

Lemma update_user_keeps_names n g t :
  (forall u, username (g u) = username u) ->
  map username (users (ChangePassword.update_user n g t)) = map username (users t).
Proof.
  intros Hg. unfold ChangePassword.update_user. cbn [users with_users].
  induction (users t) as [|u l IH]; [reflexivity|]. cbn [map]. rewrite IH.
  destruct (decide (u_id u = n)); [rewrite Hg|]; reflexivity.
Qed.

(** X27.  User names stay unique: if no two rows of [users] share a name
    before a request to the users endpoint, none do after it, whatever the
    request. *)
Theorem X27_user_names_stay_unique h req w s :
  NoDup (map username (users (tables s))) ->
  NoDup (map username (users (tables (snd (Users.handler h req w s))))).
Proof.
  intros Huniq.
  destruct (users_cases h req w s) as (r & s1 & resp & s' & _ & -> & _ & Hcase).
  cbn [snd].
  destruct Hcase as [[_ ->]|[(_ & _ & name & password & Hins & ->)|(_ & _ & n & b & ->)]].
  - exact Huniq.
  - cbn [users with_users]. rewrite map_app. apply NoDup_app.
    split; [exact Huniq|]. split; [|cbn; apply NoDup_singleton].
    intros x Hx Hnew. cbn in Hnew. apply list_elem_of_singleton in Hnew. subst x.
    apply list_elem_of_fmap in Hx as (u & Hname & Hu).
    unfold Users.insert_refused in Hins. apply orb_false_elim in Hins as [_ Hex].
    cbn [username Users.new_user] in Hex.
    exact (name_is_new _ _ Hex u Hu (eq_sym Hname)).
  - rewrite update_user_keeps_names by reflexivity. exact Huniq.
Qed.

(** The theorem at a concrete input: adding a user whose name is taken. *)
Lemma X27_witness :
  NoDup (map username
           (users (tables (snd (Users.handler sample_host (add_request "clerk" "s3cret-pw")
                                  (Sample.at_time (Fixture.noon + 10000))
                                  (staffed true)))))).
Proof.
  apply X27_user_names_stay_unique. vm_compute.
  apply NoDup_cons. split; [|apply NoDup_singleton].
  intros Hin. apply list_elem_of_singleton in Hin. discriminate Hin.
Defined.

(** X28.  A user switched off can no longer log in: after an authorised
    [PUT] for user id [n] whose [is_active] is falsy (or left out: the
    handler reads it through [Boolean]), a login under a name that only
    rows with id [n] carry is answered 401 "Invalid credentials", whatever
    the password. *)
Theorem X28_switched_off_user_cannot_log_in h w s req f n lreq w2 name password :
  switchable w s req f n ->
  Users.to_boolean (Users.f_is_active f) = false ->
  (forall u, u ∈ users (tables s) -> username u = name -> u_id u = n) ->
  Login.method lreq = "POST" ->
  Login.credentials lreq =
    Some {| Login.c_name := Some name; Login.c_password := Some password |} ->
  name <> "" -> password <> "" ->
  fst (Login.handler h lreq w2 (snd (Users.handler h req w s))) =
  Normal (bare 401 (error_body "Invalid credentials")).
Proof.
  intros Hok Hoff Hnamed Hm Hc Hname Hpass.
  destruct (users_switch_run h w s req f n Hok) as (resp & s' & -> & _ & Htab).
  cbn [snd]. rewrite Hoff in Htab.
  assert (head (Login.active_users_named (tables s') name) = None) as Hnone.
  { destruct (head _) as [user|] eqn:Huser; [|reflexivity]. exfalso.
    apply head_elem_of in Huser. unfold Login.active_users_named in Huser.
    apply list_elem_of_filter in Huser as [[Hn Ha] Hin].
    rewrite Htab in Hin. unfold ChangePassword.update_user in Hin.
    cbn [users with_users] in Hin.
    apply list_elem_of_fmap in Hin as (u & -> & Hu).
    destruct (decide (u_id u = n)) as [Hid|Hid].
    - cbn in Ha. discriminate Ha.
    - apply Hid, Hnamed; assumption. }
  pose proof (login_exits h lreq w2 s' name password Hm Hc Hname Hpass) as Hexit.
  destruct (Login.handler h lreq w2 s') as [r s'']. cbn [fst snd] in *.
  destruct Hexit as [_|user Huser _|user Huser _]; congruence.
Qed.

(** The theorem at a concrete input: a [PUT] for the clerk that leaves
    [is_active] out, then the clerk's login with the right password. *)
Lemma X28_witness :
  fst (Login.handler sample_host (login_request "clerk" "old-secret")
         (Sample.at_time (Fixture.noon + 20000))
         (snd (Users.handler sample_host (switch_request "9" None)
                 (Sample.at_time (Fixture.noon + 10000)) (staffed true)))) =
  Normal (bare 401 (error_body "Invalid credentials")).
Proof.
  refine (X28_switched_off_user_cannot_log_in sample_host
            (Sample.at_time (Fixture.noon + 10000)) (staffed true)
            (switch_request "9" None) _ 9 (login_request "clerk" "old-secret")
            (Sample.at_time (Fixture.noon + 20000)) "clerk" "old-secret"
            _ _ _ eq_refl eq_refl _ _).
  - unfold switchable. split; [reflexivity|].
    split; [eexists; vm_compute; reflexivity|].
    split; [reflexivity|]. split; [reflexivity|]. split; reflexivity.
  - reflexivity.
  - intros u Hu Hn. apply list_elem_of_In in Hu. cbn in Hu.
    destruct Hu as [<-|[<-|[]]]; [discriminate Hn|reflexivity].
  - discriminate.
  - discriminate.
Defined.

(** Validation touches no session but the one presented. *)
Lemma validateSession_other_key sessionId w s sid2 :
  sessionId <> Some sid2 ->
  kv (snd (Auth.validateSession sessionId w s)) !! Auth.session_key sid2 =
  kv s !! Auth.session_key sid2.
Proof.
  intros Hother.
  destruct (validateSession_cases w s sessionId) as (r & s1 & Hrun & _ & _ & Hsome & Hnone).
  destruct r as [d|].
  - destruct (Hsome d eq_refl) as (sid & e & -> & Hchecks & _).
    rewrite (validateSession_success w s sid e Hchecks). cbn [snd kv with_kv].
    apply lookup_insert_ne. intros Heq. apply session_key_inj in Heq. congruence.
  - rewrite Hrun. cbn [snd]. now rewrite (Hnone eq_refl).
Qed.

(** X29.  Switching a user off does not end the sessions that user has
    open: the users endpoint touches no session but the caller's, so
    whatever the request, a session that would validate before it validates
    after it, to the same claims. *)
Theorem X29_users_endpoint_keeps_other_sessions h req w s sid2 e2 w2 :
  Users.admin_session req <> Some sid2 ->
  session_checks w2 s sid2 e2 ->
  fst (Auth.validateSession (Some sid2) w2 (snd (Users.handler h req w s))) =
  Normal (Some (claims (token (kv_value e2)))).
Proof.
  intros Hother (Hsid & Hlook & Hrest).
  pose proof (validateSession_other_key (Users.admin_session req) w s sid2 Hother) as Hkv.
  destruct (users_cases h req w s) as (r & s1 & resp & s' & Hrun & -> & Hsame & _).
  rewrite Hrun in Hkv. cbn [snd] in *.
  rewrite (validateSession_success w2 s' sid2 e2); [reflexivity|].
  split; [assumption|]. split; [|assumption]. rewrite Hsame, Hkv. exact Hlook.
Qed.

(** The theorem at a concrete input: the clerk is switched off while logged
    in, and the clerk's session validates a minute later. *)
Lemma X29_witness :
  fst (Auth.validateSession (Some clerk_sid) (Sample.at_time (Fixture.noon + 70000))
         (snd (Users.handler sample_host (switch_request "9" (Some (Js.JBool false)))
                 (Sample.at_time (Fixture.noon + 10000)) both_logged_in))) =
  Normal (Some (claims (issued_token (Sample.at_time Fixture.noon) 9 "clerk"))).
Proof.
  refine (X29_users_endpoint_keeps_other_sessions sample_host
            (switch_request "9" (Some (Js.JBool false)))
            (Sample.at_time (Fixture.noon + 10000)) both_logged_in
            clerk_sid clerk_entry (Sample.at_time (Fixture.noon + 70000)) _ _).
  - discriminate.
  - unfold session_checks. split; [discriminate|].
    split; [vm_compute; reflexivity|].
    split; [reflexivity|]. split; [reflexivity|]. split; reflexivity.
Defined.

(** X30.  The users endpoint always answers and never throws; whatever the
    request, the keys and the usage log stay as they were; the users change
    only with a 200 or a 201, and those are given only to a caller whose
    session validates. *)
Theorem X30_users_endpoint_frame h req w s :
  exists resp,
    fst (Users.handler h req w s) = Normal resp /\
    In (statusCode resp) [200; 201; 400; 401; 404; 405; 409; 500] /\
    api_keys (tables (snd (Users.handler h req w s))) = api_keys (tables s) /\
    api_usage_logs (tables (snd (Users.handler h req w s))) = api_usage_logs (tables s) /\
    (statusCode resp <> 200 -> statusCode resp <> 201 ->
     tables (snd (Users.handler h req w s)) = tables s) /\
    (statusCode resp = 200 \/ statusCode resp = 201 ->
     exists d, fst (Auth.validateSession (Users.admin_session req) w s) = Normal (Some d)).
Proof.
  destruct (users_cases h req w s) as (r & s1 & resp & s' & Hrun & -> & _ & Hcase).
  rewrite Hrun. cbn [fst snd]. exists resp. split; [reflexivity|].
  destruct Hcase as [[Hcode ->]|[(Hcode & Hr & name & password & _ & ->)|
                                 (Hcode & Hr & n & b & ->)]].
  - assert (statusCode resp <> 200 /\ statusCode resp <> 201) as [H200 H201].
    { split; intros Heq; rewrite Heq in Hcode; cbn in Hcode;
        repeat (destruct Hcode as [Hcode|Hcode]; [discriminate|]); destruct Hcode. }
    split; [cbn in *; tauto|]. split; [reflexivity|]. split; [reflexivity|].
    split; [reflexivity|]. intros [Heq|Heq]; contradiction.
  - split; [rewrite Hcode; cbn; tauto|]. split; [reflexivity|]. split; [reflexivity|].
    split; [intros _ Hne; contradiction|]. intros _.
    destruct r as [d|]; [exists d; reflexivity|contradiction].
  - split; [rewrite Hcode; cbn; tauto|]. split; [reflexivity|]. split; [reflexivity|].
    split; [intros Hne; contradiction|]. intros _.
    destruct r as [d|]; [exists d; reflexivity|contradiction].
Qed.
